(** * TenderChain: notification fan-out, interest matching, signup and
      project routes

    A shallow embedding of
      - [src/app/api/projects/route.ts]  (the /api/projects handlers and the
        notification library that follows them in the same file), and
      - [src/app/api/auth/signup/route.ts] (the signup handler).

    Modelling conventions.
      - JavaScript strings are [string]s, holding the UTF-8 bytes of the
        text; [length] counts UTF-16 code units as JavaScript does, and
        [toLowerCase] acts on the letters A-Z, which is all the (pure
        ASCII) keyword tables can observe.
      - A value that may be [undefined]/[null] is an [option]; JavaScript
        truthiness of such a string is [truthy] (absent and the empty string
        are falsy).
      - Document keys ([_id]) are identified with their string rendering, so
        [toString] on a key is the identity and a query by a rendered key
        selects the document that has this key.
      - The document store is a record of three collections, each a list in
        insertion order, together with a log of the driver calls issued.
      - Handlers run in a state-and-exception monad over the [World]: what a
        handler wrote before it threw stays written.
      - The collaborators that live outside these files (email transport,
        clock, key generation, password hashing, token handling) are the
        fields of an environment [Env]; the email transport may reject any
        send. *)

From Stdlib Require Import String Ascii List Bool Arith ZArith Lia DecimalString.
From Stdlib Require Import Sorted Permutation.
Import ListNotations.
Local Open Scope string_scope.
Local Open Scope list_scope.

Set Implicit Arguments.

(** ** JavaScript string helpers *)

Module Js.

(** [c.toLowerCase()] on one code unit: A-Z move to a-z. *)
Definition lowerAscii (c : ascii) : ascii :=
  let n := nat_of_ascii c in
  if Nat.leb 65 n && Nat.leb n 90 then ascii_of_nat (n + 32) else c.

Fixpoint toLowerCase (s : string) : string :=
  match s with
  | EmptyString => EmptyString
  | String c r => String (lowerAscii c) (toLowerCase r)
  end.

(** [s.startsWith(p)] *)
Fixpoint startsWith (s p : string) : bool :=
  match p, s with
  | EmptyString, _ => true
  | String _ _, EmptyString => false
  | String a p', String b s' => Ascii.eqb a b && startsWith s' p'
  end.

(** [s.includes(sub)] *)
Fixpoint includes (s sub : string) : bool :=
  startsWith s sub ||
  match s with
  | EmptyString => false
  | String _ r => includes r sub
  end.

(** [s.substring(n)] *)
Fixpoint substringFrom (n : nat) (s : string) : string :=
  match n, s with
  | O, _ => s
  | S _, EmptyString => EmptyString
  | S k, String _ r => substringFrom k r
  end.

(** [s.length]: the number of UTF-16 code units of the text whose UTF-8
    bytes are [s].  A byte below 128 and the lead byte of a sequence of two
    or three bytes stand for one unit, a continuation byte (128..191) for
    none, and a sequence of four bytes for the two units of a surrogate
    pair. *)
Fixpoint length (s : string) : nat :=
  match s with
  | EmptyString => 0
  | String c r =>
      let n := nat_of_ascii c in
      if Nat.ltb n 128 then S (length r)
      else if Nat.ltb n 192 then length r
      else if Nat.ltb n 240 then S (length r)
      else match r with
           | String _ (String _ (String _ r')) => S (S (length r'))
           | _ => S (length r)
           end
  end.

(** Truthiness of a possibly absent string. *)
Definition truthy (v : option string) : bool :=
  match v with
  | None => false
  | Some s => negb (String.eqb s "")
  end.

(** [xs.includes(x)] on an array of strings (strict equality). *)
Definition arrayIncludes (xs : list string) (x : string) : bool :=
  existsb (String.eqb x) xs.

(** [xs.join(sep)] *)
Fixpoint join (sep : string) (xs : list string) : string :=
  match xs with
  | [] => ""
  | [x] => x
  | x :: r => (x ++ sep ++ join sep r)%string
  end.

End Js.

(** ** Data model *)

Inductive NotificationType : Type :=
| PROJECT_CREATED | PROJECT_PUBLISHED | BID_SUBMITTED | PROFILE_CREATED
| BID_ACCEPTED | BID_REJECTED | TENDER_DEADLINE | DOCUMENT_VERIFIED
| DOCUMENT_UPLOADED | TENDER_DOCUMENT_UPLOADED | BID_DOCUMENT_UPLOADED
| PROJECT_STATUS_CHANGED | TENDER_UPDATED | NEW_TENDER_AVAILABLE
| SIGNUP_COMPLETE.

Record Metadata : Type := mkMetadata {
  projectId : option string;
  bidId : option string;
  tenderId : option string;
  profileId : option string }.

Record Notification : Type := mkNotification {
  n_id : string;
  userId : string;
  type : NotificationType;
  title : string;
  message : string;
  read : bool;
  createdAt : Z;
  metadata : option Metadata }.

(** The preference object; each flag may be left out by the caller. *)
Record Preferences : Type := mkPreferences {
  pref_email : option bool;
  pref_inApp : option bool;
  pref_push : option bool }.

Record User : Type := mkUser {
  u_id : string;
  email : option string;
  password : string;
  companyName : string;
  userType : string;
  bidderType : option string;
  isVerified : bool;
  verificationToken : string;
  verificationExpires : Z;
  notificationPreferences : option Preferences;
  u_createdAt : Z;
  u_updatedAt : Z }.

(** [budget] and [deadline] keep the text that [parseFloat] and [new Date]
    are applied to. *)
Record Project : Type := mkProject {
  p_id : string;
  p_title : string;
  p_description : string;
  p_budget : string;
  p_location : option string;
  p_deadline : string;
  p_category : string;
  p_duration : option string;
  p_specifications : option string;
  p_requirements : list string;
  p_documents : list string;
  p_hasFiles : bool;
  p_status : string;
  p_bidCount : nat;
  p_progress : nat;
  p_tenderId : string;
  p_createdBy : string;
  p_tenderCompany : string;
  p_createdAt : Z;
  p_updatedAt : Z }.

(** ** Interest Matcher: the pure part of [getInterestedBidders] *)

Module Matcher.

Definition categoryToBidderType : list (string * list string) :=
  [ ("Construction", ["CONTRACTOR"]);
    ("Infrastructure", ["CONTRACTOR"]);
    ("Renovation", ["CONTRACTOR"]);
    ("Software Development", ["DEVELOPER"]);
    ("IT Services", ["DEVELOPER"]);
    ("Digital Solutions", ["DEVELOPER"]);
    ("Technology", ["DEVELOPER"]);
    ("Equipment", ["SUPPLIER"]);
    ("Materials", ["SUPPLIER"]);
    ("Goods", ["SUPPLIER"]);
    ("Supply Chain", ["SUPPLIER"]);
    ("Professional Services", ["CONSULTANT"]);
    ("Advisory", ["CONSULTANT"]);
    ("Design", ["CONSULTANT"]);
    ("Consulting", ["CONSULTANT"]) ].

(** The condition of the [if] inside the loop over the table. *)
Definition keywordMatches (tenderCategory : string)
           (tenderSector : option string) (category : string) : bool :=
  Js.includes (Js.toLowerCase tenderCategory) (Js.toLowerCase category)
  || match tenderSector with
     | Some sector =>
         Js.truthy tenderSector
         && Js.includes (Js.toLowerCase sector) (Js.toLowerCase category)
     | None => false
     end.

(** The loop: [relevantBidderTypes.push(...bidderTypes)] per matching
    entry, in table order. *)
Fixpoint accumulate (tenderCategory : string) (tenderSector : option string)
         (table : list (string * list string)) : list string :=
  match table with
  | [] => []
  | (category, bidderTypes) :: rest =>
      if keywordMatches tenderCategory tenderSector category
      then bidderTypes ++ accumulate tenderCategory tenderSector rest
      else accumulate tenderCategory tenderSector rest
  end.

Definition fallbackBidderTypes : list string :=
  ["CONTRACTOR"; "DEVELOPER"; "SUPPLIER"; "CONSULTANT"].

Definition relevantBidderTypes (tenderCategory : string)
           (tenderSector : option string) : list string :=
  let relevant := accumulate tenderCategory tenderSector categoryToBidderType in
  if Nat.eqb (List.length relevant) 0 then fallbackBidderTypes else relevant.

(** The query document
    [{ userType: 'bidder', bidderType: { $in: types }, isVerified: true }]. *)
Definition bidderQuery (types : list string) (u : User) : bool :=
  String.eqb (userType u) "bidder"
  && match bidderType u with
     | Some bt => Js.arrayIncludes types bt
     | None => false
     end
  && Bool.eqb (isVerified u) true.

End Matcher.

(** ** The world the handlers run in *)

Inductive Collection : Type := Users | Notifications | Projects.

(** One entry per call issued to the database driver. *)
Inductive DbOp : Type :=
| InsertOne (c : Collection)
| InsertMany (c : Collection) (count : nat)
| FindOne (c : Collection)
| Find (c : Collection)
| UpdateOne (c : Collection).

Record Store : Type := mkStore {
  users : list User;
  notifications : list Notification;
  projects : list Project;
  nextId : nat;
  dbLog : list DbOp }.

Inductive Mail : Type :=
| NotificationMail (to subject html : string)
| VerificationMail (to token company : string).

Definition recipient (m : Mail) : string :=
  match m with
  | NotificationMail to _ _ => to
  | VerificationMail to _ _ => to
  end.

(** What a handler can see thrown: a send the transport rejected, a call on
    a value that is not a function, an argument the driver refuses. *)
Inductive Exn : Type :=
| EmailFailed (to : string)
| TypeError (what : string)
| DriverError (what : string).

(** [console.log] and [console.error] lines (pictographs dropped). *)
Inductive LogLine : Type :=
| LogInfo (text : string)
| LogError (text : string) (cause : Exn).

Record World : Type := mkWorld {
  db : Store;
  ticks : nat;
  attempts : nat;
  draws : nat;
  outbox : list Mail;
  console : list LogLine }.

(** The decoded bearer token. *)
Record Payload : Type := mkPayload {
  tok_userId : string;
  tok_userType : string;
  tok_companyName : string }.

(** Collaborators outside the two source files.  [deliver n to] is the fate of
    the [n]-th send handed to the email transport; [clock n] is the [n]-th
    reading of the system clock; [objectId n] the [n]-th generated key;
    [generateVerificationToken n] the [n]-th random token. *)
Record Env : Type := mkEnv {
  deliver : nat -> string -> bool;
  clock : nat -> Z;
  objectId : nat -> string;
  hashPassword : string -> string;
  generateVerificationToken : nat -> string;
  verifyToken : string -> option Payload }.

Definition withDb (f : Store -> Store) (w : World) : World :=
  mkWorld (f (db w)) (ticks w) (attempts w) (draws w) (outbox w) (console w).

Definition logged (op : DbOp) (s : Store) : Store :=
  mkStore (users s) (notifications s) (projects s) (nextId s) (dbLog s ++ [op]).

Definition setUsers (us : list User) (s : Store) : Store :=
  mkStore us (notifications s) (projects s) (nextId s) (dbLog s).

Definition setNotifications (ns : list Notification) (s : Store) : Store :=
  mkStore (users s) ns (projects s) (nextId s) (dbLog s).

Definition setProjects (ps : list Project) (s : Store) : Store :=
  mkStore (users s) (notifications s) ps (nextId s) (dbLog s).

Definition bumpId (k : nat) (s : Store) : Store :=
  mkStore (users s) (notifications s) (projects s) (nextId s + k) (dbLog s).

(** ** State-and-exception monad *)

Inductive Outcome (A : Type) : Type :=
| Ok (a : A)
| Throw (e : Exn).
Arguments Ok {A} a.
Arguments Throw {A} e.

Definition M (A : Type) : Type := World -> Outcome A * World.

Definition ret {A} (a : A) : M A := fun w => (Ok a, w).

Definition bind {A B} (m : M A) (k : A -> M B) : M B :=
  fun w =>
    match m w with
    | (Ok a, w') => k a w'
    | (Throw e, w') => (Throw e, w')
    end.

Definition throw {A} (e : Exn) : M A := fun w => (Throw e, w).

(** [try { m } catch (e) { h e }] *)
Definition tryCatch {A} (m : M A) (h : Exn -> M A) : M A :=
  fun w =>
    match m w with
    | (Ok a, w') => (Ok a, w')
    | (Throw e, w') => h e w'
    end.

Declare Scope js_scope.
Delimit Scope js_scope with js.
Notation "x <- c1 ;; c2" := (bind c1 (fun x => c2))
  (at level 61, c1 at next level, right associativity) : js_scope.
Notation "c1 ;; c2" := (bind c1 (fun _ => c2))
  (at level 61, right associativity) : js_scope.
Local Open Scope js_scope.

(** [for (const x of xs) { body x }] *)
Fixpoint forOf {A} (xs : list A) (body : A -> M unit) : M unit :=
  match xs with
  | [] => ret tt
  | x :: rest => body x ;; forOf rest body
  end.

Definition consoleLog (text : string) : M unit :=
  fun w => (Ok tt, mkWorld (db w) (ticks w) (attempts w) (draws w) (outbox w)
                           (console w ++ [LogInfo text])).

Definition consoleError (text : string) (cause : Exn) : M unit :=
  fun w => (Ok tt, mkWorld (db w) (ticks w) (attempts w) (draws w) (outbox w)
                           (console w ++ [LogError text cause])).

Section Handlers.

Variable E : Env.

(** [new Date()] / [Date.now()] *)
Definition newDate : M Z :=
  fun w => (Ok (clock E (ticks w)),
            mkWorld (db w) (S (ticks w)) (attempts w) (draws w) (outbox w)
                    (console w)).

(** A send through the email transport: it delivers, or it throws. *)
Definition transportSend (m : Mail) : M unit :=
  fun w =>
    let w' := fun box => mkWorld (db w) (ticks w) (S (attempts w)) (draws w)
                                 box (console w) in
    if deliver E (attempts w) (recipient m)
    then (Ok tt, w' (outbox w ++ [m]))
    else (Throw (EmailFailed (recipient m)), w' (outbox w)).

Definition nextToken : M string :=
  fun w => (Ok (generateVerificationToken E (draws w)),
            mkWorld (db w) (ticks w) (attempts w) (S (draws w)) (outbox w)
                    (console w)).

(** *** Driver calls *)

(** A document handed to an insert has no [_id] yet: it is a record still
    waiting for its key.  The driver generates the key, stores the
    document and leaves the key on the caller's object. *)

(** Keys [objectId i], [objectId (i+1)], ... for a batch of documents. *)
Fixpoint stampAll {A} (i : nat) (docs : list (string -> A)) : list A :=
  match docs with
  | [] => []
  | doc :: rest => doc (objectId E i) :: stampAll (S i) rest
  end.

(** [notificationsCollection.insertOne(doc)] *)
Definition insertOneNotification (doc : string -> Notification) : M Notification :=
  fun w =>
    let s := db w in
    let n := doc (objectId E (nextId s)) in
    (Ok n, withDb (fun _ => logged (InsertOne Notifications)
                      (bumpId 1 (setNotifications (notifications s ++ [n]) s))) w).

(** The driver's complaint about an [insertMany] of no documents. *)
Definition emptyBatch : Exn :=
  DriverError "Invalid BulkOperation, Batch cannot be empty".

(** [notificationsCollection.insertMany(docs)].  The driver refuses an
    empty batch before it talks to the store: the call throws, and nothing
    is written or logged. *)
Definition insertManyNotifications (docs : list (string -> Notification))
  : M (list Notification) :=
  fun w =>
    let s := db w in
    match docs with
    | [] => (Throw emptyBatch, w)
    | _ :: _ =>
        let ns := stampAll (nextId s) docs in
        (Ok ns, withDb (fun _ => logged (InsertMany Notifications (List.length docs))
                          (bumpId (List.length docs)
                                  (setNotifications (notifications s ++ ns) s))) w)
    end.

(** [usersCollection.insertOne(doc)] *)
Definition insertOneUser (doc : string -> User) : M User :=
  fun w =>
    let s := db w in
    let u := doc (objectId E (nextId s)) in
    (Ok u, withDb (fun _ => logged (InsertOne Users)
                      (bumpId 1 (setUsers (users s ++ [u]) s))) w).

(** [projectsCollection.insertOne(doc)] *)
Definition insertOneProject (doc : string -> Project) : M Project :=
  fun w =>
    let s := db w in
    let p := doc (objectId E (nextId s)) in
    (Ok p, withDb (fun _ => logged (InsertOne Projects)
                      (bumpId 1 (setProjects (projects s ++ [p]) s))) w).

(** [usersCollection.findOne(query)] *)
Definition findOneUser (query : User -> bool) : M (option User) :=
  fun w => (Ok (find query (users (db w))), withDb (logged (FindOne Users)) w).

(** [usersCollection.find(query).toArray()] *)
Definition findUsers (query : User -> bool) : M (list User) :=
  fun w => (Ok (filter query (users (db w))), withDb (logged (Find Users)) w).

(** [updateOne(query, change)]: the first matching document is changed,
    nothing happens when none matches. *)
Fixpoint updateFirst {A} (query : A -> bool) (change : A -> A) (docs : list A)
  : list A :=
  match docs with
  | [] => []
  | d :: rest =>
      if query d then change d :: rest
      else d :: updateFirst query change rest
  end.

Definition updateOneNotification (query : Notification -> bool)
           (change : Notification -> Notification) : M unit :=
  fun w =>
    (Ok tt, withDb (fun s => logged (UpdateOne Notifications)
                       (setNotifications (updateFirst query change (notifications s)) s)) w).

Definition updateOneUser (query : User -> bool) (change : User -> User) : M unit :=
  fun w =>
    (Ok tt, withDb (fun s => logged (UpdateOne Users)
                       (setUsers (updateFirst query change (users s)) s)) w).

(** *** The notification library *)

Definition dq : string := String (ascii_of_nat 34) EmptyString.

(** The fixed HTML skeleton of a notification email (layout white space
    between the tags left out). *)
Definition notificationHtml (title message : string) : string :=
  ("<div style=" ++ dq ++ "font-family: Arial, sans-serif; max-width: 600px; margin: 0 auto;" ++ dq ++ ">"
   ++ "<h2 style=" ++ dq ++ "color: #2563eb;" ++ dq ++ ">" ++ title ++ "</h2>"
   ++ "<p>" ++ message ++ "</p>"
   ++ "<hr style=" ++ dq ++ "margin: 20px 0; border: none; border-top: 1px solid #eee;" ++ dq ++ ">"
   ++ "<p style=" ++ dq ++ "color: #666; font-size: 12px;" ++ dq ++ ">"
   ++ "You received this notification from TenderChain. "
   ++ "To manage your notification preferences, visit your account settings."
   ++ "</p></div>")%string.

(** [sendEmail({ to, subject, html })] *)
Definition sendEmail (to subject html : string) : M unit :=
  transportSend (NotificationMail to subject html).

(** [notificationPreferences?.email !== false], which is also what the
    query ['notificationPreferences.email': { $ne: false }] selects. *)
Definition emailNotDisabled (u : User) : bool :=
  match notificationPreferences u with
  | Some p => match pref_email p with
              | Some false => false
              | _ => true
              end
  | None => true
  end.

Definition createNotification (userId : string) (type : NotificationType)
           (title message : string) (metadata : option Metadata)
  : M Notification :=
  now <- newDate ;;
  notification <- insertOneNotification
    (fun k => mkNotification k userId type title message false now metadata) ;;
  user <- findOneUser (fun u => String.eqb (u_id u) userId) ;;
  match user with
  | Some u =>
      match email u with
      | Some addr =>
          if Js.truthy (email u) && emailNotDisabled u
          then sendEmail addr title (notificationHtml title message)
          else ret tt
      | None => ret tt
      end
  | None => ret tt
  end ;;
  ret notification.

(** Stable insertion sort, largest key first: [.sort({ createdAt: -1 })]. *)
Fixpoint insertDesc {A} (key : A -> Z) (x : A) (l : list A) : list A :=
  match l with
  | [] => [x]
  | y :: r => if Z.ltb (key x) (key y) then y :: insertDesc key x r
              else x :: l
  end.

Fixpoint sortDesc {A} (key : A -> Z) (l : list A) : list A :=
  match l with
  | [] => []
  | x :: r => insertDesc key x (sortDesc key r)
  end.

Definition getUnreadNotifications (userId' : string) : M (list Notification) :=
  fun w =>
    (Ok (sortDesc createdAt
           (filter (fun n => String.eqb (userId n) userId' && Bool.eqb (read n) false)
                   (notifications (db w)))),
     withDb (logged (Find Notifications)) w).

Definition setRead (b : bool) (n : Notification) : Notification :=
  mkNotification (n_id n) (userId n) (type n) (title n) (message n) b
                 (createdAt n) (metadata n).

Definition markNotificationAsRead (notificationId : string) : M unit :=
  updateOneNotification (fun n => String.eqb (n_id n) notificationId)
                        (setRead true).

Definition setPreferences (p : Preferences) (u : User) : User :=
  mkUser (u_id u) (email u) (password u) (companyName u) (userType u)
         (bidderType u) (isVerified u) (verificationToken u)
         (verificationExpires u) (Some p) (u_createdAt u) (u_updatedAt u).

Definition updateNotificationPreferences (userId : string)
           (preferences : Preferences) : M unit :=
  updateOneUser (fun u => String.eqb (u_id u) userId)
                (setPreferences preferences).

(** [xs.map(x => f x)] where the callback has effects. *)
Fixpoint mapM {A B} (f : A -> M B) (xs : list A) : M (list B) :=
  match xs with
  | [] => ret []
  | x :: rest => y <- f x ;; ys <- mapM f rest ;; ret (y :: ys)
  end.

Definition createBulkNotifications (userIds : list string)
           (type : NotificationType) (title message : string)
           (metadata : option Metadata) : M (list Notification) :=
  docs <- mapM (fun userId =>
                  now <- newDate ;;
                  ret (fun k => mkNotification k userId type title message
                                               false now metadata))
               userIds ;;
  notifications <- insertManyNotifications docs ;;
  users <- findUsers (fun u => Js.arrayIncludes userIds (u_id u)
                               && emailNotDisabled u) ;;
  forOf users (fun user =>
    match email user with
    | Some addr =>
        if Js.truthy (email user)
        then tryCatch
               (sendEmail addr title (notificationHtml title message))
               (fun error =>
                  consoleError ("Failed to send email to " ++ addr ++ ":") error)
        else ret tt
    | None => ret tt
    end) ;;
  ret notifications.

Definition getInterestedBidders (tenderCategory : string)
           (tenderSector : option string) : M (list string) :=
  let relevantBidderTypes :=
    Matcher.relevantBidderTypes tenderCategory tenderSector in
  bidders <- findUsers (Matcher.bidderQuery relevantBidderTypes) ;;
  ret (map u_id bidders).

(** *** HTTP responses *)

Inductive Body : Type :=
| BError (error : string)
| BSignup (msg : string) (emailSent : bool) (warning : option string)
| BCreated (msg : string) (insertedId : string)
| BProjects (found : list Project) (filtered : bool) (filterType : option string).

Record Response : Type := mkResponse { status : nat; body : Body }.

(** [NextResponse.json(body)] and [NextResponse.json(body, { status })] *)
Definition json (b : Body) : Response := mkResponse 200 b.
Definition jsonStatus (b : Body) (code : nat) : Response := mkResponse code b.

(** *** POST /api/projects *)

Record ProjectBody : Type := mkProjectBody {
  b_title : option string;
  b_description : option string;
  b_budget : option string;
  b_location : option string;
  b_deadline : option string;
  b_category : option string;
  b_duration : option string;
  b_specifications : option string;
  b_requirements : option (list string);
  b_documents : option (list string);
  b_hasFiles : option bool }.

Record ProjectRequest : Type := mkProjectRequest {
  authorization : option string;
  projectBody : ProjectBody }.

(** [v || d] *)
Definition orElse {A} (v : option A) (d : A) : A :=
  match v with Some x => x | None => d end.

Definition text (v : option string) : string := orElse v "".

Definition createProject (payload : Payload) (b : ProjectBody) : M Response :=
  let title := text (b_title b) in
  let budget := text (b_budget b) in
  let category := text (b_category b) in
  created <- newDate ;;
  updated <- newDate ;;
  result <- insertOneProject
    (fun k => mkProject k title (text (b_description b)) budget
                        (b_location b) (text (b_deadline b)) category
                        (b_duration b) (b_specifications b)
                        (orElse (b_requirements b) [])
                        (orElse (b_documents b) [])
                        (orElse (b_hasFiles b) false)
                        "open" 0 0
                        (tok_userId payload) (tok_userId payload)
                        (tok_companyName payload) created updated) ;;
  (* Notify the tender creator *)
  createNotification (tok_userId payload) PROJECT_CREATED
    "Project Created Successfully"
    ("Your project " ++ dq ++ title ++ dq
     ++ " has been created and is now open for bids.")
    (Some (mkMetadata (Some (p_id result)) None None None)) ;;
  (* Notify interested bidders about the new project *)
  tryCatch
    (interestedBidders <- getInterestedBidders category (b_specifications b) ;;
     if Nat.ltb 0 (List.length interestedBidders)
     then createBulkNotifications interestedBidders NEW_TENDER_AVAILABLE
            "New Tender Available"
            ("A new tender " ++ dq ++ title ++ dq ++ " in " ++ category
             ++ " category is now available. Budget: $" ++ budget)
            (Some (mkMetadata (Some (p_id result)) None None None)) ;;
          ret tt
     else ret tt)
    (fun notificationError =>
       consoleError "Error sending notifications to bidders:" notificationError) ;;
  ret (json (BCreated "Project created successfully" (p_id result))).

Definition projectsPOST (request : ProjectRequest) : M Response :=
  tryCatch
    (match authorization request with
     | None => ret (jsonStatus (BError "Unauthorized") 401)
     | Some authHeader =>
         if negb (Js.truthy (Some authHeader))
            || negb (Js.startsWith authHeader "Bearer ")
         then ret (jsonStatus (BError "Unauthorized") 401)
         else
           let token := Js.substringFrom 7 authHeader in
           match verifyToken E token with
           | None => ret (jsonStatus (BError "Unauthorized") 401)
           | Some payload =>
               if negb (String.eqb (tok_userType payload) "tender")
               then ret (jsonStatus (BError "Unauthorized") 401)
               else
                 let b := projectBody request in
                 if negb (Js.truthy (b_title b))
                    || negb (Js.truthy (b_description b))
                    || negb (Js.truthy (b_budget b))
                    || negb (Js.truthy (b_deadline b))
                    || negb (Js.truthy (b_category b))
                 then ret (jsonStatus (BError "Missing required fields") 400)
                 else createProject payload b
           end
     end)
    (fun error =>
       consoleError "Error creating project:" error ;;
       ret (jsonStatus (BError "Internal server error") 500)).

(** *** POST /api/auth/signup *)

Record SignupBody : Type := mkSignupBody {
  s_email : option string;
  s_password : option string;
  s_companyName : option string;
  s_userType : option string;
  s_bidderType : option string }.

Definition validBidderTypes : list string :=
  ["CONTRACTOR"; "DEVELOPER"; "SUPPLIER"; "CONSULTANT"; "BUYER"].

(** [sendVerificationEmail(email, token, companyName)] of the email
    library: one send through the transport, which may throw. *)
Definition sendVerificationEmail (email token company : string) : M unit :=
  transportSend (VerificationMail email token company).

(** The query document [{ email }]. *)
Definition hasEmail (addr : string) (u : User) : bool :=
  match email u with
  | Some e => String.eqb e addr
  | None => false
  end.

Definition natToString (n : nat) : string :=
  DecimalString.NilEmpty.string_of_uint (Nat.to_uint n).

Definition boolToString (b : bool) : string :=
  if b then "true" else "false".

Definition defaultPreferences : Preferences :=
  mkPreferences (Some true) (Some true) (Some false).

Definition dayMillis : Z := 24 * 60 * 60 * 1000.

Definition registerUser (email password companyName userType : string)
           (bidderType : option string) : M Response :=
  let hashedPassword := hashPassword E password in
  token <- nextToken ;;
  consoleLog "Generated verification token:" ;;
  consoleLog ("    Token (first 20 chars): "
              ++ String.substring 0 20 token ++ "...") ;;
  consoleLog ("    Token (last 20 chars): ..."
              ++ Js.substringFrom (String.length token - 20) token) ;;
  consoleLog ("    Token length: "
              ++ natToString (String.length token)) ;;
  now <- newDate ;;
  created <- newDate ;;
  updated <- newDate ;;
  insertResult <- insertOneUser
    (fun k => mkUser k (Some email) hashedPassword companyName userType
                     (if String.eqb userType "bidder" then bidderType else None)
                     false token (now + dayMillis)%Z
                     (Some defaultPreferences) created updated) ;;
  let insertedId := u_id insertResult in
  consoleLog ("User inserted with ID: " ++ insertedId) ;;
  storedUser <- findOneUser (fun u => String.eqb (u_id u) insertedId) ;;
  consoleLog ("Verification - stored token matches generated: "
              ++ boolToString
                   match storedUser with
                   | Some u => String.eqb (verificationToken u) token
                   | None => false
                   end) ;;
  (* Send verification email *)
  tryCatch
    (sendVerificationEmail email token companyName ;;
     consoleLog "User created and verification email sent successfully" ;;
     (* Create welcome notification *)
     createNotification insertedId SIGNUP_COMPLETE "Welcome to TenderChain!"
       ("Welcome " ++ companyName
        ++ "! Your account has been created successfully. Please verify your email to get started.")
       (Some (mkMetadata None None None (Some insertedId))) ;;
     ret (json (BSignup
                  "User created successfully. Please check your email for verification."
                  true None)))
    (fun emailError =>
       consoleError "User created but email failed to send:" emailError ;;
       ret (json (BSignup
                    "User created successfully, but there was an issue sending the verification email. You can request a new verification email from the login page."
                    false (Some "Email delivery failed")))).

Definition signupPOST (b : SignupBody) : M Response :=
  tryCatch
    (if negb (Js.truthy (s_email b)) || negb (Js.truthy (s_password b))
        || negb (Js.truthy (s_companyName b)) || negb (Js.truthy (s_userType b))
     then ret (jsonStatus (BError "All fields are required") 400)
     else
       let email := text (s_email b) in
       let password := text (s_password b) in
       let companyName := text (s_companyName b) in
       let userType := text (s_userType b) in
       let bidderType := s_bidderType b in
       if negb (Js.arrayIncludes ["tender"; "bidder"] userType)
       then ret (jsonStatus (BError "Invalid user type") 400)
       else if String.eqb userType "bidder" && negb (Js.truthy bidderType)
       then ret (jsonStatus (BError "Bidder type is required for bidder accounts") 400)
       else if String.eqb userType "bidder"
               && negb (match bidderType with
                        | Some bt => Js.arrayIncludes validBidderTypes bt
                        | None => false
                        end)
       then ret (jsonStatus (BError "Invalid bidder type") 400)
       else if Nat.ltb (Js.length password) 8
       then ret (jsonStatus (BError "Password must be at least 8 characters") 400)
       else
         existingUser <- findOneUser (hasEmail email) ;;
         match existingUser with
         | Some _ => ret (jsonStatus (BError "User already exists") 400)
         | None => registerUser email password companyName userType bidderType
         end)
    (fun error =>
       consoleError "Signup error:" error ;;
       ret (jsonStatus (BError "Internal server error") 500)).

(** What [request.json()] and the destructuring that follows make of a
    request: they throw on a body that is not JSON or is [null], and
    otherwise read the five fields (each one a string when present). *)
Inductive SignupRequest : Type :=
| Unreadable (error : Exn)
| Readable (body : SignupBody).

(** The handler from the request on: reading the body happens inside the
    handler's [try], so a body that cannot be read is answered 500. *)
Definition signupHandler (request : SignupRequest) : M Response :=
  match request with
  | Unreadable error =>
      tryCatch
        (throw error)
        (fun error =>
           consoleError "Signup error:" error ;;
           ret (jsonStatus (BError "Internal server error") 500))
  | Readable b => signupPOST b
  end.

(** *** GET /api/projects *)

Record ProjectsQuery : Type := mkProjectsQuery {
  q_status : option string;
  q_category : option string;
  q_limit : option string;
  q_userType : option string;
  q_bidderType : option string }.

(** [parseInt(s)]: leading white space, an optional sign, then hexadecimal
    digits after [0x] and decimal digits otherwise.  The value read is a
    JavaScript number, that is the double nearest to the digits; [None] is
    a result that is no finite number ([NaN], or an infinity when the
    digits go beyond the doubles). *)
Definition isSpace (c : ascii) : bool :=
  let n := nat_of_ascii c in
  Nat.eqb n 32 || (Nat.leb 9 n && Nat.leb n 13).

(** The white space beyond ASCII, by its UTF-8 bytes: U+00A0, U+1680,
    U+2000..U+200A, U+2028, U+2029, U+202F, U+205F, U+3000 and U+FEFF. *)
Definition isSpace2 (a b : ascii) : bool :=
  Nat.eqb (nat_of_ascii a) 194 && Nat.eqb (nat_of_ascii b) 160.

Definition isSpace3 (a b c : ascii) : bool :=
  let x := nat_of_ascii a in
  let y := nat_of_ascii b in
  let z := nat_of_ascii c in
  (Nat.eqb x 225 && Nat.eqb y 154 && Nat.eqb z 128)
  || (Nat.eqb x 226 && Nat.eqb y 128
      && ((Nat.leb 128 z && Nat.leb z 138)
          || Nat.eqb z 168 || Nat.eqb z 169 || Nat.eqb z 175))
  || (Nat.eqb x 226 && Nat.eqb y 129 && Nat.eqb z 159)
  || (Nat.eqb x 227 && Nat.eqb y 128 && Nat.eqb z 128)
  || (Nat.eqb x 239 && Nat.eqb y 187 && Nat.eqb z 191).

Fixpoint skipSpaces (s : string) : string :=
  match s with
  | String a r =>
      if isSpace a then skipSpaces r
      else match r with
           | String b r2 =>
               if isSpace2 a b then skipSpaces r2
               else match r2 with
                    | String c r3 =>
                        if isSpace3 a b c then skipSpaces r3 else s
                    | EmptyString => s
                    end
           | EmptyString => s
           end
  | EmptyString => s
  end.

Definition digitOf (c : ascii) : option Z :=
  let n := nat_of_ascii c in
  if Nat.leb 48 n && Nat.leb n 57 then Some (Z.of_nat (n - 48)) else None.

Definition hexDigitOf (c : ascii) : option Z :=
  let n := nat_of_ascii c in
  if Nat.leb 48 n && Nat.leb n 57 then Some (Z.of_nat (n - 48))
  else if Nat.leb 97 n && Nat.leb n 102 then Some (Z.of_nat (n - 87))
  else if Nat.leb 65 n && Nat.leb n 70 then Some (Z.of_nat (n - 55))
  else None.

Fixpoint readDigits (radix : Z) (digit : ascii -> option Z) (s : string)
         (acc : option Z) : option Z :=
  match s with
  | String c r =>
      match digit c with
      | Some d => readDigits radix digit r (Some (radix * orElse acc 0 + d)%Z)
      | None => acc
      end
  | EmptyString => acc
  end.

(** The double nearest to a natural number [v]: [v] itself below 2^53,
    otherwise [v] rounded to 53 significant bits, a tie going to the even
    neighbour; [None] when the rounding leaves the finite doubles. *)
Definition toDouble (v : Z) : option Z :=
  if (v <? 9007199254740992)%Z then Some v
  else
    let k := (Z.log2 v - 52)%Z in
    let q := Z.shiftr v k in
    let r := (v - Z.shiftl q k)%Z in
    let half := Z.shiftl 1 (k - 1) in
    let q' := if (half <? r)%Z || ((r =? half)%Z && Z.odd q)
              then (q + 1)%Z else q in
    let d := Z.shiftl q' k in
    if (1024 <=? Z.log2 d)%Z then None else Some d.

Definition parseInt (s : string) : option Z :=
  let s1 := skipSpaces s in
  let '(negative, s2) :=
    match s1 with
    | String "-" r => (true, r)
    | String "+" r => (false, r)
    | _ => (false, s1)
    end in
  let magnitude :=
    match s2 with
    | String "0" (String "x" r) => readDigits 16 hexDigitOf r None
    | String "0" (String "X" r) => readDigits 16 hexDigitOf r None
    | _ => readDigits 10 digitOf s2 None
    end in
  match magnitude with
  | Some v => option_map (fun d => if negative then (- d)%Z else d) (toDouble v)
  | None => None
  end.

Definition categoryFilters : list (string * list string) :=
  [ ("CONTRACTOR", ["Construction"; "Infrastructure"; "Renovation";
                    "Maintenance"; "Civil Works"]);
    ("DEVELOPER", ["Software Development"; "IT Services"; "Digital Solutions";
                   "Technology"; "Web Development"]);
    ("SUPPLIER", ["Equipment"; "Materials"; "Goods"; "Supply Chain";
                  "Procurement"]);
    ("CONSULTANT", ["Professional Services"; "Advisory"; "Design";
                    "Consulting"; "Management"]) ].

(** What [obj[key]] yields on an object literal whose own values are
    arrays: an own array, something inherited from [Object.prototype]
    (a function with its [length], or the prototype object itself), or
    [undefined]. *)
Inductive Property : Type :=
| OwnArray (xs : list string)
| InheritedFunction (arity : nat)
| InheritedObject
| Undefined.

Definition objectPrototype : list (string * Property) :=
  [ ("constructor", InheritedFunction 1);
    ("toString", InheritedFunction 0);
    ("toLocaleString", InheritedFunction 0);
    ("valueOf", InheritedFunction 0);
    ("hasOwnProperty", InheritedFunction 1);
    ("isPrototypeOf", InheritedFunction 1);
    ("propertyIsEnumerable", InheritedFunction 1);
    ("__defineGetter__", InheritedFunction 2);
    ("__defineSetter__", InheritedFunction 2);
    ("__lookupGetter__", InheritedFunction 1);
    ("__lookupSetter__", InheritedFunction 1);
    ("__proto__", InheritedObject) ].

Fixpoint assoc {A} (key : string) (table : list (string * A)) : option A :=
  match table with
  | [] => None
  | (k, v) :: rest => if String.eqb k key then Some v else assoc key rest
  end.

Definition getProperty (table : list (string * list string)) (key : string)
  : Property :=
  match assoc key table with
  | Some xs => OwnArray xs
  | None => orElse (assoc key objectPrototype) Undefined
  end.

Inductive StatusClause : Type :=
| StatusIs (s : string)
| StatusIn (ss : list string).

(** The filter document: [status], [category] and [$or] are set or not. *)
Record Filter : Type := mkFilter {
  f_status : option StatusClause;
  f_category : option string;
  f_or : option (list string) }.

Fixpoint splitOn (sep : ascii) (s : string) : list string :=
  match s with
  | EmptyString => [EmptyString]
  | String c r =>
      if Ascii.eqb c sep then EmptyString :: splitOn sep r
      else match splitOn sep r with
           | w :: ws => String c w :: ws
           | [] => [String c EmptyString]
           end
  end.

(** [{ $regex: pattern, $options: 'i' }] for a pattern that is an
    alternation of literal words, the only kind built here: some
    alternative occurs in the subject, letter case ignored. *)
Definition regexMatchI (pattern subject : string) : bool :=
  existsb (fun alt => Js.includes (Js.toLowerCase subject) (Js.toLowerCase alt))
          (splitOn "|" pattern).

Definition matchesFilter (f : Filter) (p : Project) : bool :=
  match f_status f with
  | Some (StatusIs s) => String.eqb (p_status p) s
  | Some (StatusIn ss) => Js.arrayIncludes ss (p_status p)
  | None => true
  end
  && match f_category f with
     | Some c => String.eqb (p_category p) c
     | None => true
     end
  && match f_or f with
     | Some relevantCategories =>
         Js.arrayIncludes relevantCategories (p_category p)
         || regexMatchI (Js.join "|" relevantCategories) (p_category p)
         || match p_specifications p with
            | Some spec => regexMatchI (Js.join "|" relevantCategories) spec
            | None => false
            end
     | None => true
     end.

(** The documents of a first batch when the request names no batch size
    (the cap on the bytes of a batch is left out). *)
Definition firstBatch : nat := 101.

(** How many documents a limit [n] other than zero lets through: [n] of
    them when [n] is positive, the cursor being read to its end; for a
    negative [n] the driver asks for [|n|] documents in a single batch, so
    no more than a first batch holds. *)
Definition limitCount (n : Z) : nat :=
  if (0 <? n)%Z then Z.to_nat n
  else Nat.min (Z.to_nat (- n)) firstBatch.

(** [cursor.limit(n)] as [toArray] sees it: zero keeps all the documents,
    another [n] the first [limitCount n]; a limit that is no finite number,
    or does not fit the 64-bit integer the store reads it as, is
    refused. *)
Definition cursorLimit {A} (limit : option Z) (docs : list A)
  : option (list A) :=
  match limit with
  | None => None
  | Some n =>
      if (9223372036854775808 <=? Z.abs n)%Z then None
      else if Z.eqb n 0 then Some docs
      else Some (firstn (limitCount n) docs)
  end.

(** [projectsCollection.find(filter).sort({ createdAt: -1 }).limit(limit).toArray()] *)
Definition findProjects (f : Filter) (limit : option Z) : M (list Project) :=
  fun w =>
    let w' := withDb (logged (Find Projects)) w in
    match cursorLimit limit
            (sortDesc p_createdAt (filter (matchesFilter f) (projects (db w)))) with
    | Some docs => (Ok docs, w')
    | None => (Throw (DriverError "limit"), w')
    end.

Definition projectsGET (q : ProjectsQuery) : M Response :=
  tryCatch
    (let status := q_status q in
     let category := q_category q in
     let limit := parseInt (if Js.truthy (q_limit q) then text (q_limit q)
                            else "50") in
     let userType := q_userType q in
     let bidderType := q_bidderType q in
     (* Build filter *)
     let filter0 := mkFilter None None None in
     let filter1 := if Js.truthy status
                    then mkFilter (Some (StatusIs (text status)))
                                  (f_category filter0) (f_or filter0)
                    else filter0 in
     let filter2 := if Js.truthy category
                    then mkFilter (f_status filter1) (Some (text category))
                                  (f_or filter1)
                    else filter1 in
     (* Only show active/open projects to bidders *)
     let filter3 := if negb (Js.truthy status)
                    then mkFilter (Some (StatusIn ["open"; "active"]))
                                  (f_category filter2) (f_or filter2)
                    else filter2 in
     let isBidder := match userType with
                     | Some t => String.eqb t "bidder"
                     | None => false
                     end && Js.truthy bidderType in
     (* Role-based filtering for bidders *)
     filter4 <- (if isBidder
                 then match getProperty categoryFilters (text bidderType) with
                      | OwnArray relevantCategories =>
                          if Nat.ltb 0 (List.length relevantCategories)
                          then ret (mkFilter (f_status filter3)
                                             (f_category filter3)
                                             (Some relevantCategories))
                          else ret filter3
                      | InheritedFunction arity =>
                          if Nat.ltb 0 arity
                          then throw (TypeError "relevantCategories.join is not a function")
                          else ret filter3
                      | InheritedObject => ret filter3
                      | Undefined => ret filter3
                      end
                 else ret filter3) ;;
     found <- findProjects filter4 limit ;;
     ret (json (BProjects found isBidder
                          (if Js.truthy bidderType then bidderType else None))))
    (fun error =>
       consoleError "Error fetching projects:" error ;;
       ret (jsonStatus (BError "Internal server error") 500)).

End Handlers.

(** * Specification vocabulary

    Definitions the statements below are written with: what the handlers
    are expected to compute, said without running them. *)

(** ** Interest matching *)

(** [kw] occurs in [text] as a substring, letter case ignored. *)
Definition occursIn (kw text : string) : Prop :=
  exists pre post,
    Js.toLowerCase text = (pre ++ Js.toLowerCase kw ++ post)%string.

(** The test made for one table entry: the keyword occurs in the category,
    or a sector is present (not empty) and the keyword occurs in it. *)
Definition entryMatches (tenderCategory : string) (tenderSector : option string)
           (kw : string) : Prop :=
  occursIn kw tenderCategory
  \/ exists sector, tenderSector = Some sector /\ sector <> ""
                    /\ occursIn kw sector.

(** ** Store lookups *)

(** What the store holds, as opposed to the record of the calls made. *)
Definition contents (s : Store) : list User * list Notification * list Project :=
  (users s, notifications s, projects s).

(** The document that the query [{ _id: notificationId }] selects. *)
Definition notificationById (notificationId : string) (s : Store)
  : option Notification :=
  find (fun n => String.eqb (n_id n) notificationId) (notifications s).

(** The document that the query [{ _id: userId }] selects. *)
Definition userById (userId : string) (s : Store) : option User :=
  find (fun u => String.eqb (u_id u) userId) (users s).

(** The address [createNotification] writes to for [userId], if any: the
    user is on record with a non-empty email and has not switched email
    notifications off. *)
Definition mailTarget (userId : string) (s : Store) : option string :=
  match userById userId s with
  | Some u =>
      match email u with
      | Some addr =>
          if Js.truthy (email u) && emailNotDisabled u then Some addr else None
      | None => None
      end
  | None => None
  end.

(** The store after [createNotification] has inserted [n]. *)
Definition withNotification (n : Notification) (s : Store) : Store :=
  mkStore (users s) (notifications s ++ [n]) (projects s) (nextId s + 1)
          (dbLog s ++ [InsertOne Notifications; FindOne Users]).

(** ** Bulk notifications *)

Section BulkRecords.

Variable E : Env.
Variables (userIds : list string) (ty : NotificationType)
          (ttl msg : string) (meta : option Metadata).

(** The records a bulk call stores: keys from [i] on, clock readings from
    [t] on, one record per id. *)
Fixpoint bulkRecords (i t : nat) (ids : list string) : list Notification :=
  match ids with
  | [] => []
  | id :: rest =>
      mkNotification (objectId E i) id ty ttl msg false (clock E t) meta
      :: bulkRecords (S i) (S t) rest
  end.

(** The addresses a bulk call writes to, in the order of the sends. *)
Definition bulkRecipients (us : list User) : list string :=
  flat_map (fun u => match email u with
                     | Some addr => if Js.truthy (email u) then [addr] else []
                     | None => []
                     end)
           (filter (fun u => Js.arrayIncludes userIds (u_id u)
                             && emailNotDisabled u) us).

(** Mails delivered and failures logged when sends number [n], [n+1], ...
    go to [addrs] in turn. *)
Fixpoint delivered (n : nat) (addrs : list string) : list Mail :=
  match addrs with
  | [] => []
  | a :: rest =>
      (if deliver E n a
       then [NotificationMail a ttl (notificationHtml ttl msg)] else [])
      ++ delivered (S n) rest
  end.

Fixpoint failures (n : nat) (addrs : list string) : list LogLine :=
  match addrs with
  | [] => []
  | a :: rest =>
      (if deliver E n a then []
       else [LogError ("Failed to send email to " ++ a ++ ":") (EmailFailed a)])
      ++ failures (S n) rest
  end.

End BulkRecords.

(** ** Signup *)

(** The record [registerUser] persists when it starts in world [w]. *)
Definition newUserRecord (E : Env) (email password companyName userType : string)
           (bidderType : option string) (w : World) : User :=
  mkUser (objectId E (nextId (db w))) (Some email) (hashPassword E password)
         companyName userType
         (if String.eqb userType "bidder" then bidderType else None)
         false (generateVerificationToken E (draws w))
         (clock E (ticks w) + dayMillis)%Z (Some defaultPreferences)
         (clock E (S (ticks w))) (clock E (S (S (ticks w)))).

(** The welcome notification. *)
Definition welcome (E : Env) (companyName : string) (w : World) : Notification :=
  mkNotification (objectId E (nextId (db w) + 1)) (objectId E (nextId (db w)))
    SIGNUP_COMPLETE "Welcome to TenderChain!"
    ("Welcome " ++ companyName
     ++ "! Your account has been created successfully. Please verify your email to get started.")
    false (clock E (S (S (S (ticks w)))))
    (Some (mkMetadata None None None (Some (objectId E (nextId (db w)))))).

Definition signupSuccess : Response :=
  json (BSignup
          "User created successfully. Please check your email for verification."
          true None).

Definition signupWarning : Response :=
  json (BSignup
          "User created successfully, but there was an issue sending the verification email. You can request a new verification email from the login page."
          false (Some "Email delivery failed")).

(** The chain of input checks of the signup handler: the error message of
    the first check that fails, if any. *)
Definition signupValidation (b : SignupBody) : option string :=
  let userType := text (s_userType b) in
  if negb (Js.truthy (s_email b)) || negb (Js.truthy (s_password b))
     || negb (Js.truthy (s_companyName b)) || negb (Js.truthy (s_userType b))
  then Some "All fields are required"
  else if negb (Js.arrayIncludes ["tender"; "bidder"] userType)
  then Some "Invalid user type"
  else if String.eqb userType "bidder" && negb (Js.truthy (s_bidderType b))
  then Some "Bidder type is required for bidder accounts"
  else if String.eqb userType "bidder"
          && negb (match s_bidderType b with
                   | Some bt => Js.arrayIncludes validBidderTypes bt
                   | None => false
                   end)
  then Some "Invalid bidder type"
  else if Nat.ltb (Js.length (text (s_password b))) 8
  then Some "Password must be at least 8 characters"
  else None.

(** ** Project creation *)

(** The checks that precede the insert: the response that turns the request
    away, or the token payload of an accepted request. *)
Definition projectGate (E : Env) (request : ProjectRequest)
  : Response + Payload :=
  match authorization request with
  | None => inl (jsonStatus (BError "Unauthorized") 401)
  | Some authHeader =>
      if negb (Js.truthy (Some authHeader))
         || negb (Js.startsWith authHeader "Bearer ")
      then inl (jsonStatus (BError "Unauthorized") 401)
      else
        match verifyToken E (Js.substringFrom 7 authHeader) with
        | None => inl (jsonStatus (BError "Unauthorized") 401)
        | Some payload =>
            if negb (String.eqb (tok_userType payload) "tender")
            then inl (jsonStatus (BError "Unauthorized") 401)
            else
              let b := projectBody request in
              if negb (Js.truthy (b_title b))
                 || negb (Js.truthy (b_description b))
                 || negb (Js.truthy (b_budget b))
                 || negb (Js.truthy (b_deadline b))
                 || negb (Js.truthy (b_category b))
              then inl (jsonStatus (BError "Missing required fields") 400)
              else inr payload
        end
  end.

(** The project record [createProject] persists when it starts in [w]. *)
Definition newProjectRecord (E : Env) (payload : Payload) (b : ProjectBody)
           (w : World) : Project :=
  mkProject (objectId E (nextId (db w))) (text (b_title b))
            (text (b_description b)) (text (b_budget b)) (b_location b)
            (text (b_deadline b)) (text (b_category b)) (b_duration b)
            (b_specifications b) (orElse (b_requirements b) [])
            (orElse (b_documents b) []) (orElse (b_hasFiles b) false)
            "open" 0 0 (tok_userId payload) (tok_userId payload)
            (tok_companyName payload)
            (clock E (ticks w)) (clock E (S (ticks w))).

(** ** Project listing *)

(** The status clause the listing handler ends up with. *)
Definition statusClause (q : ProjectsQuery) : StatusClause :=
  if Js.truthy (q_status q) then StatusIs (text (q_status q))
  else StatusIn ["open"; "active"].

(** Whether the role-based [$or] block is entered. *)
Definition bidderView (q : ProjectsQuery) : bool :=
  match q_userType q with
  | Some t => String.eqb t "bidder"
  | None => false
  end && Js.truthy (q_bidderType q).

(** The filter document the handler builds, or the error thrown while
    building it. *)
Definition buildFilter (q : ProjectsQuery) : Exn + Filter :=
  let category := if Js.truthy (q_category q)
                  then Some (text (q_category q)) else None in
  let base := mkFilter (Some (statusClause q)) category None in
  if bidderView q
  then match getProperty categoryFilters (text (q_bidderType q)) with
       | OwnArray relevantCategories =>
           if Nat.ltb 0 (List.length relevantCategories)
           then inr (mkFilter (Some (statusClause q)) category
                              (Some relevantCategories))
           else inr base
       | InheritedFunction arity =>
           if Nat.ltb 0 arity
           then inl (TypeError "relevantCategories.join is not a function")
           else inr base
       | InheritedObject => inr base
       | Undefined => inr base
       end
  else inr base.

Definition requestedLimit (q : ProjectsQuery) : option Z :=
  parseInt (if Js.truthy (q_limit q) then text (q_limit q) else "50").

(** * Concrete data used to exercise the handlers *)

Module Scenario.

Definition oid (n : nat) : string := ("oid" ++ natToString n)%string.

Definition decode (token : string) : option Payload :=
  if String.eqb token "tender-token"
  then Some (mkPayload "t1" "tender" "Acme Works")
  else if String.eqb token "bidder-token"
  then Some (mkPayload "b1" "bidder" "Build Co")
  else None.

(** An environment whose email transport follows [fate]. *)
Definition env (fate : nat -> string -> bool) : Env :=
  mkEnv fate (fun n => (1000 + Z.of_nat n)%Z) oid
        (fun p => ("hashed:" ++ p)%string)
        (fun n => ("token-" ++ natToString n)%string)
        decode.

Definition reliable : Env := env (fun _ _ => true).
Definition unreachable : Env := env (fun _ _ => false).

Definition account (id addr kind : string) (bt : option string)
           (verified : bool) : User :=
  mkUser id (Some addr) "hashed:secret12" "Some Co" kind bt verified
         "tok" 0 (Some defaultPreferences) 0 0.

Definition owner : User := account "t1" "owner@acme.test" "tender" None true.
Definition builder : User :=
  account "b1" "b1@build.test" "bidder" (Some "CONTRACTOR") true.
Definition coder : User :=
  account "b2" "b2@code.test" "bidder" (Some "DEVELOPER") true.
Definition buyer : User :=
  account "b3" "b3@buy.test" "bidder" (Some "BUYER") true.
Definition pending : User :=
  account "b4" "b4@build.test" "bidder" (Some "CONTRACTOR") false.

Definition world (s : Store) : World := mkWorld s 0 0 0 [] [].

Definition directory : World :=
  world (mkStore [owner; builder; coder; buyer; pending] [] [] 0 []).

End Scenario.

Module SignupScenario.

Definition bidderBody : SignupBody :=
  mkSignupBody (Some "a@x.com") (Some "password1") (Some "Acme")
               (Some "bidder") (Some "CONTRACTOR").

(** A tender signup whose body carries a bidderType all the same. *)
Definition tenderBody : SignupBody :=
  mkSignupBody (Some "t@x.com") (Some "password1") (Some "Tenders Ltd")
               (Some "tender") (Some "SUPPLIER").

Definition fresh : World := Scenario.world (mkStore [] [] [] 0 []).

End SignupScenario.

Module ProjectScenario.

Definition body : ProjectBody :=
  mkProjectBody (Some "Bridge repair") (Some "Repair the old bridge")
                (Some "50000") (Some "Springfield") (Some "2026-12-31")
                (Some "Construction") None (Some "Steel and concrete")
                None None None.

Definition request : ProjectRequest :=
  mkProjectRequest (Some "Bearer tender-token") body.

(** The transport rejects mail to the project owner and delivers the rest. *)
Definition ownerUnreachable : Env :=
  Scenario.env (fun _ to => negb (String.eqb to "owner@acme.test")).

(** The transport delivers to the project owner only. *)
Definition biddersUnreachable : Env :=
  Scenario.env (fun _ to => String.eqb to "owner@acme.test").

End ProjectScenario.

Module ListingScenario.

Definition project (id status : string) (at_ : Z) : Project :=
  mkProject id ("Project " ++ id) "work" "1000" None "2026-12-31"
            "Construction" None None [] [] false status 0 0 "t1" "t1"
            "Acme Works" at_ at_.

Definition catalogue : World :=
  Scenario.world
    (mkStore [] []
             [project "p1" "open" 10; project "p2" "closed" 20;
              project "p3" "active" 30; project "p4" "awarded" 40]
             0 []).

Definition noParameters : ProjectsQuery :=
  mkProjectsQuery None None None None None.

End ListingScenario.

(** * Document upload notifications

    The last two functions of the notification library.  The bids
    collection is only read in these files: its content is an argument, and
    the read is not entered in the log of driver calls, which covers the
    three collections of the store. *)

(** A document of the bids collection, with the two fields read here. *)
Record Bid : Type := mkBid {
  bid_tenderId : string;
  bid_bidderId : string }.

Definition notifyTenderDocumentUpload (E : Env) (bids : list Bid)
           (tender tenderTitle documentName uploadedBy : string) : M unit :=
  let found := filter (fun bid => String.eqb (bid_tenderId bid) tender) bids in
  let bidderIds := map bid_bidderId found in
  if Nat.ltb 0 (List.length bidderIds)
  then createBulkNotifications E bidderIds TENDER_DOCUMENT_UPLOADED
         "New Document Available"
         ("A new document " ++ dq ++ documentName ++ dq
          ++ " has been uploaded for tender " ++ dq ++ tenderTitle ++ dq
          ++ ". Please review it.")
         (Some (mkMetadata (Some tender) None (Some tender) None)) ;;
       ret tt
  else ret tt.

Definition notifyBidderDocumentUpload (E : Env)
           (tender tenderTitle documentName bidderCompany tenderOwnerId : string)
  : M unit :=
  createNotification E tenderOwnerId BID_DOCUMENT_UPLOADED
    "New Bid Document Received"
    (bidderCompany ++ " has uploaded a new document " ++ dq ++ documentName
     ++ dq ++ " for tender " ++ dq ++ tenderTitle ++ dq ++ ".")
    (Some (mkMetadata (Some tender) None (Some tender) None)) ;;
  ret tt.

(** * Further vocabulary *)

(** The four bidder types the category table and the fallback know. *)
Definition matchedBidderTypes : list string :=
  ["CONTRACTOR"; "DEVELOPER"; "SUPPLIER"; "CONSULTANT"].

(** Newest first. *)
Definition newestFirst {A} (key : A -> Z) (l : list A) : Prop :=
  Sorted (fun a b => (key b <= key a)%Z) l.

(** The unread notifications of a user, as the store holds them. *)
Definition unreadOf (uid : string) (s : Store) : list Notification :=
  filter (fun n => String.eqb (userId n) uid && Bool.eqb (read n) false)
         (notifications s).


Module UploadScenario.

Definition bids : list Bid :=
  [mkBid "p1" "b1"; mkBid "p2" "b2"; mkBid "p1" "b3"; mkBid "p1" "b1"].

(** A directory in which the builder has switched email off. *)
Definition quietBuilder : User :=
  mkUser "b1" (Some "b1@build.test") "hashed:secret12" "Some Co" "bidder"
         (Some "CONTRACTOR") true "tok" 0
         (Some (mkPreferences (Some false) (Some true) (Some false))) 0 0.

Definition quietDirectory : World :=
  Scenario.world (mkStore [Scenario.owner; quietBuilder] [] [] 0 []).

Definition note (id uid : string) (flag : bool) (at_ : Z) : Notification :=
  mkNotification id uid BID_ACCEPTED "Bid accepted" "Well done" flag at_ None.

Definition inbox : World :=
  Scenario.world
    (mkStore [Scenario.builder]
             [note "n1" "b1" false 5; note "n2" "b1" false 9;
              note "n3" "b2" false 7; note "n4" "b1" true 8]
             [] 4 []).

End UploadScenario.

(** The fields of a signup body other than the password pass the checks:
    email and company name are present and not empty, the user type is
    tender, or bidder with one of the five bidder types. *)
Definition otherFieldsValid (b : SignupBody) : Prop :=
  Js.truthy (s_email b) = true
  /\ Js.truthy (s_companyName b) = true
  /\ (s_userType b = Some "tender"
      \/ (s_userType b = Some "bidder"
          /\ exists bt, s_bidderType b = Some bt /\ In bt validBidderTypes)).

(** The response to a request that was validated and found the email
    unused, by what the transport did with the verification email and, if
    the welcome notification found somebody to write to, with its email. *)
Definition mailOutcomeResponse (verificationDelivered : bool)
           (welcomeDelivered : option bool) : Response :=
  if verificationDelivered
  then match welcomeDelivered with
       | Some false => signupWarning
       | _ => signupSuccess
       end
  else signupWarning.

Module SignupEdge.

(** The password [pa-umlaut-sswor]: eight bytes, seven code units. *)
Definition sevenUnits : string :=
  String "p" (String (ascii_of_nat 195) (String (ascii_of_nat 164) "sswor")).

Definition shortPassword : SignupBody :=
  mkSignupBody (Some "a@x.com") (Some sevenUnits) (Some "Acme")
               (Some "bidder") (Some "SUPPLIER").

End SignupEdge.

(** The ids [createProject] passes to the bulk call: the interested bidders
    for the category and the specifications of the body. *)
Definition biddersFor (b : ProjectBody) (s : Store) : list string :=
  map u_id
      (filter (Matcher.bidderQuery
                 (Matcher.relevantBidderTypes (text (b_category b))
                                              (b_specifications b)))
              (users s)).

(** The creator's notification does not throw in [w]: there is no address
    to write to, or the transport delivers. *)
Definition creatorMailGoesThrough (E : Env) (payload : Payload) (w : World)
  : Prop :=
  match mailTarget (tok_userId payload) (db w) with
  | Some addr => deliver E (attempts w) addr = true
  | None => True
  end.

(** The same listing request without its role parameters. *)
Definition withoutRole (q : ProjectsQuery) : ProjectsQuery :=
  mkProjectsQuery (q_status q) (q_category q) (q_limit q) None None.

(** The same response, labelled as filtered for [bt] when it lists
    projects. *)
Definition asFiltered (bt : string) (r : Response) : Response :=
  mkResponse (status r)
             match body r with
             | BProjects found _ _ => BProjects found true (Some bt)
             | other => other
             end.

(** A project mentions a keyword: in its category, or in its
    specifications when it has some. *)
Definition mentions (kw : string) (p : Project) : Prop :=
  occursIn kw (p_category p)
  \/ exists spec, p_specifications p = Some spec /\ occursIn kw spec.

Module ListingEdge.

Definition tagged (id category : string) (spec : option string) (at_ : Z)
  : Project :=
  mkProject id ("Project " ++ id) "work" "1000" None "2026-12-31"
            category None spec [] [] false "open" 0 0 "t1" "t1"
            "Acme Works" at_ at_.

Definition market : World :=
  Scenario.world
    (mkStore [] []
             [tagged "p1" "Road construction" None 10;
              tagged "p2" "Catering" (Some "needs kitchen EQUIPMENT") 20;
              tagged "p3" "Catering" None 30]
             0 []).

Definition asBidder (bt : string) (limit : option string) : ProjectsQuery :=
  mkProjectsQuery None None limit (Some "bidder") (Some bt).

End ListingEdge.

(** * Properties *)

(** ** The definitions at work on small inputs *)

Example toLowerCase_keyword : Js.toLowerCase "IT Services" = "it services".
Proof. reflexivity. Qed.

Example includes_inside :
  Js.includes "road construction works" "construction" = true
  /\ Js.includes "road works" "construction" = false
  /\ Js.includes "" "" = true.
Proof. repeat split. Qed.

Example keywordMatches_sector :
  Matcher.keywordMatches "Misc" (Some "New EQUIPMENT needed") "Equipment" = true
  /\ Matcher.keywordMatches "Misc" (Some "") "Equipment" = false
  /\ Matcher.keywordMatches "Misc" None "Equipment" = false.
Proof. repeat split. Qed.

Example relevantBidderTypes_accumulates :
  Matcher.relevantBidderTypes "Design of IT Services" (Some "Consulting")
  = ["DEVELOPER"; "CONSULTANT"; "CONSULTANT"].
Proof. reflexivity. Qed.

Example parseInt_samples :
  parseInt "50" = Some 50%Z
  /\ parseInt "  -12abc" = Some (-12)%Z
  /\ parseInt "0x1f" = Some 31%Z
  /\ parseInt "abc" = None
  /\ parseInt "0" = Some 0%Z.
Proof. repeat split. Qed.

(** Beyond 2^53 the value read is the nearest double, and digits beyond the
    doubles read as an infinity. *)
Example parseInt_doubles :
  parseInt "9007199254740992" = Some 9007199254740992%Z
  /\ parseInt "9007199254740993" = Some 9007199254740992%Z
  /\ parseInt "9007199254740995" = Some 9007199254740996%Z
  /\ parseInt "-18014398509481985" = Some (-18014398509481984)%Z
  /\ parseInt ("1" ++ string_of_list_ascii (repeat "0"%char 400)) = None.
Proof. vm_compute. repeat split. Qed.

(** White space beyond ASCII is skipped as well (here U+00A0 and U+2003). *)
Example parseInt_wide_space :
  parseInt (String (ascii_of_nat 194) (String (ascii_of_nat 160)
             (String (ascii_of_nat 226) (String (ascii_of_nat 128)
               (String (ascii_of_nat 131) "7"))))) = Some 7%Z.
Proof. reflexivity. Qed.

(** [length] counts UTF-16 code units: an umlaut of two bytes is one unit,
    an emoji of four bytes is two. *)
Example length_samples :
  Js.length "password" = 8
  /\ Js.length (String (ascii_of_nat 195) (String (ascii_of_nat 164) "b")) = 2
  /\ Js.length (String (ascii_of_nat 240) (String (ascii_of_nat 159)
                  (String (ascii_of_nat 152) (String (ascii_of_nat 128) "!"))))
     = 3.
Proof. repeat split. Qed.

Example cursorLimit_samples :
  cursorLimit (Some 2%Z) [1; 2; 3] = Some [1; 2]
  /\ cursorLimit (Some 0%Z) [1; 2; 3] = Some [1; 2; 3]
  /\ cursorLimit (Some (-1)%Z) [1; 2; 3] = Some [1]
  /\ cursorLimit None [1; 2; 3] = None
  /\ option_map (@List.length nat) (cursorLimit (Some 200%Z) (repeat 0 150))
     = Some 150
  /\ option_map (@List.length nat) (cursorLimit (Some (-200)%Z) (repeat 0 150))
     = Some 101
  /\ cursorLimit (Some (2 ^ 63)%Z) [1; 2; 3] = None.
Proof. repeat split. Qed.

Example getProperty_samples :
  getProperty categoryFilters "SUPPLIER"
  = OwnArray ["Equipment"; "Materials"; "Goods"; "Supply Chain"; "Procurement"]
  /\ getProperty categoryFilters "BUYER" = Undefined
  /\ getProperty categoryFilters "constructor" = InheritedFunction 1.
Proof. repeat split. Qed.

Example regexMatchI_alternation :
  regexMatchI (Js.join "|" ["Equipment"; "Goods"]) "Office goods" = true
  /\ regexMatchI (Js.join "|" ["Equipment"; "Goods"]) "Catering" = false.
Proof. repeat split. Qed.

(** Marking the same notification read twice, then listing what is still
    unread. *)
Example markNotificationAsRead_twice :
  let note id flag at_ :=
    mkNotification id "b1" BID_ACCEPTED "Bid accepted" "Well done" flag at_ None in
  let w := Scenario.world
             (mkStore [] [note "n1" false 5%Z; note "n2" false 7%Z;
                          note "n3" false 9%Z] [] 3 []) in
  let '(r1, w1) := markNotificationAsRead "n2" w in
  let '(r2, w2) := markNotificationAsRead "n2" w1 in
  let '(r3, _) := getUnreadNotifications "b1" w2 in
  r1 = Ok tt /\ r2 = Ok tt
  /\ map read (notifications (db w1)) = [false; true; false]
  /\ notifications (db w2) = notifications (db w1)
  /\ r3 = Ok [note "n3" false 9%Z; note "n1" false 5%Z].
Proof. vm_compute. repeat split. Qed.

(** Three recipients, the transport rejecting the second send only: the
    third mail still goes out and one failure is logged. *)
Example createBulkNotifications_second_send_fails :
  let '(r, w') :=
    createBulkNotifications (Scenario.env (fun n _ => negb (Nat.eqb n 1)))
      ["b1"; "b2"; "b3"] NEW_TENDER_AVAILABLE "New Tender Available" "hello"
      None Scenario.directory in
  (exists ns, r = Ok ns /\ map userId ns = ["b1"; "b2"; "b3"])
  /\ map userId (notifications (db w')) = ["b1"; "b2"; "b3"]
  /\ map recipient (outbox w') = ["b1@build.test"; "b3@buy.test"]
  /\ console w' = [LogError "Failed to send email to b2@code.test:"
                            (EmailFailed "b2@code.test")]
  /\ attempts w' = 3.
Proof.
  vm_compute. split; [eexists; split; reflexivity |]. repeat split.
Qed.


(** With no recipient at all the batch insert is refused: the call throws
    and has done nothing. *)
Example createBulkNotifications_no_recipient :
  createBulkNotifications Scenario.reliable [] NEW_TENDER_AVAILABLE
    "New Tender Available" "hello" None Scenario.directory
  = (Throw emptyBatch, Scenario.directory).
Proof. reflexivity. Qed.

(** ** Strings *)

Lemma startsWith_spec (s p : string) :
  Js.startsWith s p = true <-> exists post, s = (p ++ post)%string.
Proof.
  revert s; induction p as [|a p IH]; intros s.
  - split; [intros _; exists s; reflexivity | destruct s; reflexivity].
  - destruct s as [|b s]; simpl.
    + split; [discriminate | intros [post H]; discriminate].
    + rewrite andb_true_iff, IH, Ascii.eqb_eq. split.
      * intros [-> [post ->]]. exists post. reflexivity.
      * intros [post H]. injection H as -> ->. split; [reflexivity | eauto].
Qed.

Lemma includes_spec (s sub : string) :
  Js.includes s sub = true
  <-> exists pre post, s = (pre ++ sub ++ post)%string.
Proof.
  induction s as [|c s IH].
  - cbn [Js.includes]. rewrite orb_false_r, startsWith_spec. split.
    + intros [post H]. exists EmptyString, post. exact H.
    + intros [[|a pre] [post H]]; [eauto | discriminate].
  - cbn [Js.includes]. rewrite orb_true_iff, startsWith_spec, IH. split.
    + intros [[post H] | [pre [post H]]].
      * exists EmptyString, post. exact H.
      * exists (String c pre), post. simpl. now rewrite H.
    + intros [[|a pre] [post H]].
      * left. exists post. exact H.
      * right. simpl in H. injection H as _ H. eauto.
Qed.

Lemma truthy_some (s : string) : Js.truthy (Some s) = true <-> s <> "".
Proof.
  unfold Js.truthy. rewrite negb_true_iff. split.
  - intros H ->. discriminate.
  - intros H. apply String.eqb_neq. exact H.
Qed.


Lemma keywordMatches_spec tenderCategory tenderSector kw :
  Matcher.keywordMatches tenderCategory tenderSector kw = true
  <-> entryMatches tenderCategory tenderSector kw.
Proof.
  unfold Matcher.keywordMatches, entryMatches, occursIn.
  rewrite orb_true_iff, includes_spec.
  destruct tenderSector as [sector|].
  - rewrite andb_true_iff, includes_spec, truthy_some. split.
    + intros [H | [Hne H]]; [left; exact H | right; exists sector; auto].
    + intros [H | [s' [Heq [Hne H]]]]; [left; exact H |].
      injection Heq as <-. right. auto.
  - split.
    + intros [H | H]; [left; exact H | discriminate].
    + intros [H | [s' [Heq _]]]; [left; exact H | discriminate].
Qed.

Lemma arrayIncludes_In (xs : list string) (x : string) :
  Js.arrayIncludes xs x = true <-> In x xs.
Proof.
  unfold Js.arrayIncludes. rewrite existsb_exists. split.
  - intros [y [Hin Heq]]. apply String.eqb_eq in Heq. now subst.
  - intros Hin. exists x. split; [exact Hin | apply String.eqb_refl].
Qed.

(** ** Interest Matcher *)

Lemma accumulate_In tenderCategory tenderSector table bt :
  In bt (Matcher.accumulate tenderCategory tenderSector table)
  <-> exists kw bidderTypes,
        In (kw, bidderTypes) table
        /\ Matcher.keywordMatches tenderCategory tenderSector kw = true
        /\ In bt bidderTypes.
Proof.
  induction table as [|[kw tys] rest IH]; simpl.
  - split; [tauto | intros (? & ? & [] & _)].
  - destruct (Matcher.keywordMatches tenderCategory tenderSector kw) eqn:Hm.
    + rewrite in_app_iff, IH. split.
      * intros [H | (kw' & tys' & Hin & Hk & Hb)].
        -- exists kw, tys. auto.
        -- exists kw', tys'. auto.
      * intros (kw' & tys' & [Heq | Hin] & Hk & Hb).
        -- injection Heq as <- <-. auto.
        -- right. exists kw', tys'. auto.
    + rewrite IH. split.
      * intros (kw' & tys' & Hin & Hk & Hb). exists kw', tys'. auto.
      * intros (kw' & tys' & [Heq | Hin] & Hk & Hb).
        -- injection Heq as <- <-. congruence.
        -- exists kw', tys'. auto.
Qed.

(** Every entry of the table carries at least one bidder type. *)
Lemma table_entries_nonempty kw bidderTypes :
  In (kw, bidderTypes) Matcher.categoryToBidderType -> bidderTypes <> [].
Proof.
  unfold Matcher.categoryToBidderType. simpl.
  intros H.
  repeat (destruct H as [H | H]; [injection H as _ <-; discriminate |]).
  contradiction.
Qed.

Lemma relevant_when_matched tenderCategory tenderSector :
  (exists kw bidderTypes,
      In (kw, bidderTypes) Matcher.categoryToBidderType
      /\ Matcher.keywordMatches tenderCategory tenderSector kw = true) ->
  Matcher.relevantBidderTypes tenderCategory tenderSector
  = Matcher.accumulate tenderCategory tenderSector Matcher.categoryToBidderType.
Proof.
  intros (kw & tys & Hin & Hk).
  unfold Matcher.relevantBidderTypes.
  destruct (Matcher.accumulate _ _ _) as [|x acc] eqn:Hacc; [|reflexivity].
  exfalso.
  destruct tys as [|bt tys]; [now apply (table_entries_nonempty Hin) |].
  assert (Hbt : In bt (Matcher.accumulate tenderCategory tenderSector
                         Matcher.categoryToBidderType)).
  { apply accumulate_In. exists kw, (bt :: tys). simpl. auto. }
  rewrite Hacc in Hbt. contradiction.
Qed.

Lemma relevant_when_unmatched tenderCategory tenderSector :
  (forall kw bidderTypes,
      In (kw, bidderTypes) Matcher.categoryToBidderType ->
      Matcher.keywordMatches tenderCategory tenderSector kw = false) ->
  Matcher.relevantBidderTypes tenderCategory tenderSector
  = Matcher.fallbackBidderTypes.
Proof.
  intros Hno.
  unfold Matcher.relevantBidderTypes.
  destruct (Matcher.accumulate _ _ _) as [|x acc] eqn:Hacc; [reflexivity|].
  exfalso.
  assert (Hx : In x (Matcher.accumulate tenderCategory tenderSector
                       Matcher.categoryToBidderType))
    by (rewrite Hacc; left; reflexivity).
  apply accumulate_In in Hx. destruct Hx as (kw & tys & Hin & Hk & _).
  rewrite (Hno _ _ Hin) in Hk. discriminate.
Qed.

Lemma bidderQuery_spec types u :
  Matcher.bidderQuery types u = true
  <-> userType u = "bidder" /\ isVerified u = true
      /\ exists bt, bidderType u = Some bt /\ In bt types.
Proof.
  unfold Matcher.bidderQuery.
  rewrite !andb_true_iff, String.eqb_eq, Bool.eqb_true_iff.
  destruct (bidderType u) as [bt|].
  - rewrite arrayIncludes_In. split.
    + intros [[H1 H2] H3]. eauto.
    + intros (H1 & H2 & bt' & Heq & Hin). injection Heq as <-. auto.
  - split.
    + intros [[_ H] _]. discriminate.
    + intros (_ & _ & bt' & Heq & _). discriminate.
Qed.

(** On a category (and sector) in which no keyword occurs, the query runs
    with the four fallback types. *)
Lemma getInterestedBidders_unmatched tenderCategory tenderSector (w : World) :
  (forall kw bidderTypes,
      In (kw, bidderTypes) Matcher.categoryToBidderType ->
      ~ entryMatches tenderCategory tenderSector kw) ->
  fst (getInterestedBidders tenderCategory tenderSector w)
  = Ok (map u_id (filter (Matcher.bidderQuery
                            ["CONTRACTOR"; "DEVELOPER"; "SUPPLIER"; "CONSULTANT"])
                         (users (db w)))).
Proof.
  intros Hno.
  unfold getInterestedBidders, bind, findUsers, ret. simpl.
  rewrite relevant_when_unmatched; [reflexivity |].
  intros kw tys Hin.
  destruct (Matcher.keywordMatches tenderCategory tenderSector kw) eqn:Hk;
    [| reflexivity].
  apply keywordMatches_spec in Hk. exfalso. exact (Hno _ _ Hin Hk).
Qed.

(** A bidder of type BUYER is never selected by the fallback query. *)
Lemma fallback_rejects_buyer (u : User) :
  bidderType u = Some "BUYER" ->
  Matcher.bidderQuery Matcher.fallbackBidderTypes u = false.
Proof.
  intros H. unfold Matcher.bidderQuery. rewrite H. simpl.
  now rewrite andb_false_r.
Qed.

(** C1 (the code departs from the claim).  "Catering" contains no keyword
    of the table, so the fallback applies; the store holds a verified bidder
    of type BUYER, yet the ids returned are those of the CONTRACTOR and the
    DEVELOPER only: the fallback list names four of the five bidder types. *)
Theorem getInterestedBidders_fallback_omits_buyer :
  (forall kw bidderTypes,
      In (kw, bidderTypes) Matcher.categoryToBidderType ->
      Matcher.keywordMatches "Catering" None kw = false)
  /\ In Scenario.buyer (users (db Scenario.directory))
  /\ userType Scenario.buyer = "bidder"
  /\ isVerified Scenario.buyer = true
  /\ bidderType Scenario.buyer = Some "BUYER"
  /\ fst (getInterestedBidders "Catering" None Scenario.directory)
     = Ok ["b1"; "b2"]
  /\ Matcher.relevantBidderTypes "Catering" None
     = ["CONTRACTOR"; "DEVELOPER"; "SUPPLIER"; "CONSULTANT"].
Proof.
  split.
  - intros kw tys Hin. unfold Matcher.categoryToBidderType in Hin. simpl in Hin.
    repeat (destruct Hin as [Hin | Hin];
            [injection Hin as <- <-; vm_compute; reflexivity |]).
    contradiction.
  - repeat split; try reflexivity. simpl. tauto.
Qed.

(** C4.  When some keyword of the table occurs, letter case ignored, in the
    tender category or in a present sector, [getInterestedBidders] returns
    exactly the ids of the stored users that are verified, have userType
    bidder and whose bidderType belongs to the types of a matching table
    entry; the ids come in store order, one per such user. *)
Theorem getInterestedBidders_keyword_match
        tenderCategory tenderSector (w : World) :
  (exists kw bidderTypes,
      In (kw, bidderTypes) Matcher.categoryToBidderType
      /\ entryMatches tenderCategory tenderSector kw) ->
  exists ids w',
    getInterestedBidders tenderCategory tenderSector w = (Ok ids, w')
    /\ (forall id,
           In id ids
           <-> exists u,
                 In u (users (db w)) /\ u_id u = id
                 /\ isVerified u = true /\ userType u = "bidder"
                 /\ exists kw bidderTypes bt,
                      In (kw, bidderTypes) Matcher.categoryToBidderType
                      /\ entryMatches tenderCategory tenderSector kw
                      /\ bidderType u = Some bt /\ In bt bidderTypes)
    /\ ids = map u_id
               (filter (Matcher.bidderQuery
                          (Matcher.accumulate tenderCategory tenderSector
                                              Matcher.categoryToBidderType))
                       (users (db w))).
Proof.
  intros (kw & tys & Hin & Hm).
  assert (Hrel : Matcher.relevantBidderTypes tenderCategory tenderSector
                 = Matcher.accumulate tenderCategory tenderSector
                                      Matcher.categoryToBidderType).
  { apply relevant_when_matched. exists kw, tys.
    split; [exact Hin | now apply keywordMatches_spec]. }
  unfold getInterestedBidders, bind, findUsers, ret. rewrite Hrel.
  eexists. eexists. split; [reflexivity |]. split; [| reflexivity].
  intros id. rewrite in_map_iff. split.
  - intros (u & Hid & Hf). apply filter_In in Hf. destruct Hf as [Hu Hq].
    apply bidderQuery_spec in Hq. destruct Hq as (Hty & Hv & bt & Hbt & Hacc).
    apply accumulate_In in Hacc. destruct Hacc as (kw' & tys' & Hin' & Hk' & Hb').
    exists u. repeat split; auto.
    exists kw', tys', bt. repeat split; auto. now apply keywordMatches_spec.
  - intros (u & Hu & Hid & Hv & Hty & kw' & tys' & bt & Hin' & Hm' & Hbt & Hb').
    exists u. split; [exact Hid |]. apply filter_In. split; [exact Hu |].
    apply bidderQuery_spec. repeat split; auto.
    exists bt. split; [exact Hbt |]. apply accumulate_In.
    exists kw', tys'. repeat split; auto. now apply keywordMatches_spec.
Qed.

Lemma getInterestedBidders_keyword_match_witness :
  exists ids w',
    getInterestedBidders "Road CONSTRUCTION works" None Scenario.directory
    = (Ok ids, w')
    /\ ids = ["b1"].
Proof.
  destruct (@getInterestedBidders_keyword_match
              "Road CONSTRUCTION works" None Scenario.directory)
    as (ids & w' & Hrun & _ & Hids).
  - exists "Construction", ["CONTRACTOR"]. split.
    + simpl. tauto.
    + left. exists "road ", " works". reflexivity.
  - exists ids, w'. split; [exact Hrun | exact Hids].
Defined.

(** ** Single-document updates *)

Section UpdateFirst.

Context {A : Type} (query : A -> bool) (change : A -> A).
Hypothesis query_stable : forall d, query d = true -> query (change d) = true.

Lemma find_updateFirst (docs : list A) :
  find query (updateFirst query change docs)
  = option_map change (find query docs).
Proof.
  induction docs as [|d rest IH]; simpl; [reflexivity |].
  destruct (query d) eqn:Hq; simpl.
  - now rewrite (@query_stable _ Hq).
  - now rewrite Hq.
Qed.

Lemma updateFirst_idempotent (docs : list A) :
  (forall d, change (change d) = change d) ->
  updateFirst query change (updateFirst query change docs)
  = updateFirst query change docs.
Proof.
  intros Hidem.
  induction docs as [|d rest IH]; simpl; [reflexivity |].
  destruct (query d) eqn:Hq; simpl.
  - now rewrite (@query_stable _ Hq), Hidem.
  - now rewrite Hq, IH.
Qed.

Lemma updateFirst_no_match (docs : list A) :
  find query docs = None -> updateFirst query change docs = docs.
Proof.
  induction docs as [|d rest IH]; simpl; [reflexivity |].
  destruct (query d); [discriminate |].
  intros H. now rewrite IH.
Qed.

(** Documents the query does not select are left as they were. *)
Lemma updateFirst_others (docs : list A) (d : A) :
  query d = false -> In d docs -> In d (updateFirst query change docs).
Proof.
  intros Hd.
  induction docs as [|x rest IH]; simpl; [tauto |].
  intros [-> | Hin].
  - rewrite Hd. now left.
  - destruct (query x); simpl; auto.
Qed.

Lemma updateFirst_length (docs : list A) :
  List.length (updateFirst query change docs) = List.length docs.
Proof.
  induction docs as [|x rest IH]; simpl; [reflexivity |].
  destruct (query x); simpl; congruence.
Qed.

End UpdateFirst.

(** C7.  [markNotificationAsRead] never throws; a second call in succession
    leaves the store holding what the first call left; and the record the id
    selects, when there is one, has read = true after the first call and
    after the second, all its other fields untouched. *)
Theorem markNotificationAsRead_idempotent (notificationId : string) (w : World) :
  exists w1 w2,
    markNotificationAsRead notificationId w = (Ok tt, w1)
    /\ markNotificationAsRead notificationId w1 = (Ok tt, w2)
    /\ contents (db w2) = contents (db w1)
    /\ notificationById notificationId (db w1)
       = option_map (setRead true) (notificationById notificationId (db w))
    /\ notificationById notificationId (db w2)
       = notificationById notificationId (db w1)
    /\ (forall n, notificationById notificationId (db w1) = Some n ->
                  read n = true)
    /\ (forall n, notificationById notificationId (db w2) = Some n ->
                  read n = true).
Proof.
  assert (Hstable : forall n : Notification,
             String.eqb (n_id n) notificationId = true ->
             String.eqb (n_id (setRead true n)) notificationId = true)
    by (intros n H; exact H).
  assert (Hfirst :
            notificationById notificationId
              (db (snd (markNotificationAsRead notificationId w)))
            = option_map (setRead true) (notificationById notificationId (db w))).
  { unfold notificationById. simpl. now apply find_updateFirst. }
  assert (Hread : forall n,
             option_map (setRead true) (notificationById notificationId (db w))
             = Some n -> read n = true).
  { intros n H. destruct (notificationById notificationId (db w)) as [m|];
      simpl in H; [injection H as <-; reflexivity | discriminate]. }
  assert (Hsame :
            updateFirst (fun n => String.eqb (n_id n) notificationId) (setRead true)
              (updateFirst (fun n => String.eqb (n_id n) notificationId)
                           (setRead true) (notifications (db w)))
            = updateFirst (fun n => String.eqb (n_id n) notificationId)
                          (setRead true) (notifications (db w))).
  { apply updateFirst_idempotent; [exact Hstable | intros d; reflexivity]. }
  eexists. eexists. split; [reflexivity |]. split; [reflexivity |].
  split; [| split; [exact Hfirst | split; [| split]]].
  - unfold contents. simpl. now rewrite Hsame.
  - unfold notificationById. simpl. now rewrite Hsame.
  - intros n H. apply Hread. rewrite <- Hfirst. exact H.
  - intros n H. apply Hread. rewrite <- Hfirst. rewrite <- H.
    unfold notificationById. simpl. now rewrite Hsame.
Qed.

(** C8.  For a stored user, [updateNotificationPreferences] leaves exactly
    the supplied object as that user's notificationPreferences: a flag the
    caller left out is absent afterwards whatever was stored before, the
    user's other fields and the other users are untouched. *)
Theorem updateNotificationPreferences_replaces
        (userId : string) (preferences : Preferences) (w : World) (u : User) :
  userById userId (db w) = Some u ->
  exists w' u',
    updateNotificationPreferences userId preferences w = (Ok tt, w')
    /\ userById userId (db w') = Some u'
    /\ notificationPreferences u' = Some preferences
    /\ u' = setPreferences preferences u
    /\ (pref_email preferences = None ->
        option_map pref_email (notificationPreferences u') = Some None)
    /\ (pref_inApp preferences = None ->
        option_map pref_inApp (notificationPreferences u') = Some None)
    /\ (pref_push preferences = None ->
        option_map pref_push (notificationPreferences u') = Some None)
    /\ (forall v, In v (users (db w)) -> u_id v <> userId ->
                  In v (users (db w')))
    /\ List.length (users (db w')) = List.length (users (db w)).
Proof.
  intros Hu.
  exists (snd (updateNotificationPreferences userId preferences w)),
         (setPreferences preferences u).
  split; [reflexivity |]. split.
  - unfold userById in *. simpl.
    rewrite find_updateFirst by (intros d H; exact H).
    now rewrite Hu.
  - split; [reflexivity |]. split; [reflexivity |].
    repeat split.
    + intros H. simpl. now rewrite H.
    + intros H. simpl. now rewrite H.
    + intros H. simpl. now rewrite H.
    + intros v Hin Hne. simpl. apply updateFirst_others; [| exact Hin].
      now apply String.eqb_neq.
    + simpl. apply updateFirst_length.
Qed.

Lemma updateNotificationPreferences_replaces_witness :
  exists w' u',
    updateNotificationPreferences "b1" (mkPreferences (Some false) None None)
                                  Scenario.directory = (Ok tt, w')
    /\ userById "b1" (db w') = Some u'
    /\ notificationPreferences u'
       = Some (mkPreferences (Some false) None None)
    /\ notificationPreferences Scenario.builder
       = Some (mkPreferences (Some true) (Some true) (Some false)).
Proof.
  destruct (@updateNotificationPreferences_replaces
              "b1" (mkPreferences (Some false) None None)
              Scenario.directory Scenario.builder)
    as (w' & u' & Hrun & Hfind & Hprefs & _).
  - reflexivity.
  - exists w', u'. repeat split; assumption.
Defined.

(** ** Bulk notifications *)

Section Bulk.

Variable E : Env.
Variables (userIds : list string) (ty : NotificationType)
          (ttl msg : string) (meta : option Metadata).

Let mkDoc (userId : string) : M (string -> Notification) :=
  bind (newDate E)
       (fun now => ret (fun k => mkNotification k userId ty ttl msg false now meta)).

Let sendTo (user : User) : M unit :=
  match email user with
  | Some addr =>
      if Js.truthy (email user)
      then tryCatch
             (sendEmail E addr ttl (notificationHtml ttl msg))
             (fun error =>
                consoleError ("Failed to send email to " ++ addr ++ ":") error)
      else ret tt
  | None => ret tt
  end.

Lemma mapM_mkDoc (ids : list string) (w : World) :
  exists docs,
    mapM mkDoc ids w
    = (Ok docs, mkWorld (db w) (ticks w + List.length ids) (attempts w)
                        (draws w) (outbox w) (console w))
    /\ List.length docs = List.length ids
    /\ forall i, stampAll E i docs = bulkRecords E ty ttl msg meta i (ticks w) ids.
Proof.
  revert w. induction ids as [|id rest IH]; intros w.
  - exists []. simpl. unfold ret. rewrite Nat.add_0_r.
    destruct w; auto.
  - destruct (IH (mkWorld (db w) (S (ticks w)) (attempts w) (draws w)
                          (outbox w) (console w)))
      as (docs & Hrun & Hlen & Hstamp).
    exists ((fun k => mkNotification k id ty ttl msg false
                                     (clock E (ticks w)) meta) :: docs).
    split; [| split].
    + simpl. unfold bind at 1. unfold mkDoc at 1, bind at 1, newDate, ret at 1.
      unfold bind at 1. rewrite Hrun. simpl. unfold ret.
      repeat f_equal. lia.
    + simpl. now rewrite Hlen.
    + intros i. simpl. now rewrite (Hstamp (S i)).
Qed.

Lemma forOf_sendTo (us : list User) (w : World) :
  forOf us sendTo w
  = (Ok tt,
     let addrs := flat_map (fun u => match email u with
                                     | Some addr =>
                                         if Js.truthy (email u) then [addr] else []
                                     | None => []
                                     end) us in
     mkWorld (db w) (ticks w) (attempts w + List.length addrs) (draws w)
             (outbox w ++ delivered E ttl msg (attempts w) addrs)
             (console w ++ failures E (attempts w) addrs)).
Proof.
  revert w. induction us as [|u rest IH]; intros w.
  - simpl. unfold ret. rewrite Nat.add_0_r, !app_nil_r. now destruct w.
  - cbn [forOf]. unfold bind at 1.
    unfold sendTo at 1.
    destruct (email u) as [addr|] eqn:Hemail.
    + destruct (Js.truthy (Some addr)) eqn:Htruthy.
      * unfold tryCatch, sendEmail, transportSend, consoleError. cbn [recipient].
        destruct (deliver E (attempts w) addr) eqn:Hd.
        -- rewrite IH. cbn [flat_map]. rewrite Hemail, Htruthy.
           cbn -[notificationHtml]. rewrite Hd. cbn -[notificationHtml].
           rewrite <- ?app_assoc. cbn [app]. f_equal. f_equal. lia.
        -- rewrite IH. cbn [flat_map]. rewrite Hemail, Htruthy.
           cbn -[notificationHtml]. rewrite Hd. cbn -[notificationHtml].
           rewrite <- ?app_assoc. cbn [app]. f_equal. f_equal. lia.
      * unfold ret at 1. rewrite IH. cbn [flat_map]. rewrite Hemail, Htruthy.
        reflexivity.
    + unfold ret at 1. rewrite IH. cbn [flat_map]. rewrite Hemail.
      reflexivity.
Qed.

(** On the empty list the batch insert is refused: the call throws and the
    world is as it was. *)
Lemma createBulkNotifications_empty (w : World) :
  userIds = [] ->
  createBulkNotifications E userIds ty ttl msg meta w = (Throw emptyBatch, w).
Proof.
  intros ->. reflexivity.
Qed.

(** The whole call on a list that is not empty, as one equation. *)
Lemma createBulkNotifications_run (w : World) :
  userIds <> [] ->
  let s := db w in
  let ns := bulkRecords E ty ttl msg meta (nextId s) (ticks w) userIds in
  let addrs := bulkRecipients userIds (users s) in
  createBulkNotifications E userIds ty ttl msg meta w
  = (Ok ns,
     mkWorld (mkStore (users s) (notifications s ++ ns) (projects s)
                      (nextId s + List.length userIds)
                      (dbLog s ++ [InsertMany Notifications (List.length userIds);
                                   Find Users]))
             (ticks w + List.length userIds)
             (attempts w + List.length addrs) (draws w)
             (outbox w ++ delivered E ttl msg (attempts w) addrs)
             (console w ++ failures E (attempts w) addrs)).
Proof.
  intros Hne s ns addrs.
  unfold createBulkNotifications.
  change (fun userId : string =>
            bind (newDate E)
                 (fun now => ret (fun k => mkNotification k userId ty ttl msg
                                                          false now meta)))
    with mkDoc.
  destruct (mapM_mkDoc userIds w) as (docs & Hrun & Hlen & Hstamp).
  assert (Hdocs : exists d ds, docs = d :: ds).
  { destruct docs as [|d ds]; [| eauto].
    destruct userIds; [contradiction | discriminate]. }
  destruct Hdocs as (d & ds & Hdocs).
  unfold bind at 1. rewrite Hrun.
  unfold bind at 1. unfold insertManyNotifications. cbn [db].
  rewrite Hdocs at 1. cbv iota.
  unfold bind at 1. unfold findUsers. cbn [db].
  unfold bind at 1.
  change (fun user : User =>
            match email user with
            | Some addr =>
                if Js.truthy (email user)
                then tryCatch (sendEmail E addr ttl (notificationHtml ttl msg))
                       (fun error =>
                          consoleError ("Failed to send email to " ++ addr ++ ":")
                                       error)
                else ret tt
            | None => ret tt
            end)
    with sendTo.
  rewrite forOf_sendTo. unfold ret.
  rewrite Hstamp, Hlen.
  cbn -[notificationHtml delivered failures bulkRecords].
  subst s ns addrs. unfold bulkRecipients, logged, bumpId, setNotifications.
  cbn [users notifications projects nextId dbLog].
  rewrite <- app_assoc. reflexivity.
Qed.

Lemma bulkRecords_length i t ids : List.length (bulkRecords E ty ttl msg meta i t ids) = List.length ids.
Proof. revert i t; induction ids; intros; simpl; congruence. Qed.

Lemma bulkRecords_userIds i t ids : map userId (bulkRecords E ty ttl msg meta i t ids) = ids.
Proof. revert i t; induction ids; intros; simpl; congruence. Qed.

Lemma bulkRecords_shape i t ids n :
  In n (bulkRecords E ty ttl msg meta i t ids) ->
  read n = false /\ type n = ty /\ title n = ttl /\ message n = msg
  /\ metadata n = meta.
Proof.
  revert i t; induction ids as [|id rest IH]; intros i t; simpl; [tauto |].
  intros [<- | Hin]; [simpl; auto | eauto].
Qed.

Lemma bulkRecords_nth i t ids k n :
  nth_error (bulkRecords E ty ttl msg meta i t ids) k = Some n ->
  nth_error ids k = Some (userId n)
  /\ createdAt n = clock E (t + k) /\ n_id n = objectId E (i + k).
Proof.
  revert i t k; induction ids as [|id rest IH]; intros i t k; simpl.
  - destruct k; discriminate.
  - destruct k as [|k]; simpl.
    + intros H. injection H as <-. simpl. now rewrite !Nat.add_0_r.
    + intros H. apply IH in H. now rewrite <- !Nat.add_succ_comm.
Qed.

Lemma delivered_nth n addrs k a :
  nth_error addrs k = Some a -> deliver E (n + k) a = true ->
  In (NotificationMail a ttl (notificationHtml ttl msg)) (delivered E ttl msg n addrs).
Proof.
  revert n k; induction addrs as [|b rest IH]; intros n k.
  - destruct k; discriminate.
  - destruct k as [|k]; cbn [nth_error delivered].
    + intros H Hd. injection H as ->. rewrite Nat.add_0_r in Hd. rewrite Hd.
      now left.
    + intros H Hd. apply in_or_app. right.
      apply (IH (S n) k H). now rewrite Nat.add_succ_comm.
Qed.

Lemma failures_nth n addrs k a :
  nth_error addrs k = Some a -> deliver E (n + k) a = false ->
  In (LogError ("Failed to send email to " ++ a ++ ":") (EmailFailed a))
     (failures E n addrs).
Proof.
  revert n k; induction addrs as [|b rest IH]; intros n k.
  - destruct k; discriminate.
  - destruct k as [|k]; cbn [nth_error failures].
    + intros H Hd. injection H as ->. rewrite Nat.add_0_r in Hd. rewrite Hd.
      now left.
    + intros H Hd. apply in_or_app. right.
      apply (IH (S n) k H). now rewrite Nat.add_succ_comm.
Qed.

End Bulk.

(** C5.  For every list of user ids, [createBulkNotifications] adds to the
    notification collection exactly one record per id, in the order of the
    ids and nothing else: each record has read = false, a reading of the
    clock taken during the call as createdAt, and the type, title, message
    and metadata passed in.  On a list that is not empty the call returns
    these records, stored by one [insertMany] call, the only write the call
    issues.  On the empty list there is no record to add: the driver refuses
    the empty batch, so the call throws with nothing stored or issued. *)
Theorem createBulkNotifications_inserts
        (E : Env) (userIds : list string) (ty : NotificationType)
        (ttl msg : string) (meta : option Metadata) (w : World) :
  exists out ns w',
    createBulkNotifications E userIds ty ttl msg meta w = (out, w')
    /\ out = match userIds with
             | [] => Throw emptyBatch
             | _ :: _ => Ok ns
             end
    /\ notifications (db w') = notifications (db w) ++ ns
    /\ List.length ns = List.length userIds
    /\ map userId ns = userIds
    /\ (forall n, In n ns ->
                  read n = false /\ type n = ty /\ title n = ttl
                  /\ message n = msg /\ metadata n = meta)
    /\ (forall k n, nth_error ns k = Some n ->
                    createdAt n = clock E (ticks w + k)
                    /\ n_id n = objectId E (nextId (db w) + k))
    /\ dbLog (db w')
       = dbLog (db w)
         ++ match userIds with
            | [] => []
            | _ :: _ => [InsertMany Notifications (List.length userIds);
                         Find Users]
            end
    /\ users (db w') = users (db w)
    /\ projects (db w') = projects (db w).
Proof.
  destruct userIds as [|id ids].
  - exists (Throw emptyBatch), [], w.
    split; [now apply createBulkNotifications_empty |].
    rewrite !app_nil_r.
    do 4 (split; [reflexivity |]).
    split; [intros n [] |].
    split; [intros [|k] n H; discriminate |].
    auto.
  - assert (Hne : id :: ids <> []) by discriminate.
    eexists. eexists. eexists.
    split; [apply (createBulkNotifications_run E ty ttl msg meta w Hne) |].
    cbn [db notifications dbLog users projects].
    split; [reflexivity |].
    split; [reflexivity |].
    split; [apply bulkRecords_length |].
    split; [apply bulkRecords_userIds |].
    split; [intros n; apply bulkRecords_shape |].
    split; [intros k n H; apply bulkRecords_nth in H; tauto |].
    split; [reflexivity | auto].
Qed.

(** C6.  Whatever the email transport does with each send,
    [createBulkNotifications] on a list of ids that is not empty returns
    normally; every selected recipient is written to, one send each, also
    after earlier sends failed; a send that fails leaves one error line
    naming that recipient, a send that succeeds leaves its mail in the
    outbox; and the records inserted are in the store as if no send had
    failed. *)
Theorem createBulkNotifications_email_failures_isolated
        (E : Env) (userIds : list string) (ty : NotificationType)
        (ttl msg : string) (meta : option Metadata) (w : World) :
  userIds <> [] ->
  let addrs := bulkRecipients userIds (users (db w)) in
  exists ns w',
    createBulkNotifications E userIds ty ttl msg meta w = (Ok ns, w')
    /\ attempts w' = attempts w + List.length addrs
    /\ outbox w' = outbox w ++ delivered E ttl msg (attempts w) addrs
    /\ console w' = console w ++ failures E (attempts w) addrs
    /\ (forall k a,
           nth_error addrs k = Some a ->
           if deliver E (attempts w + k) a
           then In (NotificationMail a ttl (notificationHtml ttl msg)) (outbox w')
           else In (LogError ("Failed to send email to " ++ a ++ ":")
                             (EmailFailed a))
                   (console w'))
    /\ notifications (db w')
       = notifications (db w)
         ++ bulkRecords E ty ttl msg meta (nextId (db w)) (ticks w) userIds
    /\ List.length ns = List.length userIds.
Proof.
  intros Hne addrs.
  eexists. eexists.
  split; [apply (createBulkNotifications_run E ty ttl msg meta w Hne) |].
  cbn [db notifications attempts outbox console].
  split; [reflexivity |]. split; [reflexivity |]. split; [reflexivity |].
  split; [| split; [reflexivity | apply bulkRecords_length]].
  intros k a Hk.
  destruct (deliver E (attempts w + k) a) eqn:Hd; apply in_or_app; right.
  - eapply delivered_nth; eauto.
  - eapply failures_nth; eauto.
Qed.

(** Three recipients, the transport rejecting the second send only. *)
Lemma createBulkNotifications_email_failures_isolated_witness :
  exists ns w',
    createBulkNotifications (Scenario.env (fun n _ => negb (Nat.eqb n 1)))
      ["b1"; "b2"; "b3"] NEW_TENDER_AVAILABLE "New Tender Available" "hello"
      None Scenario.directory = (Ok ns, w')
    /\ List.length ns = 3
    /\ attempts w' = 3
    /\ In (LogError "Failed to send email to b2@code.test:"
                    (EmailFailed "b2@code.test")) (console w')
    /\ In (NotificationMail "b3@buy.test" "New Tender Available"
                            (notificationHtml "New Tender Available" "hello"))
          (outbox w').
Proof.
  destruct (@createBulkNotifications_email_failures_isolated
              (Scenario.env (fun n _ => negb (Nat.eqb n 1)))
              ["b1"; "b2"; "b3"] NEW_TENDER_AVAILABLE "New Tender Available"
              "hello" None Scenario.directory)
    as (ns & w' & Hrun & Hatt & _ & _ & Hsends & _ & Hlen);
    [discriminate |].
  exists ns, w'.
  split; [exact Hrun |]. split; [exact Hlen |]. split; [exact Hatt |].
  split.
  - exact (Hsends 1 "b2@code.test" eq_refl).
  - exact (Hsends 2 "b3@buy.test" eq_refl).
Defined.

(** ** Single notifications *)

(** [createNotification] as one equation: the record is stored first; the
    call throws exactly when there is an address to write to and the
    transport rejects the send. *)
Lemma createNotification_run (E : Env) (uid : string) (ty : NotificationType)
      (ttl msg : string) (meta : option Metadata) (w : World) :
  createNotification E uid ty ttl msg meta w
  = let n := mkNotification (objectId E (nextId (db w))) uid ty ttl msg false
                            (clock E (ticks w)) meta in
    let s' := withNotification n (db w) in
    match mailTarget uid (db w) with
    | Some addr =>
        if deliver E (attempts w) addr
        then (Ok n, mkWorld s' (S (ticks w)) (S (attempts w)) (draws w)
                            (outbox w ++ [NotificationMail addr ttl
                                            (notificationHtml ttl msg)])
                            (console w))
        else (Throw (EmailFailed addr),
              mkWorld s' (S (ticks w)) (S (attempts w)) (draws w)
                      (outbox w) (console w))
    | None => (Ok n, mkWorld s' (S (ticks w)) (attempts w) (draws w)
                             (outbox w) (console w))
    end.
Proof.
  unfold createNotification, mailTarget, userById, withNotification.
  unfold bind, newDate, insertOneNotification, findOneUser, sendEmail,
    transportSend, ret, withDb, logged, bumpId, setNotifications.
  cbn [db users notifications projects nextId dbLog].
  destruct (find _ (users (db w))) as [u|];
    [destruct (email u) as [addr|];
     [destruct (Js.truthy (Some addr) && emailNotDisabled u);
      [cbn [recipient attempts]; destruct (deliver E (attempts w) addr) |] |] |];
    cbn [db users notifications projects nextId dbLog ticks attempts draws
         outbox console];
    rewrite <- app_assoc; reflexivity.
Qed.

(** ** Signup *)

(** One step of a handler: a call that returns lets the rest run in the
    world it left; a call that throws ends the sequence there. *)
Lemma bind_returns {A B} (m : M A) (k : A -> M B) (w w1 : World) (a : A) :
  m w = (Ok a, w1) -> bind m k w = k a w1.
Proof. unfold bind. now intros ->. Qed.

Lemma bind_throws {A B} (m : M A) (k : A -> M B) (w w1 : World) (e : Exn) :
  m w = (Throw e, w1) -> bind m k w = (Throw e, w1).
Proof. unfold bind. now intros ->. Qed.

Ltac run_call :=
  cbv beta iota zeta delta
      [ret throw newDate nextToken consoleLog consoleError transportSend
       sendEmail sendVerificationEmail insertOneUser insertOneProject
       insertOneNotification findOneUser findUsers withDb logged bumpId
       setUsers setNotifications setProjects recipient
       db ticks attempts draws outbox console
       users notifications projects nextId dbLog].

(** Runs the first call of a sequence when it is one that returns. *)
Ltac step := erewrite bind_returns by (run_call; reflexivity); cbv beta.

Section Signup.

Variable E : Env.

Lemma registerUser_effect (email password companyName userType : string)
      (bidderType : option string) (w : World) :
  exists r w',
    registerUser E email password companyName userType bidderType w = (Ok r, w')
    /\ users (db w')
       = users (db w)
         ++ [newUserRecord E email password companyName userType bidderType w]
    /\ projects (db w') = projects (db w)
    /\ if deliver E (attempts w) email
       then notifications (db w')
            = notifications (db w) ++ [welcome E companyName w]
            /\ In (VerificationMail email (generateVerificationToken E (draws w))
                                    companyName) (outbox w')
            /\ (r = signupSuccess \/ r = signupWarning)
       else notifications (db w') = notifications (db w)
            /\ r = signupWarning
            /\ outbox w' = outbox w.
Proof.
  destruct w as [[us ns ps nid lg] t a d ob co].
  unfold registerUser, newUserRecord, welcome.
  cbn [db users notifications projects nextId ticks attempts draws outbox].
  do 12 step.
  unfold tryCatch.
  destruct (deliver E a email) eqn:Hd.
  - erewrite bind_returns by (run_call; rewrite Hd; reflexivity). cbv beta.
    step.
    unfold bind at 1. rewrite createNotification_run.
    cbn [db users notifications projects nextId dbLog ticks attempts draws
         outbox console withNotification u_id].
    cbv zeta.
    destruct (mailTarget _ _) as [addr|];
      [destruct (deliver E (S a) addr) |];
      run_call;
      (eexists; eexists; split; [reflexivity |]);
      cbn [db users notifications projects outbox];
      (split; [reflexivity |]); (split; [reflexivity |]);
      (split; [reflexivity |]); (split; [| auto]).
    + apply in_or_app. left. apply in_or_app. right. now left.
    + apply in_or_app. right. now left.
    + apply in_or_app. right. now left.
  - erewrite bind_throws by (run_call; rewrite Hd; reflexivity).
    step.
    run_call.
    eexists. eexists. split; [reflexivity |].
    cbn [db users notifications projects outbox].
    repeat split; reflexivity.
Qed.

End Signup.

Lemma signupPOST_run (E : Env) (b : SignupBody) (w : World) :
  signupPOST E b w
  = match signupValidation b with
    | Some err => (Ok (jsonStatus (BError err) 400), w)
    | None =>
        let w1 := withDb (logged (FindOne Users)) w in
        match find (hasEmail (text (s_email b))) (users (db w)) with
        | Some _ => (Ok (jsonStatus (BError "User already exists") 400), w1)
        | None => registerUser E (text (s_email b)) (text (s_password b))
                               (text (s_companyName b)) (text (s_userType b))
                               (s_bidderType b) w1
        end
    end.
Proof.
  unfold signupPOST, signupValidation, tryCatch.
  destruct (negb (Js.truthy (s_email b)) || negb (Js.truthy (s_password b))
            || negb (Js.truthy (s_companyName b))
            || negb (Js.truthy (s_userType b))); [reflexivity |].
  destruct (negb (Js.arrayIncludes ["tender"; "bidder"] (text (s_userType b))));
    [reflexivity |].
  destruct (String.eqb (text (s_userType b)) "bidder"
            && negb (Js.truthy (s_bidderType b))); [reflexivity |].
  destruct (String.eqb (text (s_userType b)) "bidder"
            && negb (match s_bidderType b with
                     | Some bt => Js.arrayIncludes validBidderTypes bt
                     | None => false
                     end)); [reflexivity |].
  destruct (Nat.ltb (Js.length (text (s_password b))) 8); [reflexivity |].
  unfold bind at 1. unfold findOneUser at 1.
  destruct (find _ (users (db w))) as [existing|]; [reflexivity |].
  cbv zeta.
  destruct (registerUser_effect E (text (s_email b)) (text (s_password b))
              (text (s_companyName b)) (text (s_userType b)) (s_bidderType b)
              (withDb (logged (FindOne Users)) w))
    as (r & w' & Hrun & _).
  now rewrite Hrun.
Qed.

Lemma app_one_neq_self {A} (l : list A) (x : A) : l <> l ++ [x].
Proof.
  intros H. apply (f_equal (@List.length A)) in H.
  rewrite length_app in H. simpl in H. lia.
Qed.

(** What a signup that persisted a user went through. *)
Lemma signupPOST_persisted (E : Env) (b : SignupBody) (w : World)
      (r : Outcome Response) (w' : World) (u : User) :
  signupPOST E b w = (r, w') ->
  users (db w') = users (db w) ++ [u] ->
  let w1 := withDb (logged (FindOne Users)) w in
  signupValidation b = None
  /\ registerUser E (text (s_email b)) (text (s_password b))
                  (text (s_companyName b)) (text (s_userType b))
                  (s_bidderType b) w1 = (r, w')
  /\ u = newUserRecord E (text (s_email b)) (text (s_password b))
                       (text (s_companyName b)) (text (s_userType b))
                       (s_bidderType b) w1.
Proof.
  intros Hrun Husers. rewrite signupPOST_run in Hrun. cbv zeta in *.
  destruct (signupValidation b) as [err|].
  - injection Hrun as _ <-. now apply app_one_neq_self in Husers.
  - destruct (find _ (users (db w))) as [existing|].
    + injection Hrun as _ <-. now apply app_one_neq_self in Husers.
    + split; [reflexivity |]. split; [exact Hrun |].
      destruct (registerUser_effect E (text (s_email b)) (text (s_password b))
                  (text (s_companyName b)) (text (s_userType b)) (s_bidderType b)
                  (withDb (logged (FindOne Users)) w))
        as (r0 & w0 & Hrun0 & Hus & _).
      rewrite Hrun0 in Hrun. injection Hrun as _ <-.
      rewrite Hus in Husers. cbn [withDb db logged users] in Husers.
      apply app_inv_head in Husers. now injection Husers.
Qed.

(** C9.  The user record a signup persists has bidderType set exactly when
    its userType is bidder: a bidder signup stores the bidderType of the
    request, which is one of the five enum values; a tender signup stores
    no bidderType, whatever the request body carried. *)
Theorem signup_bidderType_iff_bidder
        (E : Env) (b : SignupBody) (w : World)
        (r : Outcome Response) (w' : World) (u : User) :
  signupPOST E b w = (r, w') ->
  users (db w') = users (db w) ++ [u] ->
  (bidderType u <> None <-> userType u = "bidder")
  /\ (userType u = "bidder" \/ userType u = "tender")
  /\ s_userType b = Some (userType u)
  /\ (userType u = "bidder" ->
      bidderType u = s_bidderType b
      /\ exists bt, bidderType u = Some bt /\ In bt validBidderTypes)
  /\ (userType u = "tender" -> bidderType u = None).
Proof.
  intros Hrun Husers.
  destruct (@signupPOST_persisted E b w r w' u Hrun Husers) as (Hval & _ & ->).
  unfold signupValidation in Hval.
  destruct (s_userType b) as [ut|] eqn:Hut;
    [| rewrite !orb_true_r in Hval; discriminate].
  cbn [text orElse] in Hval.
  destruct (negb (Js.truthy (s_email b)) || negb (Js.truthy (s_password b))
            || negb (Js.truthy (s_companyName b)) || negb (Js.truthy (Some ut)));
    [discriminate |].
  destruct (Js.arrayIncludes ["tender"; "bidder"] ut) eqn:Hkind;
    [| discriminate].
  cbn [negb] in Hval.
  apply arrayIncludes_In in Hkind.
  unfold newUserRecord. cbn [bidderType userType text orElse].
  destruct Hkind as [<- | [<- | []]].
  - (* tender *)
    simpl.
    split; [split; [intros H; now elim H | discriminate] |].
    split; [right; reflexivity |]. split; [reflexivity |].
    split; [discriminate | reflexivity].
  - (* bidder *)
    replace (String.eqb "bidder" "bidder") with true in * by reflexivity.
    cbn [andb] in Hval.
    destruct (Js.truthy (s_bidderType b)) eqn:Hbt; [| discriminate].
    cbn [negb] in Hval.
    destruct (s_bidderType b) as [bt|] eqn:Hsb; [| discriminate].
    destruct (Js.arrayIncludes validBidderTypes bt) eqn:Hvalid; [| discriminate].
    apply arrayIncludes_In in Hvalid.
    split; [split; [reflexivity | discriminate] |].
    split; [left; reflexivity |]. split; [reflexivity |].
    split; [| discriminate].
    intros _. split; [reflexivity |]. exists bt. auto.
Qed.

Lemma signup_bidderType_iff_bidder_witness :
  exists r w' u,
    signupPOST Scenario.reliable SignupScenario.tenderBody SignupScenario.fresh
    = (r, w')
    /\ users (db w') = users (db SignupScenario.fresh) ++ [u]
    /\ s_bidderType SignupScenario.tenderBody = Some "SUPPLIER"
    /\ userType u = "tender"
    /\ bidderType u = None.
Proof.
  pose (run := signupPOST Scenario.reliable SignupScenario.tenderBody
                          SignupScenario.fresh).
  pose (u := newUserRecord Scenario.reliable "t@x.com" "password1" "Tenders Ltd"
                           "tender" (Some "SUPPLIER")
                           (withDb (logged (FindOne Users)) SignupScenario.fresh)).
  assert (Hrun : signupPOST Scenario.reliable SignupScenario.tenderBody
                            SignupScenario.fresh = (fst run, snd run))
    by (vm_compute; reflexivity).
  assert (Husers : users (db (snd run)) = users (db SignupScenario.fresh) ++ [u])
    by (vm_compute; reflexivity).
  destruct (@signup_bidderType_iff_bidder _ _ _ _ _ _ Hrun Husers)
    as (_ & _ & _ & _ & Htender).
  exists (fst run), (snd run), u.
  split; [exact Hrun |]. split; [exact Husers |].
  split; [reflexivity |]. split; [reflexivity |].
  apply Htender. reflexivity.
Defined.

(** C2 (the claim as stated fails).  A bidder signs up while the email
    transport rejects every send: the user record is persisted and the
    response is the success-with-warning one, but no notification at all has
    been created. *)
Lemma signup_email_failure_leaves_no_notification :
  let '(r, w') := signupPOST Scenario.unreachable SignupScenario.bidderBody
                             SignupScenario.fresh in
  r = Ok signupWarning
  /\ map (fun u => (u_id u, email u, userType u)) (users (db w'))
     = [("oid0", Some "a@x.com", "bidder")]
  /\ notifications (db w') = []
  /\ attempts w' = 1
  /\ outbox w' = [].
Proof. vm_compute. repeat split; reflexivity. Qed.

(** C2, as the code has it.  For every signup that persisted a user the
    response is a success (status 200).  When the verification email is
    delivered, one SIGNUP_COMPLETE notification, unread, is created for the
    new user's id.  When the verification email send fails, no notification
    is created, the response is the success with the warning and
    emailSent = false, and the user record is in the store. *)
Theorem signup_notification_follows_verification_email
        (E : Env) (b : SignupBody) (w : World)
        (r : Outcome Response) (w' : World) (u : User) :
  signupPOST E b w = (r, w') ->
  users (db w') = users (db w) ++ [u] ->
  exists resp,
    r = Ok resp /\ status resp = 200 /\ In u (users (db w'))
    /\ if deliver E (attempts w) (text (s_email b))
       then exists n,
              notifications (db w') = notifications (db w) ++ [n]
              /\ type n = SIGNUP_COMPLETE /\ userId n = u_id u
              /\ read n = false
       else notifications (db w') = notifications (db w)
            /\ resp = signupWarning
            /\ body resp = BSignup
                 "User created successfully, but there was an issue sending the verification email. You can request a new verification email from the login page."
                 false (Some "Email delivery failed").
Proof.
  intros Hrun Husers.
  destruct (@signupPOST_persisted E b w r w' u Hrun Husers) as (_ & Hreg & Hu).
  destruct (registerUser_effect E (text (s_email b)) (text (s_password b))
              (text (s_companyName b)) (text (s_userType b)) (s_bidderType b)
              (withDb (logged (FindOne Users)) w))
    as (resp & w0 & Hrun0 & _ & _ & Hmail).
  rewrite Hrun0 in Hreg. injection Hreg as <- <-.
  cbn [withDb attempts db logged notifications] in Hmail.
  exists resp. split; [reflexivity |].
  assert (Hin : In u (users (db w0)))
    by (rewrite Husers; apply in_or_app; right; now left).
  destruct (deliver E (attempts w) (text (s_email b))).
  - destruct Hmail as (Hn & _ & Hresp).
    split; [destruct Hresp as [-> | ->]; reflexivity |].
    split; [exact Hin |].
    eexists. split; [exact Hn |]. rewrite Hu. repeat split.
  - destruct Hmail as (Hn & -> & _).
    repeat split; auto.
Qed.

Lemma signup_notification_follows_verification_email_witness :
  exists r w' u n,
    signupPOST Scenario.reliable SignupScenario.bidderBody SignupScenario.fresh
    = (r, w')
    /\ users (db w') = users (db SignupScenario.fresh) ++ [u]
    /\ notifications (db w') = [n]
    /\ type n = SIGNUP_COMPLETE /\ userId n = u_id u.
Proof.
  pose (run := signupPOST Scenario.reliable SignupScenario.bidderBody
                          SignupScenario.fresh).
  pose (u := newUserRecord Scenario.reliable "a@x.com" "password1" "Acme"
                           "bidder" (Some "CONTRACTOR")
                           (withDb (logged (FindOne Users)) SignupScenario.fresh)).
  assert (Hrun : signupPOST Scenario.reliable SignupScenario.bidderBody
                            SignupScenario.fresh = (fst run, snd run))
    by (vm_compute; reflexivity).
  assert (Husers : users (db (snd run)) = users (db SignupScenario.fresh) ++ [u])
    by (vm_compute; reflexivity).
  destruct (@signup_notification_follows_verification_email _ _ _ _ _ _ Hrun Husers)
    as (resp & _ & _ & _ & Hmail).
  change (deliver Scenario.reliable (attempts SignupScenario.fresh)
                  (text (s_email SignupScenario.bidderBody))) with true in Hmail.
  destruct Hmail as (n & Hn & Hty & Huid & _).
  exists (fst run), (snd run), u, n.
  split; [exact Hrun |]. split; [exact Husers |]. split; [exact Hn |].
  split; [exact Hty | exact Huid].
Defined.

(** ** Project creation *)

Lemma projectsPOST_run (E : Env) (request : ProjectRequest) (w : World) :
  projectsPOST E request w
  = match projectGate E request with
    | inl resp => (Ok resp, w)
    | inr payload =>
        match createProject E payload (projectBody request) w with
        | (Ok resp, w') => (Ok resp, w')
        | (Throw error, w') =>
            (Ok (jsonStatus (BError "Internal server error") 500),
             mkWorld (db w') (ticks w') (attempts w') (draws w') (outbox w')
                     (console w' ++ [LogError "Error creating project:" error]))
        end
    end.
Proof.
  unfold projectsPOST, projectGate, tryCatch.
  destruct (authorization request) as [authHeader|]; [| reflexivity].
  destruct (negb (Js.truthy (Some authHeader))
            || negb (Js.startsWith authHeader "Bearer ")); [reflexivity |].
  destruct (verifyToken E (Js.substringFrom 7 authHeader)) as [payload|];
    [| reflexivity].
  destruct (negb (String.eqb (tok_userType payload) "tender")); [reflexivity |].
  destruct (negb (Js.truthy (b_title (projectBody request)))
            || negb (Js.truthy (b_description (projectBody request)))
            || negb (Js.truthy (b_budget (projectBody request)))
            || negb (Js.truthy (b_deadline (projectBody request)))
            || negb (Js.truthy (b_category (projectBody request))));
    [reflexivity |].
  destruct (createProject E payload (projectBody request) w) as [[resp|e] w'];
    reflexivity.
Qed.

Lemma mailTarget_same_users (uid : string) (s s' : Store) :
  users s = users s' -> mailTarget uid s = mailTarget uid s'.
Proof. unfold mailTarget, userById. now intros ->. Qed.

(** The creator's notification is outside the handler's inner [try]: when
    its email is rejected, [createProject] throws although the project is
    already stored. *)
Lemma createProject_creator_mail_rejected
      (E : Env) (payload : Payload) (b : ProjectBody) (w : World) (addr : string) :
  mailTarget (tok_userId payload) (db w) = Some addr ->
  deliver E (attempts w) addr = false ->
  exists w',
    createProject E payload b w = (Throw (EmailFailed addr), w')
    /\ projects (db w') = projects (db w) ++ [newProjectRecord E payload b w]
    /\ console w' = console w.
Proof.
  intros Htarget Hd.
  unfold createProject, bind, newDate, insertOneProject, withDb, logged, bumpId,
    setProjects.
  cbn [db users notifications projects nextId dbLog ticks attempts draws
       outbox console p_id].
  rewrite createNotification_run.
  cbn [db users notifications projects nextId dbLog ticks attempts draws
       outbox console].
  cbv zeta.
  erewrite mailTarget_same_users by (cbn [users]; reflexivity).
  rewrite Htarget, Hd.
  eexists. split; [reflexivity |].
  cbn [db projects withNotification console]. split; reflexivity.
Qed.

(** When the creator's notification goes through, nothing that happens
    while the bidders are notified can fail the response. *)
Lemma createProject_bidder_step_tolerated
      (E : Env) (payload : Payload) (b : ProjectBody) (w : World) :
  match mailTarget (tok_userId payload) (db w) with
  | Some addr => deliver E (attempts w) addr = true
  | None => True
  end ->
  exists w',
    createProject E payload b w
    = (Ok (json (BCreated "Project created successfully"
                          (objectId E (nextId (db w))))), w')
    /\ projects (db w') = projects (db w) ++ [newProjectRecord E payload b w].
Proof.
  intros Htarget.
  unfold createProject, bind, newDate, insertOneProject, withDb, logged, bumpId,
    setProjects.
  cbn [db users notifications projects nextId dbLog ticks attempts draws
       outbox console p_id].
  rewrite createNotification_run.
  cbn [db users notifications projects nextId dbLog ticks attempts draws
       outbox console].
  cbv zeta.
  erewrite mailTarget_same_users by (cbn [users]; reflexivity).
  unfold tryCatch, getInterestedBidders, bind, findUsers, ret, withDb, logged.
  destruct (mailTarget (tok_userId payload) (db w)) as [addr|];
    [rewrite Htarget |];
    cbn [db users notifications projects nextId dbLog ticks attempts draws
         outbox console withNotification];
    match goal with
    | |- context [Nat.ltb 0 (List.length ?l)] => destruct l as [|id ids]
    end;
    cbn [List.length Nat.ltb Nat.leb];
    try rewrite createBulkNotifications_run by discriminate;
    cbv zeta;
    cbn [db users notifications projects nextId dbLog ticks attempts draws
         outbox console];
    (eexists; split; [reflexivity | reflexivity]).
Qed.

Lemma projectsPOST_creator_mail_rejected
      (E : Env) (request : ProjectRequest) (w : World)
      (payload : Payload) (addr : string) :
  projectGate E request = inr payload ->
  mailTarget (tok_userId payload) (db w) = Some addr ->
  deliver E (attempts w) addr = false ->
  exists w',
    projectsPOST E request w
    = (Ok (jsonStatus (BError "Internal server error") 500), w')
    /\ projects (db w')
       = projects (db w) ++ [newProjectRecord E payload (projectBody request) w]
    /\ console w'
       = console w ++ [LogError "Error creating project:" (EmailFailed addr)].
Proof.
  intros Hgate Htarget Hd.
  rewrite projectsPOST_run, Hgate.
  destruct (createProject_creator_mail_rejected E payload (projectBody request)
              w Htarget Hd) as (w' & -> & Hp & Hc).
  eexists. split; [reflexivity |]. cbn [db console]. now rewrite Hc.
Qed.

Lemma projectsPOST_bidder_failures_tolerated
      (E : Env) (request : ProjectRequest) (w : World) (payload : Payload) :
  projectGate E request = inr payload ->
  match mailTarget (tok_userId payload) (db w) with
  | Some addr => deliver E (attempts w) addr = true
  | None => True
  end ->
  exists w',
    projectsPOST E request w
    = (Ok (json (BCreated "Project created successfully"
                          (objectId E (nextId (db w))))), w')
    /\ projects (db w')
       = projects (db w) ++ [newProjectRecord E payload (projectBody request) w].
Proof.
  intros Hgate Htarget.
  rewrite projectsPOST_run, Hgate.
  destruct (createProject_bidder_step_tolerated E payload (projectBody request)
              w Htarget) as (w' & -> & Hp).
  eexists. split; [reflexivity | exact Hp].
Qed.

(** The bidder fan-out is guarded: with every mail to a bidder rejected the
    creation is still reported as a success. *)
Example projectsPOST_bidders_unreachable :
  let '(r, w') := projectsPOST ProjectScenario.biddersUnreachable
                               ProjectScenario.request Scenario.directory in
  r = Ok (json (BCreated "Project created successfully" "oid0"))
  /\ map p_title (projects (db w')) = ["Bridge repair"]
  /\ map (fun n => (type n, userId n)) (notifications (db w'))
     = [(PROJECT_CREATED, "t1"); (NEW_TENDER_AVAILABLE, "b1")]
  /\ attempts w' = 2
  /\ console w'
     = [LogError "Failed to send email to b1@build.test:"
                 (EmailFailed "b1@build.test")].
Proof. vm_compute. repeat split; reflexivity. Qed.

(** C3 (the code departs from the claim).  A tender user with a valid token
    posts a complete project while the transport rejects the mail of the
    creator's own notification: the project record is persisted, and the
    response is the 500 "Internal server error", not the success. *)
Theorem projectsPOST_creator_notification_failure_fails_response :
  let '(r, w') := projectsPOST ProjectScenario.ownerUnreachable
                               ProjectScenario.request Scenario.directory in
  r = Ok (jsonStatus (BError "Internal server error") 500)
  /\ map (fun p => (p_id p, p_title p, p_status p)) (projects (db w'))
     = [("oid0", "Bridge repair", "open")]
  /\ map (fun n => (type n, userId n)) (notifications (db w'))
     = [(PROJECT_CREATED, "t1")]
  /\ console w'
     = [LogError "Error creating project:" (EmailFailed "owner@acme.test")].
Proof. vm_compute. repeat split; reflexivity. Qed.

(** ** Project listing *)

Lemma projectsGET_run (q : ProjectsQuery) (w : World) :
  projectsGET q w
  = match buildFilter q with
    | inl error =>
        (Ok (jsonStatus (BError "Internal server error") 500),
         mkWorld (db w) (ticks w) (attempts w) (draws w) (outbox w)
                 (console w ++ [LogError "Error fetching projects:" error]))
    | inr f =>
        match findProjects f (requestedLimit q) w with
        | (Ok found, w') =>
            (Ok (json (BProjects found (bidderView q)
                                 (if Js.truthy (q_bidderType q)
                                  then q_bidderType q else None))), w')
        | (Throw error, w') =>
            (Ok (jsonStatus (BError "Internal server error") 500),
             mkWorld (db w') (ticks w') (attempts w') (draws w') (outbox w')
                     (console w' ++ [LogError "Error fetching projects:" error]))
        end
    end.
Proof.
  unfold projectsGET, buildFilter, statusClause, bidderView, requestedLimit,
    tryCatch, bind.
  cbn [f_status f_category f_or].
  destruct (match q_userType q with
            | Some t => String.eqb t "bidder"
            | None => false
            end && Js.truthy (q_bidderType q));
    destruct (Js.truthy (q_status q)); destruct (Js.truthy (q_category q));
    cbn [negb f_status f_category f_or];
    try (destruct (getProperty categoryFilters (text (q_bidderType q)))
          as [xs | arity | |];
         [destruct (Nat.ltb 0 (List.length xs))
         | destruct (Nat.ltb 0 arity) | | ]);
    unfold ret, throw, consoleError;
    try reflexivity;
    match goal with
    | |- context [findProjects ?f ?l w] =>
        destruct (findProjects f l w) as [[found|e] w']; reflexivity
    end.
Qed.

Lemma insertDesc_In {A} (key : A -> Z) (x y : A) (l : list A) :
  In y (insertDesc key x l) <-> y = x \/ In y l.
Proof.
  induction l as [|z r IH]; simpl.
  - split; [intros [<- | []]; auto | intros [-> | []]; auto].
  - destruct (Z.ltb (key x) (key z)); simpl.
    + rewrite IH. split; intros H; intuition auto.
    + split; intros H; intuition auto.
Qed.

Lemma sortDesc_In {A} (key : A -> Z) (y : A) (l : list A) :
  In y (sortDesc key l) <-> In y l.
Proof.
  induction l as [|x r IH]; simpl; [tauto |].
  rewrite insertDesc_In, IH. split; intros H; intuition auto.
Qed.

Lemma cursorLimit_incl {A} (limit : option Z) (docs kept : list A) :
  cursorLimit limit docs = Some kept -> incl kept docs.
Proof.
  unfold cursorLimit. destruct limit as [n|]; [| discriminate].
  destruct (9223372036854775808 <=? Z.abs n)%Z; [discriminate |].
  destruct (Z.eqb n 0); intros H; injection H as <-.
  - apply incl_refl.
  - intros x Hx. rewrite <- (firstn_skipn (limitCount n) docs).
    apply in_or_app. now left.
Qed.

Lemma limitCount_le (n : Z) : limitCount n <= Z.to_nat (Z.abs n).
Proof.
  unfold limitCount. destruct (0 <? n)%Z eqn:Hpos.
  - apply Z.ltb_lt in Hpos. rewrite Z.abs_eq by lia. lia.
  - apply Z.ltb_ge in Hpos. rewrite Z.abs_neq by lia. apply Nat.le_min_l.
Qed.

Lemma findProjects_sound (f : Filter) (limit : option Z) (w w' : World)
      (found : list Project) (p : Project) :
  findProjects f limit w = (Ok found, w') ->
  In p found ->
  In p (projects (db w)) /\ matchesFilter f p = true.
Proof.
  unfold findProjects. intros Hrun Hin.
  destruct (cursorLimit limit _) as [kept|] eqn:Hlimit; [| discriminate].
  injection Hrun as <- _.
  apply (cursorLimit_incl _ _ Hlimit) in Hin.
  apply sortDesc_In in Hin. now apply filter_In in Hin.
Qed.

Lemma buildFilter_status (q : ProjectsQuery) (f : Filter) :
  buildFilter q = inr f -> f_status f = Some (statusClause q).
Proof.
  unfold buildFilter.
  destruct (bidderView q).
  - destruct (getProperty categoryFilters (text (q_bidderType q)))
      as [xs | arity | |].
    + destruct (Nat.ltb 0 (List.length xs)); intros H; injection H as <-;
        reflexivity.
    + destruct (Nat.ltb 0 arity); [discriminate |].
      intros H; injection H as <-; reflexivity.
    + intros H; injection H as <-; reflexivity.
    + intros H; injection H as <-; reflexivity.
  - intros H; injection H as <-; reflexivity.
Qed.

Lemma matchesFilter_status (f : Filter) (p : Project) :
  matchesFilter f p = true ->
  match f_status f with
  | Some (StatusIs s) => p_status p = s
  | Some (StatusIn ss) => In (p_status p) ss
  | None => True
  end.
Proof.
  unfold matchesFilter. rewrite !andb_true_iff. intros [[H _] _].
  destruct (f_status f) as [[s | ss]|]; [| | exact I].
  - now apply String.eqb_eq.
  - now apply arrayIncludes_In.
Qed.

(** The listing without parameters: the open and the active project, newest
    first; the closed and the awarded one are left out. *)
Example projectsGET_no_parameters :
  let '(r, _) := projectsGET ListingScenario.noParameters
                             ListingScenario.catalogue in
  exists found,
    r = Ok (json (BProjects found false None))
    /\ map p_id found = ["p3"; "p1"].
Proof. vm_compute. eexists. split; reflexivity. Qed.

(** C10.  Every project returned by GET /api/projects is a stored project;
    when the request carries no status parameter (or an empty one) its
    status is open or active; and a returned project whose status is neither
    open nor active has exactly the status the request asked for. *)
Theorem projectsGET_default_status
        (q : ProjectsQuery) (w w' : World) (r : Response)
        (found : list Project) (filtered : bool) (filterType : option string)
        (p : Project) :
  projectsGET q w = (Ok r, w') ->
  body r = BProjects found filtered filterType ->
  In p found ->
  In p (projects (db w))
  /\ (Js.truthy (q_status q) = false ->
      p_status p = "open" \/ p_status p = "active")
  /\ (p_status p <> "open" -> p_status p <> "active" ->
      q_status q = Some (p_status p)).
Proof.
  intros Hrun Hbody Hin.
  rewrite projectsGET_run in Hrun.
  destruct (buildFilter q) as [e | f] eqn:Hf.
  { injection Hrun as <- _. discriminate. }
  destruct (findProjects f (requestedLimit q) w) as [[docs | e] w0] eqn:Hfind.
  2:{ injection Hrun as <- _. discriminate. }
  injection Hrun as <- _. cbn [body json] in Hbody. injection Hbody as -> _ _.
  destruct (@findProjects_sound _ _ _ _ _ _ Hfind Hin) as [Hstored Hmatch].
  apply matchesFilter_status in Hmatch.
  rewrite (@buildFilter_status _ _ Hf) in Hmatch.
  unfold statusClause in Hmatch.
  split; [exact Hstored |].
  destruct (Js.truthy (q_status q)) eqn:Hs.
  - split; [discriminate |]. intros _ _.
    destruct (q_status q) as [s|]; [| discriminate].
    cbn [text orElse] in Hmatch. now subst s.
  - destruct Hmatch as [<- | [<- | []]].
    + split; [auto | intros H; now elim H].
    + split; [auto | intros _ H; now elim H].
Qed.

Lemma projectsGET_default_status_witness :
  exists r w' found,
    projectsGET ListingScenario.noParameters ListingScenario.catalogue
    = (Ok r, w')
    /\ body r = BProjects found false None
    /\ In (ListingScenario.project "p3" "active" 30) found
    /\ In (ListingScenario.project "p2" "closed" 20)
          (projects (db ListingScenario.catalogue))
    /\ (p_status (ListingScenario.project "p3" "active" 30) = "open"
        \/ p_status (ListingScenario.project "p3" "active" 30) = "active").
Proof.
  pose (run := projectsGET ListingScenario.noParameters
                           ListingScenario.catalogue).
  pose (r := mkResponse 200
               (BProjects [ListingScenario.project "p3" "active" 30;
                           ListingScenario.project "p1" "open" 10]
                          false None)).
  assert (Hrun : projectsGET ListingScenario.noParameters
                             ListingScenario.catalogue = (Ok r, snd run))
    by (vm_compute; reflexivity).
  assert (Hin : In (ListingScenario.project "p3" "active" 30)
                   [ListingScenario.project "p3" "active" 30;
                    ListingScenario.project "p1" "open" 10])
    by (left; reflexivity).
  destruct (@projectsGET_default_status
              ListingScenario.noParameters ListingScenario.catalogue (snd run)
              r _ false None _ Hrun eq_refl Hin) as (_ & Hopen & _).
  exists r, (snd run), [ListingScenario.project "p3" "active" 30;
                        ListingScenario.project "p1" "open" 10].
  split; [exact Hrun |]. split; [reflexivity |]. split; [exact Hin |].
  split; [right; left; reflexivity |].
  apply Hopen. reflexivity.
Defined.

(** * Further properties of the modelled code *)

(** ** Interest Matcher *)

Lemma table_types_known kw bidderTypes bt :
  In (kw, bidderTypes) Matcher.categoryToBidderType ->
  In bt bidderTypes -> In bt matchedBidderTypes.
Proof.
  unfold Matcher.categoryToBidderType, matchedBidderTypes. simpl.
  intros H Hbt.
  repeat (destruct H as [H | H];
          [injection H as _ <-; destruct Hbt as [<- | []]; simpl; tauto |]).
  contradiction.
Qed.

Lemma relevantBidderTypes_known tenderCategory tenderSector bt :
  In bt (Matcher.relevantBidderTypes tenderCategory tenderSector) ->
  In bt matchedBidderTypes.
Proof.
  unfold Matcher.relevantBidderTypes.
  destruct (Nat.eqb _ 0); [trivial |].
  intros H. apply accumulate_In in H.
  destruct H as (kw & tys & Hin & _ & Hbt).
  eapply table_types_known; eauto.
Qed.

(** X1.  Whatever the category and the sector, [getInterestedBidders]
    leaves the store as it was and returns only ids of stored users that
    are verified, have userType bidder and a bidderType among CONTRACTOR,
    DEVELOPER, SUPPLIER and CONSULTANT. *)
Theorem getInterestedBidders_only_verified_bidders
        tenderCategory tenderSector (w : World) :
  exists ids w',
    getInterestedBidders tenderCategory tenderSector w = (Ok ids, w')
    /\ contents (db w') = contents (db w)
    /\ forall id, In id ids ->
         exists u bt,
           In u (users (db w)) /\ u_id u = id /\ isVerified u = true
           /\ userType u = "bidder" /\ bidderType u = Some bt
           /\ In bt matchedBidderTypes.
Proof.
  unfold getInterestedBidders, bind, findUsers, ret.
  eexists. eexists. split; [reflexivity |]. split; [reflexivity |].
  intros id Hid. apply in_map_iff in Hid. destruct Hid as (u & Hu & Hf).
  apply filter_In in Hf. destruct Hf as [Hin Hq].
  apply bidderQuery_spec in Hq. destruct Hq as (Hty & Hv & bt & Hbt & Hrel).
  exists u, bt. repeat split; auto.
  eapply relevantBidderTypes_known; eauto.
Qed.

Lemma lowerAscii_idempotent (c : ascii) :
  Js.lowerAscii (Js.lowerAscii c) = Js.lowerAscii c.
Proof. destruct c as [[] [] [] [] [] [] [] []]; reflexivity. Qed.

Lemma toLowerCase_idempotent (s : string) :
  Js.toLowerCase (Js.toLowerCase s) = Js.toLowerCase s.
Proof.
  induction s as [|c s IH]; simpl; [reflexivity |].
  now rewrite lowerAscii_idempotent, IH.
Qed.

Lemma toLowerCase_empty (s : string) : Js.toLowerCase s = "" <-> s = "".
Proof. destruct s; simpl; split; intros H; try discriminate; reflexivity. Qed.

(** X2.  Letter case never matters to the matcher: two categories that
    agree once lowered, with sectors that agree once lowered, select the
    same bidders. *)
Theorem getInterestedBidders_case_insensitive
        (c c' : string) (s s' : option string) (w : World) :
  Js.toLowerCase c = Js.toLowerCase c' ->
  option_map Js.toLowerCase s = option_map Js.toLowerCase s' ->
  getInterestedBidders c s w = getInterestedBidders c' s' w.
Proof.
  intros Hc Hs.
  assert (Hk : forall kw, Matcher.keywordMatches c s kw
                          = Matcher.keywordMatches c' s' kw).
  { intros kw. unfold Matcher.keywordMatches. rewrite Hc. f_equal.
    destruct s as [x|], s' as [x'|]; simpl in Hs; try discriminate;
      [| reflexivity].
    injection Hs as Hs. rewrite Hs. f_equal.
    unfold Js.truthy. f_equal.
    destruct (String.eqb x "") eqn:Hx, (String.eqb x' "") eqn:Hx';
      try reflexivity.
    - apply String.eqb_eq in Hx. subst x. simpl in Hs. symmetry in Hs.
      apply (proj1 (toLowerCase_empty x')) in Hs. subst x'. discriminate.
    - apply String.eqb_eq in Hx'. subst x'. simpl in Hs.
      apply (proj1 (toLowerCase_empty x)) in Hs. subst x. discriminate. }
  assert (Hacc : forall table, Matcher.accumulate c s table
                               = Matcher.accumulate c' s' table).
  { induction table as [|[kw tys] rest IH]; simpl; [reflexivity |].
    now rewrite Hk, IH. }
  unfold getInterestedBidders, Matcher.relevantBidderTypes.
  now rewrite Hacc.
Qed.

Lemma getInterestedBidders_case_insensitive_witness :
  getInterestedBidders "ROAD Construction" (Some "Civil") Scenario.directory
  = getInterestedBidders "road construction" (Some "CIVIL") Scenario.directory.
Proof.
  apply getInterestedBidders_case_insensitive; reflexivity.
Defined.

(** ** Single notifications and preferences *)

(** X3.  [createNotification] stores the record before it turns to the
    email: whether the call returns or throws, the collection has gained
    exactly the new unread record, stamped with the clock reading taken on
    entry; users and projects are untouched.  The call throws only when
    there was an address to write to and the transport rejected the send;
    when it returns and there was such an address, the mail is in the
    outbox. *)
Theorem createNotification_stores_before_mailing
        (E : Env) (uid : string) (ty : NotificationType) (ttl msg : string)
        (meta : option Metadata) (w : World) :
  let n := mkNotification (objectId E (nextId (db w))) uid ty ttl msg false
                          (clock E (ticks w)) meta in
  exists out w',
    createNotification E uid ty ttl msg meta w = (out, w')
    /\ notifications (db w') = notifications (db w) ++ [n]
    /\ users (db w') = users (db w)
    /\ projects (db w') = projects (db w)
    /\ (out = Ok n
        \/ exists addr, out = Throw (EmailFailed addr)
                        /\ mailTarget uid (db w) = Some addr
                        /\ deliver E (attempts w) addr = false)
    /\ (out = Ok n ->
        forall addr, mailTarget uid (db w) = Some addr ->
                     deliver E (attempts w) addr = true
                     /\ In (NotificationMail addr ttl (notificationHtml ttl msg))
                           (outbox w')).
Proof.
  intros n. rewrite createNotification_run. cbv zeta. fold n.
  destruct (mailTarget uid (db w)) as [addr|] eqn:Ht.
  - destruct (deliver E (attempts w) addr) eqn:Hd.
    + eexists. eexists. split; [reflexivity |].
      cbn [db notifications users projects withNotification outbox].
      repeat (split; [reflexivity |]). split; [now left |].
      intros _ a Ha. injection Ha as <-. split; [exact Hd |].
      apply in_or_app. right. now left.
    + eexists. eexists. split; [reflexivity |].
      cbn [db notifications users projects withNotification outbox].
      repeat (split; [reflexivity |]). split.
      * right. exists addr. auto.
      * discriminate.
  - eexists. eexists. split; [reflexivity |].
    cbn [db notifications users projects withNotification outbox].
    repeat (split; [reflexivity |]). split; [now left |].
    intros _ a Ha. discriminate.
Qed.

Lemma mailTarget_none_when (uid : string) (s : Store) :
  (forall u, userById uid s = Some u ->
             Js.truthy (email u) = false
             \/ exists p, notificationPreferences u = Some p
                          /\ pref_email p = Some false) ->
  mailTarget uid s = None.
Proof.
  intros H. unfold mailTarget.
  destruct (userById uid s) as [u|]; [| reflexivity].
  destruct (email u) as [addr|] eqn:Hemail; [| reflexivity].
  destruct (H u eq_refl) as [Hf | (p & Hp & Hoff)].
  - rewrite Hemail in Hf. now rewrite Hf.
  - unfold emailNotDisabled. rewrite Hp, Hoff. now rewrite andb_false_r.
Qed.

(** With no address to write to, [createNotification] stores the record
    and leaves the transport alone. *)
Lemma createNotification_no_target
      (E : Env) (uid : string) (ty : NotificationType) (ttl msg : string)
      (meta : option Metadata) (w : World) :
  mailTarget uid (db w) = None ->
  exists n w',
    createNotification E uid ty ttl msg meta w = (Ok n, w')
    /\ attempts w' = attempts w
    /\ outbox w' = outbox w
    /\ In n (notifications (db w')).
Proof.
  intros H. rewrite createNotification_run. cbv zeta. rewrite H.
  eexists. eexists. split; [reflexivity |].
  cbn [db notifications attempts outbox withNotification].
  repeat (split; [reflexivity |]).
  apply in_or_app. right. now left.
Qed.

(** X4.  No email is attempted, and the call returns, when the recipient is
    unknown to the user collection, has no (or an empty) email address, or
    has set the email preference to false. *)
Theorem createNotification_without_mail
        (E : Env) (uid : string) (ty : NotificationType) (ttl msg : string)
        (meta : option Metadata) (w : World) :
  (forall u, userById uid (db w) = Some u ->
             Js.truthy (email u) = false
             \/ exists p, notificationPreferences u = Some p
                          /\ pref_email p = Some false) ->
  exists n w',
    createNotification E uid ty ttl msg meta w = (Ok n, w')
    /\ attempts w' = attempts w
    /\ outbox w' = outbox w
    /\ In n (notifications (db w')).
Proof.
  intros H. apply createNotification_no_target.
  now apply mailTarget_none_when.
Qed.

Lemma createNotification_without_mail_witness :
  exists n w',
    createNotification Scenario.unreachable "b1" BID_ACCEPTED "Bid accepted"
                       "Well done" None UploadScenario.quietDirectory
    = (Ok n, w')
    /\ attempts w' = 0
    /\ pref_email (mkPreferences (Some false) (Some true) (Some false))
       = Some false.
Proof.
  destruct (@createNotification_without_mail
              Scenario.unreachable "b1" BID_ACCEPTED "Bid accepted" "Well done"
              None UploadScenario.quietDirectory)
    as (n & w' & Hrun & Ha & _).
  - intros u Hu. injection Hu as <-. right. eexists. split; reflexivity.
  - exists n, w'. split; [exact Hrun |]. split; [exact Ha | reflexivity].
Defined.

Lemma userById_after_preferences (uid : string) (p : Preferences) (w : World) :
  userById uid (db (snd (updateNotificationPreferences uid p w)))
  = option_map (setPreferences p) (userById uid (db w)).
Proof.
  unfold userById. simpl. apply find_updateFirst. intros d H. exact H.
Qed.

(** X5.  Opting out takes effect at once: after
    [updateNotificationPreferences] with email = false, a notification for
    that user is stored but no email is attempted, whatever the other two
    flags and whatever was stored before. *)
Theorem optOut_then_createNotification_sends_nothing
        (E : Env) (uid : string) (inApp push : option bool)
        (ty : NotificationType) (ttl msg : string) (meta : option Metadata)
        (w : World) :
  exists w1 n w2,
    updateNotificationPreferences uid (mkPreferences (Some false) inApp push) w
    = (Ok tt, w1)
    /\ createNotification E uid ty ttl msg meta w1 = (Ok n, w2)
    /\ attempts w2 = attempts w
    /\ outbox w2 = outbox w
    /\ In n (notifications (db w2)).
Proof.
  pose (p := mkPreferences (Some false) inApp push).
  pose (w1 := snd (updateNotificationPreferences uid p w)).
  destruct (@createNotification_no_target E uid ty ttl msg meta w1)
    as (n & w2 & Hrun & Ha & Ho & Hin).
  - apply mailTarget_none_when.
    intros u Hu. unfold w1 in Hu. rewrite userById_after_preferences in Hu.
    destruct (userById uid (db w)) as [u0|]; [| discriminate].
    injection Hu as <-. right. exists p. split; reflexivity.
  - exists w1, n, w2. split; [reflexivity |]. split; [exact Hrun |].
    split; [exact Ha |]. split; [exact Ho | exact Hin].
Qed.

(** X6.  The preference object is replaced as a whole, so an update that
    leaves the email flag out switches email on again: for a stored user
    with a non-empty address, the next notification attempts a send to that
    address, whatever the user's email preference was before the update. *)
Theorem preferences_without_email_flag_enable_mail
        (E : Env) (uid : string) (inApp push : option bool)
        (ty : NotificationType) (ttl msg : string) (meta : option Metadata)
        (w : World) (u : User) (addr : string) :
  userById uid (db w) = Some u ->
  email u = Some addr ->
  addr <> "" ->
  exists w1 out w2,
    updateNotificationPreferences uid (mkPreferences None inApp push) w
    = (Ok tt, w1)
    /\ createNotification E uid ty ttl msg meta w1 = (out, w2)
    /\ attempts w2 = S (attempts w)
    /\ if deliver E (attempts w) addr
       then In (NotificationMail addr ttl (notificationHtml ttl msg)) (outbox w2)
       else out = Throw (EmailFailed addr).
Proof.
  intros Hu Hemail Hne.
  pose (p := mkPreferences None inApp push).
  pose (w1 := snd (updateNotificationPreferences uid p w)).
  assert (Ht : mailTarget uid (db w1) = Some addr).
  { unfold mailTarget, w1. rewrite userById_after_preferences, Hu.
    cbn [option_map setPreferences email]. rewrite Hemail.
    replace (Js.truthy (Some addr)) with true
      by (symmetry; now apply truthy_some).
    reflexivity. }
  assert (Hrun := createNotification_run E uid ty ttl msg meta w1).
  cbv zeta in Hrun. rewrite Ht in Hrun.
  change (attempts w1) with (attempts w) in Hrun.
  destruct (deliver E (attempts w) addr);
    exists w1; eexists; eexists; (split; [reflexivity |]);
    (split; [exact Hrun |]); cbn [attempts outbox];
    (split; [reflexivity |]).
  - apply in_or_app. right. now left.
  - reflexivity.
Qed.

Lemma preferences_without_email_flag_enable_mail_witness :
  exists w1 out w2,
    updateNotificationPreferences "b1" (mkPreferences None None (Some true))
                                  UploadScenario.quietDirectory = (Ok tt, w1)
    /\ createNotification Scenario.reliable "b1" BID_ACCEPTED "Bid accepted"
                          "Well done" None w1 = (out, w2)
    /\ attempts w2 = 1
    /\ emailNotDisabled UploadScenario.quietBuilder = false.
Proof.
  destruct (@preferences_without_email_flag_enable_mail
              Scenario.reliable "b1" None (Some true) BID_ACCEPTED
              "Bid accepted" "Well done" None UploadScenario.quietDirectory
              UploadScenario.quietBuilder "b1@build.test")
    as (w1 & out & w2 & H1 & H2 & H3 & _).
  - reflexivity.
  - reflexivity.
  - discriminate.
  - exists w1, out, w2. split; [exact H1 |]. split; [exact H2 |].
    split; [exact H3 | reflexivity].
Defined.

(** ** Reading and marking notifications *)

Section SortDesc.

Context {A : Type} (key : A -> Z).

Lemma insertDesc_perm (x : A) (l : list A) :
  Permutation (insertDesc key x l) (x :: l).
Proof.
  induction l as [|y r IH]; simpl; [reflexivity |].
  destruct (Z.ltb (key x) (key y)); [| reflexivity].
  rewrite IH. apply perm_swap.
Qed.

Lemma sortDesc_perm (l : list A) : Permutation (sortDesc key l) l.
Proof.
  induction l as [|x r IH]; simpl; [reflexivity |].
  rewrite insertDesc_perm. now constructor.
Qed.

Lemma insertDesc_hd (x y : A) (l : list A) :
  (key x <= key y)%Z ->
  HdRel (fun a b => (key b <= key a)%Z) y l ->
  HdRel (fun a b => (key b <= key a)%Z) y (insertDesc key x l).
Proof.
  intros Hxy Hhd. destruct l as [|z r]; simpl.
  - now constructor.
  - destruct (Z.ltb (key x) (key z)).
    + constructor. now inversion Hhd.
    + now constructor.
Qed.

Lemma insertDesc_sorted (x : A) (l : list A) :
  newestFirst key l -> newestFirst key (insertDesc key x l).
Proof.
  unfold newestFirst. induction l as [|y r IH]; simpl; intros Hs.
  - repeat constructor.
  - destruct (Z.ltb (key x) (key y)) eqn:Hlt.
    + apply Z.ltb_lt in Hlt. inversion Hs as [|? ? Hr Hhd]; subst.
      constructor; [now apply IH |].
      apply insertDesc_hd; [lia | exact Hhd].
    + apply Z.ltb_ge in Hlt. constructor; [exact Hs |]. now constructor.
Qed.

Lemma sortDesc_sorted (l : list A) : newestFirst key (sortDesc key l).
Proof.
  induction l as [|x r IH]; simpl; [constructor |].
  now apply insertDesc_sorted.
Qed.

End SortDesc.

Lemma getUnreadNotifications_run (uid : string) (w : World) :
  getUnreadNotifications uid w
  = (Ok (sortDesc createdAt (unreadOf uid (db w))),
     withDb (logged (Find Notifications)) w).
Proof. reflexivity. Qed.

Lemma unread_In (uid : string) (s : Store) (n : Notification) :
  In n (sortDesc createdAt (unreadOf uid s))
  <-> In n (notifications s) /\ userId n = uid /\ read n = false.
Proof.
  unfold unreadOf. rewrite sortDesc_In, filter_In, andb_true_iff.
  rewrite String.eqb_eq, Bool.eqb_true_iff. tauto.
Qed.

(** X7.  [getUnreadNotifications] returns exactly the stored notifications
    of the user that have read = false, each as often as it is stored,
    newest first; it changes nothing in the store. *)
Theorem getUnreadNotifications_exact (uid : string) (w : World) :
  exists l w',
    getUnreadNotifications uid w = (Ok l, w')
    /\ contents (db w') = contents (db w)
    /\ (forall n, In n l <-> In n (notifications (db w))
                             /\ userId n = uid /\ read n = false)
    /\ Permutation l (unreadOf uid (db w))
    /\ newestFirst createdAt l.
Proof.
  rewrite getUnreadNotifications_run.
  eexists. eexists. split; [reflexivity |]. split; [reflexivity |].
  split; [intros n; apply unread_In |].
  split; [apply sortDesc_perm | apply sortDesc_sorted].
Qed.

(** X8.  Insert, then look up: after [createNotification] for a user,
    whether it returned or threw on the email, the unread list of that user
    contains the new record. *)
Theorem createNotification_then_unread
        (E : Env) (uid : string) (ty : NotificationType) (ttl msg : string)
        (meta : option Metadata) (w : World) :
  exists out w1 l w2,
    createNotification E uid ty ttl msg meta w = (out, w1)
    /\ getUnreadNotifications uid w1 = (Ok l, w2)
    /\ In (mkNotification (objectId E (nextId (db w))) uid ty ttl msg false
                          (clock E (ticks w)) meta) l.
Proof.
  assert (Hn : notifications
                 (db (snd (createNotification E uid ty ttl msg meta w)))
               = notifications (db w)
                 ++ [mkNotification (objectId E (nextId (db w))) uid ty ttl msg
                                    false (clock E (ticks w)) meta]).
  { rewrite createNotification_run. cbv zeta.
    destruct (mailTarget uid (db w)) as [addr|];
      [destruct (deliver E (attempts w) addr) |]; reflexivity. }
  destruct (createNotification E uid ty ttl msg meta w) as [out w1].
  cbn [snd] in Hn.
  exists out, w1. eexists. eexists. split; [reflexivity |].
  split; [apply getUnreadNotifications_run |].
  apply unread_In. rewrite Hn. split; [| split; reflexivity].
  apply in_or_app. right. now left.
Qed.

Lemma updateFirst_by_key_In {A} (key : A -> string) (id : string)
      (change : A -> A) (docs : list A) (m : A) :
  NoDup (map key docs) ->
  In m (updateFirst (fun d => String.eqb (key d) id) change docs) ->
  (In m docs /\ key m <> id)
  \/ exists d, In d docs /\ key d = id /\ m = change d.
Proof.
  induction docs as [|d rest IH]; simpl; intros Hnd Hin; [contradiction |].
  inversion Hnd as [|? ? Hnotin Hrest]; subst.
  destruct (String.eqb (key d) id) eqn:Hq.
  - apply String.eqb_eq in Hq. destruct Hin as [<- | Hin].
    + right. exists d. auto.
    + left. split; [now right |].
      intros Heq. apply Hnotin. rewrite Hq, <- Heq. now apply in_map.
  - apply String.eqb_neq in Hq. destruct Hin as [<- | Hin].
    + left. split; [now left | exact Hq].
    + destruct (IH Hrest Hin) as [[H1 H2] | (d' & H1 & H2 & H3)].
      * left. split; [now right | exact H2].
      * right. exists d'. split; [now right | auto].
Qed.

(** X9.  Marking, then listing: when notification ids are distinct,
    [markNotificationAsRead] removes from every user's unread list the
    notification with that id and nothing else. *)
Theorem markNotificationAsRead_then_unread
        (notificationId uid : string) (w : World) :
  NoDup (map n_id (notifications (db w))) ->
  exists w1 before after wa wb,
    markNotificationAsRead notificationId w = (Ok tt, w1)
    /\ getUnreadNotifications uid w = (Ok before, wa)
    /\ getUnreadNotifications uid w1 = (Ok after, wb)
    /\ forall n, In n after <-> In n before /\ n_id n <> notificationId.
Proof.
  intros Hnd.
  pose (w1 := snd (markNotificationAsRead notificationId w)).
  exists w1. eexists. eexists. eexists. eexists.
  split; [reflexivity |].
  split; [apply getUnreadNotifications_run |].
  split; [apply getUnreadNotifications_run |].
  intros n. rewrite !unread_In.
  change (notifications (db w1))
    with (updateFirst (fun d => String.eqb (n_id d) notificationId)
                      (setRead true) (notifications (db w))).
  split.
  - intros (Hin & Hu & Hr).
    destruct (updateFirst_by_key_In n_id notificationId (setRead true) _ n
                                    Hnd Hin)
      as [[H1 H2] | (d & _ & _ & ->)].
    + auto.
    + discriminate.
  - intros ((Hin & Hu & Hr) & Hne).
    split; [| auto].
    apply updateFirst_others; [| exact Hin].
    now apply String.eqb_neq.
Qed.

Lemma markNotificationAsRead_then_unread_witness :
  exists w1 before after wa wb,
    markNotificationAsRead "n2" UploadScenario.inbox = (Ok tt, w1)
    /\ getUnreadNotifications "b1" UploadScenario.inbox = (Ok before, wa)
    /\ getUnreadNotifications "b1" w1 = (Ok after, wb)
    /\ map n_id before = ["n2"; "n1"]
    /\ (In (UploadScenario.note "n1" "b1" false 5) after
        <-> In (UploadScenario.note "n1" "b1" false 5) before /\ "n1" <> "n2").
Proof.
  destruct (@markNotificationAsRead_then_unread "n2" "b1" UploadScenario.inbox)
    as (w1 & before & after & wa & wb & H1 & H2 & H3 & H4).
  - simpl. repeat constructor; simpl; intuition discriminate.
  - exists w1, before, after, wa, wb.
    split; [exact H1 |]. split; [exact H2 |]. split; [exact H3 |].
    split; [| exact (H4 (UploadScenario.note "n1" "b1" false 5))].
    injection H2 as <- _. reflexivity.
Defined.

(** X10.  An id that selects no notification: [markNotificationAsRead]
    returns without an error and the store holds what it held; nothing is
    created for the unknown id. *)
Theorem markNotificationAsRead_unknown_id (notificationId : string) (w : World) :
  notificationById notificationId (db w) = None ->
  exists w',
    markNotificationAsRead notificationId w = (Ok tt, w')
    /\ contents (db w') = contents (db w)
    /\ notificationById notificationId (db w') = None.
Proof.
  intros H. eexists. split; [reflexivity |].
  unfold contents, notificationById in *. simpl.
  rewrite updateFirst_no_match by exact H. auto.
Qed.

Lemma markNotificationAsRead_unknown_id_witness :
  exists w',
    markNotificationAsRead "n9" UploadScenario.inbox = (Ok tt, w')
    /\ contents (db w') = contents (db UploadScenario.inbox).
Proof.
  destruct (@markNotificationAsRead_unknown_id "n9" UploadScenario.inbox)
    as (w' & H1 & H2 & _).
  - reflexivity.
  - exists w'. split; [exact H1 | exact H2].
Defined.

(** A user id that selects no user: [updateNotificationPreferences]
    returns without an error, stores the preferences nowhere and creates no
    user. *)
Theorem updateNotificationPreferences_unknown_user
        (uid : string) (preferences : Preferences) (w : World) :
  userById uid (db w) = None ->
  exists w',
    updateNotificationPreferences uid preferences w = (Ok tt, w')
    /\ contents (db w') = contents (db w).
Proof.
  intros H. eexists. split; [reflexivity |].
  unfold contents, userById in *. simpl.
  now rewrite updateFirst_no_match by exact H.
Qed.

Lemma updateNotificationPreferences_unknown_user_witness :
  exists w',
    updateNotificationPreferences "nobody" defaultPreferences
                                  Scenario.directory = (Ok tt, w')
    /\ users (db w') = users (db Scenario.directory).
Proof.
  destruct (@updateNotificationPreferences_unknown_user
              "nobody" defaultPreferences Scenario.directory)
    as (w' & H1 & H2).
  - reflexivity.
  - exists w'. split; [exact H1 |]. now injection H2.
Defined.

(** ** Who a bulk call writes to *)





(** ** Document uploads *)

(** X12.  [notifyTenderDocumentUpload] never throws, whatever the email
    transport does.  It stores one unread TENDER_DOCUMENT_UPLOADED record
    per bid on the tender, in the order of the bids and addressed to the
    bid's bidder (a bidder with two bids gets two), each carrying the tender
    id as tenderId and as projectId; bids on other tenders add nothing. *)
Theorem notifyTenderDocumentUpload_one_record_per_bid
        (E : Env) (bids : list Bid)
        (tender tenderTitle documentName uploadedBy : string) (w : World) :
  exists ns w',
    notifyTenderDocumentUpload E bids tender tenderTitle documentName
                               uploadedBy w = (Ok tt, w')
    /\ notifications (db w') = notifications (db w) ++ ns
    /\ map userId ns
       = map bid_bidderId
             (filter (fun bid => String.eqb (bid_tenderId bid) tender) bids)
    /\ (forall n, In n ns ->
          type n = TENDER_DOCUMENT_UPLOADED /\ read n = false
          /\ metadata n = Some (mkMetadata (Some tender) None (Some tender) None))
    /\ users (db w') = users (db w)
    /\ projects (db w') = projects (db w).
Proof.
  unfold notifyTenderDocumentUpload.
  set (ids := map bid_bidderId
                  (filter (fun bid => String.eqb (bid_tenderId bid) tender) bids)).
  destruct (Nat.ltb 0 (List.length ids)) eqn:Hlen.
  - unfold bind.
    rewrite createBulkNotifications_run
      by (intros Hnil; rewrite Hnil in Hlen; discriminate).
    cbv zeta. unfold ret.
    eexists. eexists. split; [reflexivity |].
    cbn [db notifications users projects].
    split; [reflexivity |]. split; [apply bulkRecords_userIds |].
    split; [| auto].
    intros n Hn. apply bulkRecords_shape in Hn. tauto.
  - exists [], w. unfold ret. split; [reflexivity |].
    rewrite app_nil_r. split; [reflexivity |]. split.
    + apply Nat.ltb_ge in Hlen. destruct ids; [reflexivity | simpl in Hlen; lia].
    + split; [intros n [] | auto].
Qed.

(** X13.  With no bid on the tender, [notifyTenderDocumentUpload] does
    nothing at all: no record, no driver call on the store, no email. *)
Theorem notifyTenderDocumentUpload_without_bids
        (E : Env) (bids : list Bid)
        (tender tenderTitle documentName uploadedBy : string) (w : World) :
  (forall bid, In bid bids -> bid_tenderId bid <> tender) ->
  notifyTenderDocumentUpload E bids tender tenderTitle documentName uploadedBy w
  = (Ok tt, w).
Proof.
  intros Hnone. unfold notifyTenderDocumentUpload.
  replace (filter (fun bid => String.eqb (bid_tenderId bid) tender) bids)
    with (@nil Bid); [reflexivity |].
  symmetry. induction bids as [|bid rest IH]; simpl; [reflexivity |].
  assert (Hne : String.eqb (bid_tenderId bid) tender = false)
    by (apply String.eqb_neq, Hnone; now left).
  rewrite Hne. apply IH. intros b Hb. apply Hnone. now right.
Qed.

Lemma notifyTenderDocumentUpload_without_bids_witness :
  notifyTenderDocumentUpload Scenario.reliable UploadScenario.bids "p7"
                             "Harbour wall" "plan.pdf" "t1" Scenario.directory
  = (Ok tt, Scenario.directory).
Proof.
  apply notifyTenderDocumentUpload_without_bids.
  intros bid Hbid. simpl in Hbid.
  repeat (destruct Hbid as [<- | Hbid]; [discriminate |]).
  contradiction.
Defined.

(** X14.  [notifyBidderDocumentUpload] stores one unread
    BID_DOCUMENT_UPLOADED record for the tender owner, carrying the tender
    id as tenderId and as projectId.  Unlike the tender-side fan-out it does
    not guard the email: when the owner has an address to write to and the
    transport rejects the send, the call throws, the record being stored
    already. *)
Theorem notifyBidderDocumentUpload_record_and_failure
        (E : Env)
        (tender tenderTitle documentName bidderCompany tenderOwnerId : string)
        (w : World) :
  exists out w' n,
    notifyBidderDocumentUpload E tender tenderTitle documentName bidderCompany
                               tenderOwnerId w = (out, w')
    /\ notifications (db w') = notifications (db w) ++ [n]
    /\ userId n = tenderOwnerId /\ type n = BID_DOCUMENT_UPLOADED
    /\ read n = false
    /\ metadata n = Some (mkMetadata (Some tender) None (Some tender) None)
    /\ match mailTarget tenderOwnerId (db w) with
       | Some addr =>
           if deliver E (attempts w) addr then out = Ok tt
           else out = Throw (EmailFailed addr)
       | None => out = Ok tt
       end.
Proof.
  unfold notifyBidderDocumentUpload, bind. rewrite createNotification_run.
  cbv zeta. unfold ret.
  destruct (mailTarget tenderOwnerId (db w)) as [addr|];
    [destruct (deliver E (attempts w) addr) |];
    (eexists; eexists; eexists; split; [reflexivity |]);
    cbn [db notifications withNotification];
    (split; [reflexivity |]); cbn [userId type read metadata];
    repeat split.
Qed.

(** ** Signup: rejections, the stored record, the two mails *)

(** The response of [registerUser], exactly. *)
Lemma registerUser_response (E : Env)
      (email password companyName userType : string)
      (bidderType : option string) (w : World) :
  let u := newUserRecord E email password companyName userType bidderType w in
  exists w',
    registerUser E email password companyName userType bidderType w
    = (Ok (mailOutcomeResponse
             (deliver E (attempts w) email)
             (option_map (deliver E (S (attempts w)))
                         (mailTarget (u_id u)
                                     (setUsers (users (db w) ++ [u]) (db w))))),
       w')
    /\ attempts w' <= attempts w + 2
    /\ (deliver E (attempts w) email = false -> attempts w' = S (attempts w)).
Proof.
  destruct w as [[us ns ps nid lg] t a d ob co].
  unfold registerUser, newUserRecord.
  cbn [db users notifications projects nextId ticks attempts draws outbox
       setUsers u_id].
  do 12 step.
  unfold tryCatch, mailOutcomeResponse.
  destruct (deliver E a email) eqn:Hd.
  - erewrite bind_returns by (run_call; rewrite Hd; reflexivity). cbv beta.
    step.
    unfold bind at 1. rewrite createNotification_run.
    cbn [db users notifications projects nextId dbLog ticks attempts draws
         outbox console withNotification u_id].
    cbv zeta.
    match goal with
    | |- context [mailTarget ?x (mkStore ?us' ?ns' ?ps' ?nid' ?lg')] =>
        change (mailTarget x (mkStore us' ns' ps' nid' lg'))
          with (mailTarget x (setUsers us' (mkStore us ns ps nid lg)))
    end.
    destruct (mailTarget _ _) as [addr|]; cbn [option_map];
      [destruct (deliver E (S a) addr) |];
      run_call;
      (eexists; split; [reflexivity |]); cbn [attempts];
      (split; [lia | discriminate]).
  - erewrite bind_throws by (run_call; rewrite Hd; reflexivity).
    step. run_call.
    eexists. split; [reflexivity |]. cbn [attempts]. split; [lia | reflexivity].
Qed.

(** The two ways a signup request ends. *)
Lemma signupPOST_cases (E : Env) (b : SignupBody) (w : World) :
  (exists err w',
      signupPOST E b w = (Ok (jsonStatus (BError err) 400), w')
      /\ contents (db w') = contents (db w)
      /\ attempts w' = attempts w /\ outbox w' = outbox w)
  \/ (exists r w' u,
         signupPOST E b w = (Ok r, w')
         /\ users (db w') = users (db w) ++ [u]
         /\ (r = signupSuccess \/ r = signupWarning)).
Proof.
  rewrite signupPOST_run.
  destruct (signupValidation b) as [err|].
  - left. eexists. eexists. split; [reflexivity |]. auto.
  - cbv zeta. destruct (find _ (users (db w))) as [existing|].
    + left. eexists. eexists. split; [reflexivity |]. auto.
    + destruct (registerUser_effect E (text (s_email b)) (text (s_password b))
                  (text (s_companyName b)) (text (s_userType b)) (s_bidderType b)
                  (withDb (logged (FindOne Users)) w))
        as (r & w' & Hrun & Hus & _ & Hmail).
      right. exists r, w'. eexists. split; [exact Hrun |]. split; [exact Hus |].
      destruct (deliver E _ _).
      * destruct Hmail as (_ & _ & H). exact H.
      * destruct Hmail as (_ & -> & _). now right.
Qed.

(** X15.  A signup request is answered 200, 400 or 500, whatever the email
    transport does.  A 400 has changed nothing in the store and attempted
    no email; a 200 has read the body and persisted exactly one new user; a
    request whose body cannot be read is answered 500 "Internal server
    error", with the error on the console and nothing else done. *)
Theorem signupPOST_rejects_cleanly_or_persists
        (E : Env) (request : SignupRequest) (w : World) :
  exists resp w',
    signupHandler E request w = (Ok resp, w')
    /\ (status resp = 200 \/ status resp = 400 \/ status resp = 500)
    /\ (status resp = 400 ->
        contents (db w') = contents (db w)
        /\ attempts w' = attempts w /\ outbox w' = outbox w)
    /\ (status resp = 200 ->
        exists b u, request = Readable b
                    /\ users (db w') = users (db w) ++ [u])
    /\ (forall error, request = Unreadable error ->
          resp = jsonStatus (BError "Internal server error") 500
          /\ db w' = db w /\ attempts w' = attempts w /\ outbox w' = outbox w
          /\ console w' = console w ++ [LogError "Signup error:" error]).
Proof.
  destruct request as [error | b].
  - eexists. eexists. split; [reflexivity |].
    split; [now right; right |].
    split; [discriminate |]. split; [discriminate |].
    intros error' H. injection H as <-. repeat split.
  - cbn [signupHandler].
    destruct (signupPOST_cases E b w)
      as [(err & w' & Hrun & Hsame) | (r & w' & u & Hrun & Hus & Hr)].
    + eexists. exists w'. split; [exact Hrun |].
      split; [now right; left |].
      split; [intros _; exact Hsame |].
      split; discriminate.
    + exists r, w'. split; [exact Hrun |].
      split; [left; destruct Hr as [-> | ->]; reflexivity |].
      split; [destruct Hr as [-> | ->]; discriminate |].
      split; [intros _; now exists b, u | discriminate].
Qed.

Lemma signupValidation_password (b : SignupBody) (p : string) :
  otherFieldsValid b -> s_password b = Some p -> p <> "" ->
  signupValidation b
  = if Nat.ltb (Js.length p) 8
    then Some "Password must be at least 8 characters" else None.
Proof.
  intros (He & Hc & Hkind) Hp Hne.
  unfold signupValidation. rewrite He, Hc, Hp.
  replace (Js.truthy (Some p)) with true by (symmetry; now apply truthy_some).
  destruct Hkind as [Hk | (Hk & bt & Hbt & Hin)]; rewrite Hk.
  - reflexivity.
  - rewrite Hbt. cbn [text orElse negb orb andb Js.truthy].
    apply arrayIncludes_In in Hin. rewrite Hin.
    assert (Hnz : String.eqb bt "" = false).
    { apply String.eqb_neq. intros ->.
      apply arrayIncludes_In in Hin. simpl in Hin.
      intuition discriminate. }
    rewrite Hnz. reflexivity.
Qed.

(** X16.  The password bound is 8 UTF-16 code units, what [length] counts:
    with the other fields valid, a non-empty password of fewer than 8 units
    is answered 400 "Password must be at least 8 characters" with the world
    untouched, and a password of 8 units or more, with an email no stored
    user has, is answered 200 with the user persisted. *)
Theorem signupPOST_password_bound
        (E : Env) (b : SignupBody) (p : string) (w : World) :
  otherFieldsValid b -> s_password b = Some p -> p <> "" ->
  (Js.length p < 8 ->
   signupPOST E b w
   = (Ok (jsonStatus (BError "Password must be at least 8 characters") 400), w))
  /\ (8 <= Js.length p ->
      (forall u, In u (users (db w)) -> email u <> s_email b) ->
      exists resp w' u,
        signupPOST E b w = (Ok resp, w')
        /\ status resp = 200
        /\ users (db w') = users (db w) ++ [u]
        /\ password u = hashPassword E p).
Proof.
  intros Hvalid Hp Hne.
  pose proof (@signupValidation_password b p Hvalid Hp Hne) as Hval.
  split.
  - intros Hshort. rewrite signupPOST_run, Hval.
    apply Nat.ltb_lt in Hshort. now rewrite Hshort.
  - intros Hlong Hunused. rewrite signupPOST_run, Hval.
    apply Nat.ltb_ge in Hlong. rewrite Hlong. cbv zeta.
    assert (Hfind : find (hasEmail (text (s_email b))) (users (db w)) = None).
    { destruct (find _ (users (db w))) as [v|] eqn:Hf; [| reflexivity].
      exfalso. apply find_some in Hf. destruct Hf as [Hin Hq].
      apply (Hunused v Hin). unfold hasEmail in Hq.
      destruct Hvalid as (He & _).
      destruct (s_email b) as [e|]; [| discriminate].
      destruct (email v) as [e'|]; [| discriminate].
      apply String.eqb_eq in Hq. now subst. }
    rewrite Hfind.
    destruct (registerUser_effect E (text (s_email b)) (text (s_password b))
                (text (s_companyName b)) (text (s_userType b)) (s_bidderType b)
                (withDb (logged (FindOne Users)) w))
      as (r & w' & Hrun & Hus & _ & Hmail).
    exists r, w'. eexists. split; [exact Hrun |]. split; [| split].
    + destruct (deliver E _ _).
      * destruct Hmail as (_ & _ & [-> | ->]); reflexivity.
      * destruct Hmail as (_ & -> & _). reflexivity.
    + exact Hus.
    + unfold newUserRecord. cbn [password]. now rewrite Hp.
Qed.

(** A password of eight bytes and seven code units is turned away; one of
    nine ASCII letters and digits is taken. *)
Lemma signupPOST_password_bound_witness :
  String.length SignupEdge.sevenUnits = 8
  /\ signupPOST Scenario.reliable SignupEdge.shortPassword SignupScenario.fresh
     = (Ok (jsonStatus (BError "Password must be at least 8 characters") 400),
        SignupScenario.fresh)
  /\ exists resp w' u,
       signupPOST Scenario.reliable SignupScenario.bidderBody SignupScenario.fresh
       = (Ok resp, w')
       /\ status resp = 200
       /\ users (db w') = users (db SignupScenario.fresh) ++ [u]
       /\ password u = "hashed:password1".
Proof.
  split; [reflexivity |]. split.
  - apply (@signupPOST_password_bound Scenario.reliable SignupEdge.shortPassword
             SignupEdge.sevenUnits SignupScenario.fresh).
    + split; [reflexivity |]. split; [reflexivity |]. right.
      split; [reflexivity |]. exists "SUPPLIER". split; [reflexivity |].
      simpl. tauto.
    + reflexivity.
    + discriminate.
    + vm_compute. lia.
  - apply (@signupPOST_password_bound Scenario.reliable SignupScenario.bidderBody
             "password1" SignupScenario.fresh).
    + split; [reflexivity |]. split; [reflexivity |]. right.
      split; [reflexivity |]. exists "CONTRACTOR". split; [reflexivity |].
      simpl. tauto.
    + reflexivity.
    + discriminate.
    + vm_compute. lia.
    + intros u [].
Defined.







(** X18.  After a signup answered 200, a later signup with the same email
    is answered 400, whatever else its body says; it persists nothing and
    attempts no email. *)
Theorem signupPOST_same_email_again
        (E : Env) (b b' : SignupBody) (w w1 : World) (r : Response) :
  signupPOST E b w = (Ok r, w1) ->
  status r = 200 ->
  s_email b' = s_email b ->
  exists r' w2,
    signupPOST E b' w1 = (Ok r', w2)
    /\ status r' = 400
    /\ contents (db w2) = contents (db w1)
    /\ attempts w2 = attempts w1.
Proof.
  intros Hrun Hok Hsame.
  destruct (signupPOST_cases E b w)
    as [(err & w0 & Hrun0 & _) | (resp & w0 & u & Hrun0 & Hus & _)];
    rewrite Hrun0 in Hrun.
  { injection Hrun as <- _. discriminate Hok. }
  injection Hrun as -> ->.
  destruct (@signupPOST_persisted E b w _ _ u Hrun0 Hus) as (_ & _ & Hu).
  rewrite signupPOST_run.
  destruct (signupValidation b') as [err|].
  - eexists. eexists. split; [reflexivity |]. auto.
  - cbv zeta. rewrite Hsame.
    destruct (find (hasEmail (text (s_email b))) (users (db w1)))
      as [existing|] eqn:Hfind.
    + eexists. eexists. split; [reflexivity |]. auto.
    + exfalso.
      assert (Hin : In u (users (db w1)))
        by (rewrite Hus; apply in_or_app; right; now left).
      pose proof (find_none _ _ Hfind u Hin) as Hq.
      rewrite Hu in Hq. unfold hasEmail, newUserRecord in Hq. cbn [email] in Hq.
      now rewrite String.eqb_refl in Hq.
Qed.

Lemma signupPOST_same_email_again_witness :
  exists r w1 r' w2,
    signupPOST Scenario.reliable SignupScenario.bidderBody SignupScenario.fresh
    = (Ok r, w1)
    /\ signupPOST Scenario.reliable SignupScenario.bidderBody w1 = (Ok r', w2)
    /\ status r = 200 /\ status r' = 400
    /\ List.length (users (db w2)) = 1.
Proof.
  pose (run := signupPOST Scenario.reliable SignupScenario.bidderBody
                          SignupScenario.fresh).
  assert (Hrun : signupPOST Scenario.reliable SignupScenario.bidderBody
                            SignupScenario.fresh = (Ok signupSuccess, snd run))
    by (vm_compute; reflexivity).
  destruct (@signupPOST_same_email_again
              Scenario.reliable SignupScenario.bidderBody
              SignupScenario.bidderBody SignupScenario.fresh (snd run)
              signupSuccess Hrun eq_refl eq_refl)
    as (r' & w2 & Hrun' & H400 & Hsame & _).
  exists signupSuccess, (snd run), r', w2.
  split; [exact Hrun |]. split; [exact Hrun' |]. split; [reflexivity |].
  split; [exact H400 |].
  assert (Hu : users (db w2) = users (db (snd run)))
    by exact (f_equal (fun t => fst (fst t)) Hsame).
  rewrite Hu. vm_compute. reflexivity.
Defined.



(** X20.  The verification email, when the transport delivers it, goes to
    the address stored on the new record and carries the token stored on
    that record and the company name stored on it. *)
Theorem signupPOST_mails_the_stored_token
        (E : Env) (b : SignupBody) (w : World)
        (r : Outcome Response) (w' : World) (u : User) (e : string) :
  signupPOST E b w = (r, w') ->
  users (db w') = users (db w) ++ [u] ->
  email u = Some e ->
  deliver E (attempts w) e = true ->
  In (VerificationMail e (verificationToken u) (companyName u)) (outbox w').
Proof.
  intros Hrun Husers He Hd.
  destruct (@signupPOST_persisted E b w r w' u Hrun Husers) as (_ & Hreg & Hu).
  destruct (registerUser_effect E (text (s_email b)) (text (s_password b))
              (text (s_companyName b)) (text (s_userType b)) (s_bidderType b)
              (withDb (logged (FindOne Users)) w))
    as (resp & w0 & Hrun0 & _ & _ & Hmail).
  rewrite Hrun0 in Hreg. injection Hreg as _ <-.
  rewrite Hu in He |- *. unfold newUserRecord in He |- *.
  cbn [email verificationToken companyName] in He |- *.
  injection He as He. subst e.
  cbn [withDb attempts draws] in Hmail |- *. rewrite Hd in Hmail.
  destruct Hmail as (_ & Hin & _). exact Hin.
Qed.

Lemma signupPOST_mails_the_stored_token_witness :
  exists r w' u,
    signupPOST Scenario.reliable SignupScenario.bidderBody SignupScenario.fresh
    = (r, w')
    /\ verificationToken u = "token-0"
    /\ In (VerificationMail "a@x.com" (verificationToken u) (companyName u))
          (outbox w').
Proof.
  pose (run := signupPOST Scenario.reliable SignupScenario.bidderBody
                          SignupScenario.fresh).
  pose (u := newUserRecord Scenario.reliable "a@x.com" "password1" "Acme"
                           "bidder" (Some "CONTRACTOR")
                           (withDb (logged (FindOne Users)) SignupScenario.fresh)).
  assert (Hrun : signupPOST Scenario.reliable SignupScenario.bidderBody
                            SignupScenario.fresh = (fst run, snd run))
    by (vm_compute; reflexivity).
  assert (Husers : users (db (snd run)) = users (db SignupScenario.fresh) ++ [u])
    by (vm_compute; reflexivity).
  exists (fst run), (snd run), u.
  split; [exact Hrun |]. split; [reflexivity |].
  exact (@signupPOST_mails_the_stored_token
           Scenario.reliable SignupScenario.bidderBody SignupScenario.fresh
           (fst run) (snd run) u "a@x.com" Hrun Husers eq_refl eq_refl).
Defined.

(** X21.  What emailSent reports.  The response of a signup that persisted
    a user is the success one (emailSent = true) or the warning one
    (emailSent = false, "Email delivery failed"); it says emailSent = true
    only when the transport delivered the verification email; and when the
    transport rejects the verification email the response is the warning
    one, that send was the only one attempted and no mail went out. *)
Theorem signupPOST_emailSent_needs_verification_mail
        (E : Env) (b : SignupBody) (w : World)
        (r : Outcome Response) (w' : World) (u : User) (e : string) :
  signupPOST E b w = (r, w') ->
  users (db w') = users (db w) ++ [u] ->
  s_email b = Some e ->
  (r = Ok signupSuccess \/ r = Ok signupWarning)
  /\ (r = Ok signupSuccess -> deliver E (attempts w) e = true)
  /\ (deliver E (attempts w) e = false ->
      r = Ok signupWarning
      /\ attempts w' = S (attempts w) /\ outbox w' = outbox w).
Proof.
  intros Hrun Husers He.
  destruct (@signupPOST_persisted E b w r w' u Hrun Husers) as (_ & Hreg & _).
  destruct (registerUser_response E (text (s_email b)) (text (s_password b))
              (text (s_companyName b)) (text (s_userType b)) (s_bidderType b)
              (withDb (logged (FindOne Users)) w))
    as (w0 & Hrun0 & _ & Hone).
  destruct (registerUser_effect E (text (s_email b)) (text (s_password b))
              (text (s_companyName b)) (text (s_userType b)) (s_bidderType b)
              (withDb (logged (FindOne Users)) w))
    as (r1 & w1 & Hrun1 & _ & _ & Hmail).
  rewrite Hrun0 in Hrun1. injection Hrun1 as <- <-.
  rewrite Hrun0 in Hreg. injection Hreg as <- <-.
  rewrite He in *. cbn [text orElse withDb attempts] in *.
  unfold mailOutcomeResponse in *.
  destruct (deliver E (attempts w) e).
  - split; [| split; [reflexivity | discriminate]].
    destruct (option_map _ _) as [[|]|]; auto.
  - destruct Hmail as (_ & _ & Hob).
    split; [now right |]. split; [discriminate |].
    intros _. split; [reflexivity |]. split; [now apply Hone | exact Hob].
Qed.

Lemma signupPOST_emailSent_needs_verification_mail_witness :
  exists w' u,
    signupPOST Scenario.unreachable SignupScenario.bidderBody
               SignupScenario.fresh = (Ok signupWarning, w')
    /\ users (db w') = users (db SignupScenario.fresh) ++ [u]
    /\ attempts w' = 1
    /\ outbox w' = [].
Proof.
  pose (run := signupPOST Scenario.unreachable SignupScenario.bidderBody
                          SignupScenario.fresh).
  pose (u := newUserRecord Scenario.unreachable "a@x.com" "password1"
                           "Acme" "bidder" (Some "CONTRACTOR")
                           (withDb (logged (FindOne Users)) SignupScenario.fresh)).
  assert (Hrun : signupPOST Scenario.unreachable SignupScenario.bidderBody
                            SignupScenario.fresh = (fst run, snd run))
    by (vm_compute; reflexivity).
  assert (Husers : users (db (snd run)) = users (db SignupScenario.fresh) ++ [u])
    by (vm_compute; reflexivity).
  destruct (@signupPOST_emailSent_needs_verification_mail
              Scenario.unreachable SignupScenario.bidderBody
              SignupScenario.fresh (fst run) (snd run) u "a@x.com"
              Hrun Husers eq_refl)
    as (_ & _ & Hrejected).
  destruct (Hrejected eq_refl) as (Hr & Hatt & Hob).
  exists (snd run), u.
  split; [rewrite <- Hr; exact Hrun |]. split; [exact Husers |].
  split; [exact Hatt | exact Hob].
Defined.

(** ** Project creation: who gets in, what is stored, who is told *)

Lemma bearer_token (authHeader : string) :
  Js.startsWith authHeader "Bearer " = true ->
  authHeader = ("Bearer " ++ Js.substringFrom 7 authHeader)%string.
Proof.
  intros H. apply startsWith_spec in H. destruct H as [post ->]. reflexivity.
Qed.

Lemma projectGate_admits (E : Env) (request : ProjectRequest) (payload : Payload) :
  projectGate E request = inr payload ->
  exists token,
    authorization request = Some ("Bearer " ++ token)%string
    /\ verifyToken E token = Some payload
    /\ tok_userType payload = "tender"
    /\ Js.truthy (b_title (projectBody request)) = true
    /\ Js.truthy (b_description (projectBody request)) = true
    /\ Js.truthy (b_budget (projectBody request)) = true
    /\ Js.truthy (b_deadline (projectBody request)) = true
    /\ Js.truthy (b_category (projectBody request)) = true.
Proof.
  unfold projectGate.
  destruct (authorization request) as [h|]; [| discriminate].
  destruct (Js.truthy (Some h)); [| discriminate].
  destruct (Js.startsWith h "Bearer ") eqn:Hb; [| discriminate].
  cbn [negb orb].
  destruct (verifyToken E (Js.substringFrom 7 h)) as [pl|] eqn:Hv;
    [| discriminate].
  destruct (String.eqb (tok_userType pl) "tender") eqn:Ht; [| discriminate].
  cbn [negb].
  destruct (Js.truthy (b_title _)); [| discriminate].
  destruct (Js.truthy (b_description _)); [| discriminate].
  destruct (Js.truthy (b_budget _)); [| discriminate].
  destruct (Js.truthy (b_deadline _)); [| discriminate].
  destruct (Js.truthy (b_category _)); [| discriminate].
  intros H. injection H as <-.
  exists (Js.substringFrom 7 h). apply String.eqb_eq in Ht.
  split; [f_equal; now apply bearer_token |]. auto 10.
Qed.

Lemma projectGate_turns_away (E : Env) (request : ProjectRequest) (resp : Response) :
  projectGate E request = inl resp -> status resp = 401 \/ status resp = 400.
Proof.
  unfold projectGate.
  destruct (authorization request) as [h|];
    [| intros H; injection H as <-; now left].
  destruct (_ || _); [intros H; injection H as <-; now left |].
  destruct (verifyToken E _) as [pl|];
    [| intros H; injection H as <-; now left].
  destruct (negb _); [intros H; injection H as <-; now left |].
  destruct (_ || _); [intros H; injection H as <-; now right | discriminate].
Qed.

(** What [createProject] answers: the success, or it throws on the
    creator's email. *)
Lemma createProject_outcome (E : Env) (payload : Payload) (b : ProjectBody)
      (w : World) :
  exists out w',
    createProject E payload b w = (out, w')
    /\ (out = Ok (json (BCreated "Project created successfully"
                                 (objectId E (nextId (db w)))))
        \/ exists addr, out = Throw (EmailFailed addr)).
Proof.
  destruct (mailTarget (tok_userId payload) (db w)) as [addr|] eqn:Ht.
  - destruct (deliver E (attempts w) addr) eqn:Hd.
    + destruct (createProject_bidder_step_tolerated E payload b w)
        as (w' & Hrun & _); [now rewrite Ht |].
      eexists. eexists. split; [exact Hrun | now left].
    + destruct (createProject_creator_mail_rejected E payload b w Ht Hd)
        as (w' & Hrun & _).
      eexists. eexists. split; [exact Hrun |]. right. now exists addr.
  - destruct (createProject_bidder_step_tolerated E payload b w)
      as (w' & Hrun & _); [now rewrite Ht |].
    eexists. eexists. split; [exact Hrun | now left].
Qed.

(** X22.  A project request answered 401 or 400 has touched nothing: no
    record, no driver call, no email, no log line. *)
Theorem projectsPOST_turned_away_changes_nothing
        (E : Env) (request : ProjectRequest) (w w' : World) (r : Response) :
  projectsPOST E request w = (Ok r, w') ->
  status r = 401 \/ status r = 400 ->
  w' = w.
Proof.
  intros Hrun Hstatus. rewrite projectsPOST_run in Hrun.
  destruct (projectGate E request) as [resp | payload].
  - now injection Hrun as _ <-.
  - exfalso.
    destruct (createProject_outcome E payload (projectBody request) w)
      as (out & w0 & Hcp & [-> | (addr & ->)]);
      rewrite Hcp in Hrun; injection Hrun as <- _;
      destruct Hstatus; discriminate.
Qed.

Lemma projectsPOST_turned_away_changes_nothing_witness :
  exists w',
    projectsPOST Scenario.reliable
                 (mkProjectRequest (Some "Bearer bidder-token")
                                   ProjectScenario.body)
                 Scenario.directory
    = (Ok (jsonStatus (BError "Unauthorized") 401), w')
    /\ w' = Scenario.directory.
Proof.
  pose (run := projectsPOST Scenario.reliable
                 (mkProjectRequest (Some "Bearer bidder-token")
                                   ProjectScenario.body)
                 Scenario.directory).
  assert (Hrun : projectsPOST Scenario.reliable
                   (mkProjectRequest (Some "Bearer bidder-token")
                                     ProjectScenario.body)
                   Scenario.directory
                 = (Ok (jsonStatus (BError "Unauthorized") 401), snd run))
    by (vm_compute; reflexivity).
  exists (snd run). split; [exact Hrun |].
  exact (@projectsPOST_turned_away_changes_nothing
           Scenario.reliable _ Scenario.directory (snd run) _ Hrun
           (or_introl eq_refl)).
Defined.

(** X23.  Who gets past the door: a project request that is not answered
    401 came with an authorization header "Bearer " followed by a token
    that verifies as a user of type tender. *)
Theorem projectsPOST_requires_tender_token
        (E : Env) (request : ProjectRequest) (w w' : World) (r : Response) :
  projectsPOST E request w = (Ok r, w') ->
  status r <> 401 ->
  exists token payload,
    authorization request = Some ("Bearer " ++ token)%string
    /\ verifyToken E token = Some payload
    /\ tok_userType payload = "tender".
Proof.
  intros Hrun Hstatus. rewrite projectsPOST_run in Hrun.
  destruct (projectGate E request) as [resp | payload] eqn:Hgate.
  - injection Hrun as <- _. revert Hgate Hstatus. unfold projectGate.
    destruct (authorization request) as [h|];
      [| intros H; injection H as <-; intros Hs; now elim Hs].
    destruct (Js.truthy (Some h)) eqn:Hh;
      [| intros H; injection H as <-; intros Hs; now elim Hs].
    destruct (Js.startsWith h "Bearer ") eqn:Hb;
      [| intros H; injection H as <-; intros Hs; now elim Hs].
    cbn [negb orb].
    destruct (verifyToken E (Js.substringFrom 7 h)) as [pl|] eqn:Hv;
      [| intros H; injection H as <-; intros Hs; now elim Hs].
    destruct (String.eqb (tok_userType pl) "tender") eqn:Ht;
      [| intros H; injection H as <-; intros Hs; now elim Hs].
    intros _ _. exists (Js.substringFrom 7 h), pl.
    apply String.eqb_eq in Ht.
    split; [f_equal; now apply bearer_token | auto].
  - destruct (projectGate_admits E request Hgate) as (token & H1 & H2 & H3 & _).
    exists token, payload. auto.
Qed.

Lemma projectsPOST_requires_tender_token_witness :
  exists r w' token payload,
    projectsPOST Scenario.reliable ProjectScenario.request Scenario.directory
    = (Ok r, w')
    /\ status r = 200
    /\ authorization ProjectScenario.request = Some ("Bearer " ++ token)%string
    /\ verifyToken Scenario.reliable token = Some payload
    /\ tok_userType payload = "tender".
Proof.
  pose (run := projectsPOST Scenario.reliable ProjectScenario.request
                            Scenario.directory).
  pose (r := json (BCreated "Project created successfully" "oid0")).
  assert (Hrun : projectsPOST Scenario.reliable ProjectScenario.request
                              Scenario.directory = (Ok r, snd run))
    by (vm_compute; reflexivity).
  destruct (@projectsPOST_requires_tender_token
              Scenario.reliable ProjectScenario.request Scenario.directory
              (snd run) r Hrun)
    as (token & payload & H1 & H2 & H3).
  - discriminate.
  - exists r, (snd run), token, payload.
    split; [exact Hrun |]. split; [reflexivity |]. auto.
Defined.

(** The notifications a successful [createProject] leaves: the creator's,
    then one per interested bidder. *)
Lemma createProject_success_run (E : Env) (payload : Payload) (b : ProjectBody)
      (w : World) :
  creatorMailGoesThrough E payload w ->
  let pid := objectId E (nextId (db w)) in
  exists w' creatorNote bidderNotes,
    createProject E payload b w
    = (Ok (json (BCreated "Project created successfully" pid)), w')
    /\ projects (db w') = projects (db w) ++ [newProjectRecord E payload b w]
    /\ users (db w') = users (db w)
    /\ notifications (db w')
       = notifications (db w) ++ creatorNote :: bidderNotes
    /\ creatorNote
       = mkNotification (objectId E (nextId (db w) + 1)) (tok_userId payload)
           PROJECT_CREATED "Project Created Successfully"
           ("Your project " ++ dq ++ text (b_title b) ++ dq
            ++ " has been created and is now open for bids.")
           false (clock E (S (S (ticks w))))
           (Some (mkMetadata (Some pid) None None None))
    /\ map userId bidderNotes = biddersFor b (db w)
    /\ forall n, In n bidderNotes ->
         type n = NEW_TENDER_AVAILABLE /\ read n = false
         /\ title n = "New Tender Available"
         /\ metadata n = Some (mkMetadata (Some pid) None None None).
Proof.
  intros Htarget pid. unfold creatorMailGoesThrough in Htarget.
  unfold createProject, bind, newDate, insertOneProject, withDb, logged, bumpId,
    setProjects.
  cbn [db users notifications projects nextId dbLog ticks attempts draws
       outbox console p_id].
  rewrite createNotification_run.
  cbn [db users notifications projects nextId dbLog ticks attempts draws
       outbox console].
  cbv zeta.
  erewrite mailTarget_same_users by (cbn [users]; reflexivity).
  unfold tryCatch, getInterestedBidders, bind, findUsers, ret, withDb, logged.
  unfold biddersFor.
  destruct (mailTarget (tok_userId payload) (db w)) as [addr|];
    [rewrite Htarget |];
    cbn [db users notifications projects nextId dbLog ticks attempts draws
         outbox console withNotification];
    match goal with
    | |- context [Nat.ltb 0 (List.length ?l)] =>
        destruct l as [|id ids] eqn:Hids
    end;
    cbn [List.length Nat.ltb Nat.leb];
    try rewrite createBulkNotifications_run by discriminate;
    cbv zeta;
    cbn [db users notifications projects nextId dbLog ticks attempts draws
         outbox console].
  all: eexists; eexists; eexists; (split; [reflexivity |]).
  all: cbn [db users notifications projects].
  all: (split; [reflexivity |]); (split; [reflexivity |]).
  all: rewrite <- ?app_assoc; cbn [app].
  all: (split; [reflexivity |]); (split; [reflexivity |]).
  all: try (split; [reflexivity | intros n []]).
  all: split; [apply bulkRecords_userIds |];
    intros n Hn; apply bulkRecords_shape in Hn; tauto.
Qed.

Lemma projectsPOST_success (E : Env) (request : ProjectRequest) (w w' : World)
      (r : Response) :
  projectsPOST E request w = (Ok r, w') ->
  status r = 200 ->
  exists payload,
    projectGate E request = inr payload
    /\ creatorMailGoesThrough E payload w
    /\ createProject E payload (projectBody request) w = (Ok r, w').
Proof.
  intros Hrun Hok. rewrite projectsPOST_run in Hrun.
  destruct (projectGate E request) as [resp | payload] eqn:Hgate.
  - injection Hrun as <- _.
    destruct (projectGate_turns_away E request Hgate); congruence.
  - exists payload. split; [reflexivity |].
    unfold creatorMailGoesThrough.
    destruct (mailTarget (tok_userId payload) (db w)) as [addr|] eqn:Ht.
    + destruct (deliver E (attempts w) addr) eqn:Hd.
      * split; [reflexivity |].
        destruct (createProject E payload (projectBody request) w)
          as [[resp | e] w0]; [exact Hrun |].
        injection Hrun as <- _. discriminate.
      * exfalso.
        destruct (createProject_creator_mail_rejected
                    E payload (projectBody request) w Ht Hd) as (w0 & Hcp & _).
        rewrite Hcp in Hrun. injection Hrun as <- _. discriminate.
    + split; [exact I |].
      destruct (createProject E payload (projectBody request) w)
        as [[resp | e] w0]; [exact Hrun |].
      injection Hrun as <- _. discriminate.
Qed.

(** X24.  The project a 200 response reports: exactly one record was added,
    with the id the response carries, status open, bidCount 0, progress 0,
    the title and category of the body, and as tenderId, createdBy and
    tenderCompany the user id and company name of the verified token (the
    body cannot set them). *)
Theorem projectsPOST_success_record
        (E : Env) (request : ProjectRequest) (w w' : World) (r : Response) :
  projectsPOST E request w = (Ok r, w') ->
  status r = 200 ->
  exists token payload p,
    authorization request = Some ("Bearer " ++ token)%string
    /\ verifyToken E token = Some payload
    /\ projects (db w') = projects (db w) ++ [p]
    /\ body r = BCreated "Project created successfully" (p_id p)
    /\ p_status p = "open" /\ p_bidCount p = 0 /\ p_progress p = 0
    /\ p_tenderId p = tok_userId payload
    /\ p_createdBy p = tok_userId payload
    /\ p_tenderCompany p = tok_companyName payload
    /\ Some (p_title p) = b_title (projectBody request)
    /\ Some (p_category p) = b_category (projectBody request)
    /\ p_createdAt p = clock E (ticks w).
Proof.
  intros Hrun Hok.
  destruct (@projectsPOST_success E request w w' r Hrun Hok)
    as (payload & Hgate & Hmail & Hcp).
  destruct (@projectGate_admits E request payload Hgate)
    as (token & Hauth & Hverify & _ & Htitle & _ & _ & _ & Hcat).
  destruct (@createProject_success_run E payload (projectBody request) w Hmail)
    as (w0 & cn & bn & Hcp0 & Hprojects & _).
  rewrite Hcp0 in Hcp. injection Hcp as <- <-.
  exists token, payload, (newProjectRecord E payload (projectBody request) w).
  split; [exact Hauth |]. split; [exact Hverify |]. split; [exact Hprojects |].
  unfold newProjectRecord. cbn.
  destruct (b_title (projectBody request)) as [t|]; [| discriminate].
  destruct (b_category (projectBody request)) as [c|]; [| discriminate].
  cbn. repeat split.
Qed.

Lemma projectsPOST_success_record_witness :
  exists r w' p,
    projectsPOST Scenario.reliable ProjectScenario.request Scenario.directory
    = (Ok r, w')
    /\ status r = 200
    /\ projects (db w') = projects (db Scenario.directory) ++ [p]
    /\ p_status p = "open" /\ p_tenderId p = "t1".
Proof.
  pose (run := projectsPOST Scenario.reliable ProjectScenario.request
                            Scenario.directory).
  pose (r := json (BCreated "Project created successfully" "oid0")).
  assert (Hrun : projectsPOST Scenario.reliable ProjectScenario.request
                              Scenario.directory = (Ok r, snd run))
    by (vm_compute; reflexivity).
  destruct (@projectsPOST_success_record
              Scenario.reliable ProjectScenario.request Scenario.directory
              (snd run) r Hrun eq_refl)
    as (token & payload & p & Hauth & Hv & Hp & _ & Hs & _ & _ & Ht & _).
  exists r, (snd run), p.
  split; [exact Hrun |]. split; [reflexivity |]. split; [exact Hp |].
  split; [exact Hs |]. rewrite Ht.
  injection Hauth as <-.
  assert (Hpl : Some payload = Some (mkPayload "t1" "tender" "Acme Works"))
    by (rewrite <- Hv; reflexivity).
  injection Hpl as ->. reflexivity.
Defined.

(** X25.  Who is told about a project answered 200: the notification
    collection gains, in this order, one PROJECT_CREATED record for the
    token's user and one unread NEW_TENDER_AVAILABLE record for each id that
    [getInterestedBidders] returns for the body's category and
    specifications, all carrying the new project's id, and nothing else. *)
Theorem projectsPOST_success_notifications
        (E : Env) (request : ProjectRequest) (w w' : World) (r : Response) :
  projectsPOST E request w = (Ok r, w') ->
  status r = 200 ->
  exists token payload pid creatorNote bidderNotes,
    authorization request = Some ("Bearer " ++ token)%string
    /\ verifyToken E token = Some payload
    /\ body r = BCreated "Project created successfully" pid
    /\ notifications (db w')
       = notifications (db w) ++ creatorNote :: bidderNotes
    /\ userId creatorNote = tok_userId payload
    /\ type creatorNote = PROJECT_CREATED
    /\ metadata creatorNote = Some (mkMetadata (Some pid) None None None)
    /\ fst (getInterestedBidders
              (text (b_category (projectBody request)))
              (b_specifications (projectBody request)) w)
       = Ok (map userId bidderNotes)
    /\ forall n, In n bidderNotes ->
         type n = NEW_TENDER_AVAILABLE /\ read n = false
         /\ metadata n = Some (mkMetadata (Some pid) None None None).
Proof.
  intros Hrun Hok.
  destruct (@projectsPOST_success E request w w' r Hrun Hok)
    as (payload & Hgate & Hmail & Hcp).
  destruct (@projectGate_admits E request payload Hgate)
    as (token & Hauth & Hverify & _).
  destruct (@createProject_success_run E payload (projectBody request) w Hmail)
    as (w0 & cn & bn & Hcp0 & _ & _ & Hnotes & Hcn & Hbn & Hshape).
  rewrite Hcp0 in Hcp. injection Hcp as <- <-.
  exists token, payload, (objectId E (nextId (db w))), cn, bn.
  split; [exact Hauth |]. split; [exact Hverify |]. split; [reflexivity |].
  split; [exact Hnotes |]. rewrite Hcn. cbn [userId type metadata].
  split; [reflexivity |]. split; [reflexivity |]. split; [reflexivity |].
  split.
  - rewrite Hbn. reflexivity.
  - intros n Hn. destruct (Hshape n Hn) as (H1 & H2 & _ & H4). auto.
Qed.

Lemma projectsPOST_success_notifications_witness :
  exists r w' creatorNote bidderNotes,
    projectsPOST Scenario.reliable ProjectScenario.request Scenario.directory
    = (Ok r, w')
    /\ notifications (db w') = creatorNote :: bidderNotes
    /\ userId creatorNote = "t1"
    /\ map userId bidderNotes = ["b1"].
Proof.
  pose (run := projectsPOST Scenario.reliable ProjectScenario.request
                            Scenario.directory).
  pose (r := json (BCreated "Project created successfully" "oid0")).
  assert (Hrun : projectsPOST Scenario.reliable ProjectScenario.request
                              Scenario.directory = (Ok r, snd run))
    by (vm_compute; reflexivity).
  destruct (@projectsPOST_success_notifications
              Scenario.reliable ProjectScenario.request Scenario.directory
              (snd run) r Hrun eq_refl)
    as (token & payload & pid & cn & bn & Hauth & Hv & _ & Hn & Hu & _ & _
        & Hids & _).
  exists r, (snd run), cn, bn.
  split; [exact Hrun |]. split; [exact Hn |]. split.
  - rewrite Hu. injection Hauth as <-.
    assert (Hpl : Some payload = Some (mkPayload "t1" "tender" "Acme Works"))
      by (rewrite <- Hv; reflexivity).
    injection Hpl as ->. reflexivity.
  - assert (H : Ok (map userId bn) = Ok ["b1"])
      by (rewrite <- Hids; reflexivity).
    now injection H.
Defined.

(** ** Project listing: order, limit, completeness, role filter *)

Lemma firstn_HdRel {A} (R : A -> A -> Prop) (a : A) (l : list A) (n : nat) :
  HdRel R a l -> HdRel R a (firstn n l).
Proof.
  intros H. destruct n as [|n]; [constructor |].
  destruct l as [|b r]; simpl; [constructor |].
  constructor. now inversion H.
Qed.

Lemma firstn_Sorted {A} (R : A -> A -> Prop) (l : list A) (n : nat) :
  Sorted R l -> Sorted R (firstn n l).
Proof.
  revert n. induction l as [|a r IH]; intros n Hs.
  - rewrite firstn_nil. constructor.
  - destruct n as [|n]; simpl; [constructor |].
    inversion Hs as [|? ? Hr Hhd]; subst.
    constructor; [now apply IH | now apply firstn_HdRel].
Qed.

Lemma findProjects_shape (f : Filter) (limit : option Z) (w w' : World)
      (found : list Project) :
  findProjects f limit w = (Ok found, w') ->
  exists n,
    limit = Some n
    /\ found = (if Z.eqb n 0
                then sortDesc p_createdAt
                              (filter (matchesFilter f) (projects (db w)))
                else firstn (limitCount n)
                            (sortDesc p_createdAt
                                      (filter (matchesFilter f)
                                              (projects (db w))))).
Proof.
  unfold findProjects, cursorLimit.
  destruct limit as [n|]; [| discriminate].
  destruct (9223372036854775808 <=? Z.abs n)%Z; [discriminate |].
  intros H. exists n. split; [reflexivity |].
  destruct (Z.eqb n 0); now injection H as <- _.
Qed.

(** What a listing run went through when it answered with projects. *)
Lemma projectsGET_listing (q : ProjectsQuery) (w w' : World) (r : Response)
      (found : list Project) (filtered : bool) (filterType : option string) :
  projectsGET q w = (Ok r, w') ->
  body r = BProjects found filtered filterType ->
  exists f,
    buildFilter q = inr f
    /\ findProjects f (requestedLimit q) w = (Ok found, w')
    /\ filtered = bidderView q
    /\ filterType = (if Js.truthy (q_bidderType q) then q_bidderType q else None).
Proof.
  intros Hrun Hbody. rewrite projectsGET_run in Hrun.
  destruct (buildFilter q) as [e | f].
  { injection Hrun as <- _. discriminate. }
  destruct (findProjects f (requestedLimit q) w) as [[docs | e] w0] eqn:Hfind.
  2:{ injection Hrun as <- _. discriminate. }
  injection Hrun as <- <-. cbn [body json] in Hbody.
  injection Hbody as -> -> ->. exists f. auto.
Qed.

(** X26.  GET /api/projects only reads: it answers 200 or 500, leaves the
    three collections as they were and sends no email.  The projects of a
    200 answer come newest first, at most |limit| of them for a limit
    other than zero, and at most 50 when the request has no limit
    parameter. *)
Theorem projectsGET_read_only_sorted_limited (q : ProjectsQuery) (w : World) :
  exists r w',
    projectsGET q w = (Ok r, w')
    /\ contents (db w') = contents (db w)
    /\ attempts w' = attempts w /\ outbox w' = outbox w
    /\ (status r = 200 \/ status r = 500)
    /\ forall found filtered filterType,
         body r = BProjects found filtered filterType ->
         newestFirst p_createdAt found
         /\ (forall n, requestedLimit q = Some n -> n <> 0%Z ->
                       List.length found <= Z.to_nat (Z.abs n))
         /\ (Js.truthy (q_limit q) = false -> List.length found <= 50).
Proof.
  assert (Hgen : forall r w' found filtered filterType,
             projectsGET q w = (Ok r, w') ->
             body r = BProjects found filtered filterType ->
             newestFirst p_createdAt found
             /\ (forall n, requestedLimit q = Some n -> n <> 0%Z ->
                           List.length found <= Z.to_nat (Z.abs n))
             /\ (Js.truthy (q_limit q) = false -> List.length found <= 50)).
  { intros r w' found fl ft Hrun Hbody.
    destruct (@projectsGET_listing q w w' r found fl ft Hrun Hbody)
      as (f & _ & Hfind & _).
    destruct (@findProjects_shape f _ w w' found Hfind) as (n & Hn & ->).
    assert (Hcut : forall m, m <> 0%Z -> n = m ->
                     List.length
                       (if Z.eqb n 0
                        then sortDesc p_createdAt
                               (filter (matchesFilter f) (projects (db w)))
                        else firstn (limitCount n)
                               (sortDesc p_createdAt
                                  (filter (matchesFilter f) (projects (db w)))))
                     <= Z.to_nat (Z.abs m)).
    { intros m Hm ->. apply Z.eqb_neq in Hm. rewrite Hm.
      etransitivity; [apply firstn_le_length | apply limitCount_le]. }
    split; [| split].
    - destruct (Z.eqb n 0).
      + apply sortDesc_sorted.
      + apply firstn_Sorted, sortDesc_sorted.
    - intros m Hm Hnz. apply Hcut; [exact Hnz | congruence].
    - intros Hnone. unfold requestedLimit in Hn. rewrite Hnone in Hn.
      change (Some 50%Z = Some n) in Hn. injection Hn as <-.
      apply (Hcut 50%Z); [discriminate | reflexivity]. }
  rewrite projectsGET_run in Hgen |- *.
  destruct (buildFilter q) as [e | f].
  - eexists. eexists. split; [reflexivity |].
    cbn [db attempts outbox]. do 3 (split; [reflexivity |]).
    split; [now right |].
    intros found fl ft H. discriminate.
  - unfold findProjects in *.
    destruct (cursorLimit _ _) as [docs|].
    + eexists. eexists. split; [reflexivity |].
      cbn [db withDb logged contents users notifications projects attempts
           outbox].
      do 3 (split; [reflexivity |]). split; [now left |].
      intros found fl ft H. eapply Hgen; [reflexivity | exact H].
    + eexists. eexists. split; [reflexivity |].
      cbn [db withDb logged contents users notifications projects attempts
           outbox].
      do 3 (split; [reflexivity |]). split; [now right |].
      intros found fl ft H. discriminate.
Qed.

(** X27.  Nothing that matches is left out unless the limit cuts: when the
    limit is zero, or positive and at least the number of stored projects
    that match the filter of the request, the projects answered are exactly
    the stored projects that match it, each once per stored copy. *)
Theorem projectsGET_complete_within_limit
        (q : ProjectsQuery) (w w' : World) (r : Response)
        (found : list Project) (filtered : bool) (filterType : option string)
        (f : Filter) (n : Z) :
  projectsGET q w = (Ok r, w') ->
  body r = BProjects found filtered filterType ->
  buildFilter q = inr f ->
  requestedLimit q = Some n ->
  (n = 0%Z
   \/ ((0 < n)%Z
       /\ List.length (filter (matchesFilter f) (projects (db w)))
          <= Z.to_nat n)) ->
  Permutation found (filter (matchesFilter f) (projects (db w))).
Proof.
  intros Hrun Hbody Hf Hn Hroom.
  destruct (@projectsGET_listing q w w' r found filtered filterType Hrun Hbody)
    as (f0 & Hf0 & Hfind & _).
  rewrite Hf in Hf0. injection Hf0 as <-.
  destruct (@findProjects_shape f _ w w' found Hfind) as (m & Hm & ->).
  rewrite Hn in Hm. injection Hm as <-.
  destruct (Z.eqb n 0) eqn:Hz; [apply sortDesc_perm |].
  destruct Hroom as [-> | [Hpos Hroom]]; [discriminate |].
  unfold limitCount. apply Z.ltb_lt in Hpos. rewrite Hpos.
  rewrite firstn_all2; [apply sortDesc_perm |].
  now rewrite (Permutation_length (sortDesc_perm p_createdAt _)).
Qed.

Lemma projectsGET_complete_within_limit_witness :
  exists r w' found,
    projectsGET ListingScenario.noParameters ListingScenario.catalogue
    = (Ok r, w')
    /\ body r = BProjects found false None
    /\ Permutation found
         [ListingScenario.project "p1" "open" 10;
          ListingScenario.project "p3" "active" 30].
Proof.
  pose (run := projectsGET ListingScenario.noParameters
                           ListingScenario.catalogue).
  pose (found := [ListingScenario.project "p3" "active" 30;
                  ListingScenario.project "p1" "open" 10]).
  pose (r := mkResponse 200 (BProjects found false None)).
  assert (Hrun : projectsGET ListingScenario.noParameters
                             ListingScenario.catalogue = (Ok r, snd run))
    by (vm_compute; reflexivity).
  exists r, (snd run), found. split; [exact Hrun |]. split; [reflexivity |].
  apply (@projectsGET_complete_within_limit
           ListingScenario.noParameters ListingScenario.catalogue (snd run) r
           found false None
           (mkFilter (Some (StatusIn ["open"; "active"])) None None) 50%Z
           Hrun eq_refl eq_refl eq_refl).
  right. split; [lia | vm_compute; lia].
Defined.

Lemma append_empty_r (s : string) : (s ++ "")%string = s.
Proof. induction s as [|c s IH]; simpl; [reflexivity | now rewrite IH]. Qed.

Lemma occursIn_self (s : string) : occursIn s s.
Proof.
  exists EmptyString, EmptyString. simpl. now rewrite append_empty_r.
Qed.

(** The four role tables: non-empty, and the alternation built from one
    splits back into its keywords. *)
Lemma categoryFilters_tables (bt : string) (kws : list string) :
  assoc bt categoryFilters = Some kws ->
  bt <> ""
  /\ getProperty categoryFilters bt = OwnArray kws
  /\ Nat.ltb 0 (List.length kws) = true
  /\ splitOn "|" (Js.join "|" kws) = kws.
Proof.
  intros H. unfold getProperty. rewrite H.
  unfold categoryFilters in H. cbn [assoc] in H.
  revert H.
  repeat match goal with
         | |- (if String.eqb ?k bt then _ else _) = _ -> _ =>
             destruct (String.eqb k bt) eqn:Hk;
             [apply String.eqb_eq in Hk; subst bt; intros H; injection H as <-;
              split; [discriminate |]; repeat split
             | clear Hk]
         end.
  discriminate.
Qed.

Lemma regexMatchI_keywords (kws : list string) (subject : string) :
  splitOn "|" (Js.join "|" kws) = kws ->
  regexMatchI (Js.join "|" kws) subject = true ->
  exists kw, In kw kws /\ occursIn kw subject.
Proof.
  intros Hsplit H. unfold regexMatchI in H. rewrite Hsplit in H.
  apply existsb_exists in H. destruct H as (kw & Hin & Hinc).
  exists kw. split; [exact Hin |]. now apply includes_spec in Hinc.
Qed.

(** X28.  The role filter: for userType bidder and a bidderType that has a
    table of categories (CONTRACTOR, DEVELOPER, SUPPLIER, CONSULTANT), every
    project answered mentions one of that table's keywords, letter case
    ignored, in its category or in its specifications. *)
Theorem projectsGET_role_filter
        (q : ProjectsQuery) (w w' : World) (r : Response)
        (found : list Project) (filtered : bool) (filterType : option string)
        (bt : string) (kws : list string) (p : Project) :
  projectsGET q w = (Ok r, w') ->
  body r = BProjects found filtered filterType ->
  q_userType q = Some "bidder" ->
  q_bidderType q = Some bt ->
  assoc bt categoryFilters = Some kws ->
  In p found ->
  filtered = true
  /\ exists kw, In kw kws /\ mentions kw p.
Proof.
  intros Hrun Hbody Hut Hbt Hkws Hin.
  destruct (@categoryFilters_tables bt kws Hkws) as (Hne & Hprop & Hlen & Hsplit).
  destruct (@projectsGET_listing q w w' r found filtered filterType Hrun Hbody)
    as (f & Hf & Hfind & Hfl & _).
  assert (Hview : bidderView q = true).
  { unfold bidderView. rewrite Hut, Hbt. cbn [String.eqb].
    replace (Js.truthy (Some bt)) with true
      by (symmetry; now apply truthy_some).
    reflexivity. }
  split; [congruence |].
  unfold buildFilter in Hf. rewrite Hview, Hbt in Hf. cbn [text orElse] in Hf.
  rewrite Hprop, Hlen in Hf. injection Hf as <-.
  destruct (@findProjects_sound _ _ _ _ _ _ Hfind Hin) as [_ Hmatch].
  unfold matchesFilter in Hmatch. cbn [f_or] in Hmatch.
  apply andb_true_iff in Hmatch. destruct Hmatch as [_ Hor].
  apply orb_true_iff in Hor. destruct Hor as [Hor | Hspec].
  - apply orb_true_iff in Hor. destruct Hor as [Hexact | Hcat].
    + apply arrayIncludes_In in Hexact.
      exists (p_category p). split; [exact Hexact |].
      left. apply occursIn_self.
    + destruct (@regexMatchI_keywords kws _ Hsplit Hcat) as (kw & Hk & Ho).
      exists kw. split; [exact Hk | now left].
  - destruct (p_specifications p) as [spec|] eqn:Hs; [| discriminate].
    destruct (@regexMatchI_keywords kws _ Hsplit Hspec) as (kw & Hk & Ho).
    exists kw. split; [exact Hk |]. right. exists spec. auto.
Qed.

Lemma projectsGET_role_filter_witness :
  exists r w' found,
    projectsGET (ListingEdge.asBidder "SUPPLIER" None) ListingEdge.market
    = (Ok r, w')
    /\ body r = BProjects found true (Some "SUPPLIER")
    /\ map p_id found = ["p2"]
    /\ exists kw,
         In kw ["Equipment"; "Materials"; "Goods"; "Supply Chain"; "Procurement"]
         /\ mentions kw (ListingEdge.tagged "p2" "Catering"
                           (Some "needs kitchen EQUIPMENT") 20).
Proof.
  pose (run := projectsGET (ListingEdge.asBidder "SUPPLIER" None)
                           ListingEdge.market).
  pose (p2 := ListingEdge.tagged "p2" "Catering"
                                 (Some "needs kitchen EQUIPMENT") 20).
  pose (r := mkResponse 200 (BProjects [p2] true (Some "SUPPLIER"))).
  assert (Hrun : projectsGET (ListingEdge.asBidder "SUPPLIER" None)
                             ListingEdge.market = (Ok r, snd run))
    by (vm_compute; reflexivity).
  destruct (@projectsGET_role_filter
              (ListingEdge.asBidder "SUPPLIER" None) ListingEdge.market
              (snd run) r [p2] true (Some "SUPPLIER") "SUPPLIER"
              ["Equipment"; "Materials"; "Goods"; "Supply Chain"; "Procurement"]
              p2 Hrun eq_refl eq_refl eq_refl eq_refl (or_introl eq_refl))
    as (_ & Hkw).
  exists r, (snd run), [p2].
  split; [exact Hrun |]. split; [reflexivity |]. split; [reflexivity |].
  exact Hkw.
Defined.

(** X29.  A bidderType without a table (BUYER, or any unknown word that is
    not a property of every object): no role filter is applied, the
    projects answered are those of the same request without userType and
    bidderType, and yet the answer says filtered = true with that
    bidderType as filterType. *)
Theorem projectsGET_unknown_bidderType_not_filtered
        (q : ProjectsQuery) (w : World) (bt : string) :
  q_userType q = Some "bidder" ->
  q_bidderType q = Some bt ->
  bt <> "" ->
  getProperty categoryFilters bt = Undefined ->
  exists r0 w',
    projectsGET (withoutRole q) w = (Ok r0, w')
    /\ projectsGET q w = (Ok (asFiltered bt r0), w').
Proof.
  intros Hut Hbt Hne Hprop.
  assert (Htruthy : Js.truthy (Some bt) = true) by now apply truthy_some.
  assert (Hview : bidderView q = true).
  { unfold bidderView. rewrite Hut, Hbt, Htruthy. reflexivity. }
  assert (Hf : buildFilter q = buildFilter (withoutRole q)).
  { unfold buildFilter. rewrite Hview, Hbt. cbn [text orElse].
    rewrite Hprop. reflexivity. }
  assert (Hplain : buildFilter (withoutRole q)
                   = inr (mkFilter (Some (statusClause q))
                                   (if Js.truthy (q_category q)
                                    then Some (text (q_category q)) else None)
                                   None)) by reflexivity.
  rewrite !projectsGET_run. rewrite Hf, Hplain, Hview, Hbt, Htruthy.
  change (requestedLimit (withoutRole q)) with (requestedLimit q).
  destruct (findProjects _ _ w) as [[found | e] w0];
    eexists; eexists; split; reflexivity.
Qed.

Lemma projectsGET_unknown_bidderType_not_filtered_witness :
  exists found w',
    projectsGET (ListingEdge.asBidder "BUYER" None) ListingEdge.market
    = (Ok (json (BProjects found true (Some "BUYER"))), w')
    /\ map p_id found = ["p3"; "p2"; "p1"].
Proof.
  destruct (@projectsGET_unknown_bidderType_not_filtered
              (ListingEdge.asBidder "BUYER" None) ListingEdge.market "BUYER")
    as (r0 & w' & Hplain & Hrole).
  - reflexivity.
  - reflexivity.
  - discriminate.
  - reflexivity.
  - assert (Hout : (Ok r0, w')
                   = (Ok (json (BProjects
                                  [ListingEdge.tagged "p3" "Catering" None 30;
                                   ListingEdge.tagged "p2" "Catering"
                                     (Some "needs kitchen EQUIPMENT") 20;
                                   ListingEdge.tagged "p1" "Road construction"
                                     None 10] false None)),
                      snd (projectsGET (withoutRole
                                          (ListingEdge.asBidder "BUYER" None))
                                       ListingEdge.market)))
      by (rewrite <- Hplain; vm_compute; reflexivity).
    injection Hout as -> ->.
    eexists. eexists. split; [exact Hrole | reflexivity].
Defined.

(** X30.  A bidderType that names a function every object inherits
    (constructor, hasOwnProperty, ...; length above zero): the lookup in the
    role table yields that function, joining it fails, and the request is
    answered 500 "Internal server error" before the database is read. *)
Theorem projectsGET_inherited_property_fails
        (q : ProjectsQuery) (w : World) (bt : string) (arity : nat) :
  q_userType q = Some "bidder" ->
  q_bidderType q = Some bt ->
  getProperty categoryFilters bt = InheritedFunction arity ->
  0 < arity ->
  exists w',
    projectsGET q w
    = (Ok (jsonStatus (BError "Internal server error") 500), w')
    /\ db w' = db w
    /\ console w'
       = console w
         ++ [LogError "Error fetching projects:"
                      (TypeError "relevantCategories.join is not a function")].
Proof.
  intros Hut Hbt Hprop Hpos.
  assert (Htruthy : Js.truthy (Some bt) = true).
  { apply truthy_some. intros ->. discriminate. }
  rewrite projectsGET_run.
  unfold buildFilter, bidderView. rewrite Hut, Hbt.
  replace (("bidder" =? "bidder")%string) with true by reflexivity.
  rewrite Htruthy. cbn [andb text orElse]. rewrite Hprop.
  apply Nat.ltb_lt in Hpos. rewrite Hpos.
  eexists. split; [reflexivity |]. split; reflexivity.
Qed.

Lemma projectsGET_inherited_property_fails_witness :
  exists w',
    projectsGET (ListingEdge.asBidder "constructor" None) ListingEdge.market
    = (Ok (jsonStatus (BError "Internal server error") 500), w')
    /\ db w' = db ListingEdge.market.
Proof.
  destruct (@projectsGET_inherited_property_fails
              (ListingEdge.asBidder "constructor" None) ListingEdge.market
              "constructor" 1)
    as (w' & Hrun & Hdb & _).
  - reflexivity.
  - reflexivity.
  - reflexivity.
  - lia.
  - exists w'. split; [exact Hrun | exact Hdb].
Defined.
